(** * Predictive-maintenance backend: ingestion and prediction pipeline

    A shallow embedding of the Python backend
    ([app/api/v1/machine_utils.py], [app/api/v1/predictions.py],
    [app/services/db_service.py], [app/api/v1/ingest.py],
    [app/api/v1/machines.py], [app/api/v1/chat.py] and the mock service
    [app/tests/ml_mock.py]) and the properties of its risk rules, retry
    loop, response normalisation, storage fallback, request validation,
    dashboard, machine list and chat.

    Python floats are IEEE-754 binary64 numbers: they are modelled by
    Rocq's primitive floats, so that [<] and [>] are the comparisons the
    interpreter performs (a NaN compares false with everything) and a
    literal such as [0.3] denotes the same binary64 value as in the
    source. *)

From Stdlib Require Import ZArith List String Ascii Bool Lia DecimalString.
From Stdlib Require Import Floats.
Import ListNotations.

#[local] Set Warnings "-inexact-float,-register-all".
#[local] Open Scope string_scope.
#[local] Open Scope list_scope.

(* ===================================================================== *)
(** ** Python values *)
(* ===================================================================== *)

Module Py.

(** The objects that flow through the handlers: what [json.loads] and
    [r.json()] build, plus [datetime] (a count of microseconds since the
    epoch).  A [dict] keeps its items in insertion order; its keys are
    strings and pairwise distinct, so the first binding of a key is its
    only one. *)
Inductive value : Type :=
| VNone
| VBool (b : bool)
| VInt (z : Z)
| VFloat (f : float)
| VStr (s : string)
| VList (l : list value)
| VDict (d : list (string * value))
| VDatetime (t : Z).

Definition datetime := Z.
Bind Scope Z_scope with datetime.

(** [bool(x)]: the truth value Python's [or], [if] and [not] test. *)
Definition truthy (v : value) : bool :=
  match v with
  | VNone => false
  | VBool b => b
  | VInt z => negb (z =? 0)%Z
  | VFloat f => negb (f =? 0)%float
  | VStr s => negb (String.eqb s "")
  | VList l => match l with [] => false | _ => true end
  | VDict d => match d with [] => false | _ => true end
  | VDatetime _ => true
  end.

(** [a or b]. *)
Definition or_ (a b : value) : value := if truthy a then a else b.

Definition is_none (v : value) : bool :=
  match v with VNone => true | _ => false end.

Fixpoint lookup (d : list (string * value)) (k : string) : option value :=
  match d with
  | [] => None
  | (k', v) :: d' => if String.eqb k' k then Some v else lookup d' k
  end.

(** [d.get(k, default)] and [d.get(k)]. *)
Definition get_default (d : list (string * value)) (k : string) (default : value) : value :=
  match lookup d k with Some v => v | None => default end.

Definition get (d : list (string * value)) (k : string) : value :=
  get_default d k VNone.

(** [float(n)] for an [int]: the nearest binary64 number, ties to even;
    [None] stands for the [OverflowError] of an integer too large. *)
Definition float_of_int (z : Z) : option float :=
  let f := SF2Prim (binary_normalize prec emax z 0 false) in
  if is_infinity f then None else Some f.

(** Library behaviour the handlers rely on and the repository does not
    define: string parsing and printing of the interpreter, and the
    coercions of the database driver. *)
Class Runtime : Type := {
  (** [float(s)] on a [str]; [None] is [ValueError]. *)
  float_of_str : string -> option float;
  (** [json.loads(s)]; [None] is a decoding error. *)
  json_loads : string -> option value;
  (** [str(x)]. *)
  str_of_value : value -> string;
  (** [dt.isoformat()]. *)
  isoformat : datetime -> string;
  (** [datetime.fromisoformat(s)]; [None] is [ValueError]. *)
  fromisoformat : string -> option datetime;
  (** [datetime.utcfromtimestamp(x)]; [None] is an out-of-range error. *)
  utcfromtimestamp : float -> option datetime;
  (** What the driver stores for a bound value whose Python type is not
      the column's ([None]: the statement is rejected). *)
  adapt_text : value -> option string;
  adapt_float : value -> option float;
  adapt_int : value -> option Z
}.

(** [float(x)]; [None] stands for the exception raised ([TypeError],
    [ValueError] or [OverflowError]). *)
Definition float_of_value `{Runtime} (v : value) : option float :=
  match v with
  | VFloat f => Some f
  | VInt z => float_of_int z
  | VBool b => Some (if b then 1 else 0)%float
  | VStr s => float_of_str s
  | VNone | VList _ | VDict _ | VDatetime _ => None
  end.

(** [xs[start:stop]] for integer bounds, negative ones counting from the
    end. *)
Definition slice_index (len i : Z) : Z :=
  if (i <? 0)%Z then Z.max 0 (i + len) else Z.min i len.

Definition slice {A : Type} (xs : list A) (start stop : Z) : list A :=
  let len := Z.of_nat (List.length xs) in
  let lo := slice_index len start in
  let hi := slice_index len stop in
  firstn (Z.to_nat (hi - lo)) (skipn (Z.to_nat lo) xs).

End Py.

Import Py.

(* ===================================================================== *)
(** ** app/api/v1/machine_utils.py *)
(* ===================================================================== *)

Module MachineUtils.

(** The pydantic model returned by the prediction endpoints. *)
Record PredictionResult : Type := {
  prediction_id : string;
  model_name : option string;
  label : option string;
  score : option float;
  meta : option (list (string * value))
}.

Definition score_to_label (score : float) : string :=
  if (score <? 0.3)%float then "normal"
  else if (score <? 0.7)%float then "warning"
  else "failure".

(** Exceptions that leave [call_ml_service_with_retry]. *)
Inductive exn : Type :=
| RemoteError (e : string)      (* the exception of the last failed attempt *)
| RaiseNone                     (* [raise None]: no attempt was made *)
| OverflowError.                (* [backoff * 2 ** i] out of the float range *)

(** [str(e)]. *)
Definition exn_message (e : exn) : string :=
  match e with
  | RemoteError msg => msg
  | RaiseNone => "exceptions must derive from BaseException"
  | OverflowError => "int too large to convert to float"
  end.

Inductive outcome (A : Type) : Type :=
| Returned (a : A)
| Raised (e : exn).
Arguments Returned {A} a.
Arguments Raised {A} e.

(** What an invocation did: how many requests it sent and the arguments
    of its [asyncio.sleep] calls, in order. *)
Record RetryTrace : Type := {
  attempts : nat;
  sleeps : list float
}.

Definition no_trace : RetryTrace := {| attempts := 0; sleeps := [] |}.

Definition sent (tr : RetryTrace) : RetryTrace :=
  {| attempts := S (attempts tr); sleeps := sleeps tr |}.

Definition slept (d : float) (tr : RetryTrace) : RetryTrace :=
  {| attempts := attempts tr; sleeps := sleeps tr ++ [d] |}.

(** [backoff * (2 ** i)]: the integer power is converted to a float
    before the product. *)
Definition backoff_delay (backoff : float) (i : nat) : option float :=
  match float_of_int (2 ^ Z.of_nat i) with
  | Some p => Some (backoff * p)%float
  | None => None
  end.

(** The body of [for i in range(retries)], from iteration [i] with [n]
    iterations left.  [post i] is the result of the [i]-th request:
    [inl e] when [client.post], [raise_for_status] or [r.json()] raises
    [e], [inr v] for the decoded body. *)
Fixpoint retry_loop (post : nat -> string + value) (backoff : float)
    (n i : nat) (last_error : option string) (tr : RetryTrace)
    : outcome value * RetryTrace :=
  match n with
  | O =>
      (match last_error with
       | Some e => Raised (RemoteError e)
       | None => Raised RaiseNone
       end, tr)
  | S n' =>
      match post i with
      | inr v => (Returned v, sent tr)
      | inl e =>
          match backoff_delay backoff i with
          | Some d => retry_loop post backoff n' (S i) (Some e) (slept d (sent tr))
          | None => (Raised OverflowError, sent tr)
          end
      end
  end.

Definition call_ml_service_with_retry (post : nat -> string + value)
    (retries : nat) (backoff : float) : outcome value * RetryTrace :=
  retry_loop post backoff retries 0 None no_trace.

Definition default_retries : nat := 5.
Definition default_backoff : float := 0.5%float.

(** [row_to_dict_safe]: a database row becomes the dictionary of its
    columns.  Rows are records here and their fields are the entries of
    that dictionary, so nothing is left to convert. *)
Definition row_to_dict_safe {Row : Type} (r : Row) : Row := r.

(** [parse_metadata]: a [dict] is returned as it is, a [str] is decoded
    (an undecodable one gives [{}]), anything else gives [None]. *)
Definition parse_metadata `{Runtime} (raw : value) : value :=
  match raw with
  | VNone => VNone
  | VDict d => VDict d
  | VStr s => match json_loads s with Some v => v | None => VDict [] end
  | _ => VNone
  end.

(** [s.replace("Z", "+00:00")]. *)
Fixpoint replace_Z (s : string) : string :=
  match s with
  | EmptyString => EmptyString
  | String c s' =>
      if Ascii.eqb c "Z"%char then String.append "+00:00" (replace_Z s')
      else String c (replace_Z s')
  end.

(** [parse_timestamp]. *)
Definition parse_timestamp `{Runtime} (ts : value) : option datetime :=
  match ts with
  | VDatetime t => Some t
  | VStr s => fromisoformat (replace_Z s)
  | _ => None
  end.

End MachineUtils.

Import MachineUtils.

(* ===================================================================== *)
(** ** app/services/db_service.py *)
(* ===================================================================== *)

Module DbService.

Definition uuid := string.

(** A row of [sensor_readings], with the column types of [_sensor_table]
    ([option] for a nullable column, [VNone] for a NULL document). *)
Record SensorRow : Type := {
  sr_id : uuid;
  sr_ts : datetime;
  sr_machine_id : string;
  sr_air_temperature : option float;
  sr_process_temperature : option float;
  sr_rotational_speed : option Z;
  sr_torque : option float;
  sr_tool_wear : option Z;
  sr_metadata : value;
  sr_created_at : datetime
}.

(** A row of [predictions], with the column types of
    [_predictions_table]. *)
Record PredictionRow : Type := {
  pr_id : uuid;
  pr_sensor_reading_id : option uuid;
  pr_machine_id : option string;
  pr_ts : option datetime;
  pr_model_version : option string;
  pr_prediction_label : option string;
  pr_failure_probability : option float;
  pr_raw_scores : value;
  pr_raw_features : value;
  pr_metadata : value;
  pr_created_at : datetime
}.

(** The dictionary [insert_values] of [insert_reading]; the record kept
    in [_memory_store] is the same with [ts] as an ISO string. *)
Record InsertValues (T : Type) : Type := {
  iv_id : uuid;
  iv_ts : T;
  iv_machine_id : value;
  iv_air_temperature : value;
  iv_process_temperature : value;
  iv_rotational_speed : value;
  iv_torque : value;
  iv_tool_wear : value;
  iv_metadata : value
}.
Arguments iv_id {T} _.
Arguments iv_ts {T} _.
Arguments iv_machine_id {T} _.
Arguments iv_air_temperature {T} _.
Arguments iv_process_temperature {T} _.
Arguments iv_rotational_speed {T} _.
Arguments iv_torque {T} _.
Arguments iv_tool_wear {T} _.
Arguments iv_metadata {T} _.

Definition MemReading := InsertValues string.

(** The module state and the world around it.  [engine] says whether
    [_engine] and the two table objects were set at import time (they are
    set or reset together).  [tick] counts the operations performed so
    far; the functions indexed by it say what the outside world does at
    that moment: whether a database statement goes through, whether the
    list append does, which identifier is drawn, and what time it is. *)
Record World : Type := {
  engine : bool;
  sensor_readings : list SensorRow;
  predictions : list PredictionRow;
  memory_store : list MemReading;
  tick : nat;
  db_up : nat -> bool;
  mem_up : nat -> bool;
  uuid4 : nat -> uuid;
  utcnow : nat -> datetime
}.

Definition with_sensor_readings (w : World) (rows : list SensorRow) : World :=
  {| engine := engine w; sensor_readings := rows; predictions := predictions w;
     memory_store := memory_store w; tick := tick w; db_up := db_up w;
     mem_up := mem_up w; uuid4 := uuid4 w; utcnow := utcnow w |}.

Definition with_predictions (w : World) (rows : list PredictionRow) : World :=
  {| engine := engine w; sensor_readings := sensor_readings w; predictions := rows;
     memory_store := memory_store w; tick := tick w; db_up := db_up w;
     mem_up := mem_up w; uuid4 := uuid4 w; utcnow := utcnow w |}.

Definition with_memory_store (w : World) (recs : list MemReading) : World :=
  {| engine := engine w; sensor_readings := sensor_readings w;
     predictions := predictions w; memory_store := recs; tick := tick w;
     db_up := db_up w; mem_up := mem_up w; uuid4 := uuid4 w; utcnow := utcnow w |}.

Definition step (w : World) : World :=
  {| engine := engine w; sensor_readings := sensor_readings w;
     predictions := predictions w; memory_store := memory_store w;
     tick := S (tick w); db_up := db_up w; mem_up := mem_up w;
     uuid4 := uuid4 w; utcnow := utcnow w |}.

(** Binding a Python value to a column: [None] when the statement is
    rejected, [Some None] for NULL. *)
Definition bind_text `{Runtime} (v : value) : option (option string) :=
  match v with
  | VNone => Some None
  | VStr s => Some (Some s)
  | _ => option_map Some (adapt_text v)
  end.

Definition bind_float `{Runtime} (v : value) : option (option float) :=
  match v with
  | VNone => Some None
  | VFloat f => Some (Some f)
  | _ => option_map Some (adapt_float v)
  end.

Definition bind_int `{Runtime} (v : value) : option (option Z) :=
  match v with
  | VNone => Some None
  | VInt z =>
      if ((- 2 ^ 31 <=? z) && (z <? 2 ^ 31))%Z then Some (Some z) else None
  | _ => option_map Some (adapt_int v)
  end.

(** [_now_as_dt]: a [datetime] is kept; otherwise the value is read as
    an ISO string, then as a POSIX timestamp, and the current time is
    the last resort. *)
Definition now_as_dt `{Runtime} (now : datetime) (val : value) : datetime :=
  match val with
  | VNone => now
  | VDatetime t => t
  | _ =>
      let from_iso :=
        match val with
        | VStr s => fromisoformat (replace_Z s)
        | _ => None                      (* no [replace] method *)
        end in
      match from_iso with
      | Some t => t
      | None =>
          match float_of_value val with
          | Some ts =>
              match utcfromtimestamp ts with
              | Some t => t
              | None => now
              end
          | None => now
          end
      end
  end.

(** Whether [json.dumps] accepts the value: every object the handlers
    see is serialisable except a [datetime]. *)
Fixpoint json_serializable (v : value) : bool :=
  match v with
  | VDatetime _ => false
  | VList l => forallb json_serializable l
  | VDict d => forallb (fun kv => json_serializable (snd kv)) d
  | _ => true
  end.

Definition insert_values_of `{Runtime} (inserted_id : uuid) (now : datetime)
    (data : list (string * value)) : InsertValues datetime :=
  let time_val := or_ (get data "time") (get data "ts") in
  let data_time := now_as_dt now time_val in
  let metadata_obj := or_ (get data "metadata") (VDict []) in
  let metadata_obj :=
    if json_serializable metadata_obj then metadata_obj
    else VDict [("raw_metadata", VStr (str_of_value metadata_obj))] in
  {| iv_id := inserted_id;
     iv_ts := data_time;
     iv_machine_id :=
       or_ (or_ (get data "machine_id") (get data "machineId")) (VStr "unknown");
     iv_air_temperature := get data "air_temperature";
     iv_process_temperature := get data "process_temperature";
     iv_rotational_speed := get data "rotational_speed";
     iv_torque := get data "torque";
     iv_tool_wear := get data "tool_wear";
     iv_metadata := metadata_obj |}.

(** The row the [insert] statement built from [insert_values] stores, or
    [None] when a value cannot be bound ([machine_id] is NOT NULL). *)
Definition sensor_row_of `{Runtime} (created_at : datetime)
    (iv : InsertValues datetime) : option SensorRow :=
  match bind_text (iv_machine_id iv), bind_float (iv_air_temperature iv),
        bind_float (iv_process_temperature iv), bind_int (iv_rotational_speed iv),
        bind_float (iv_torque iv), bind_int (iv_tool_wear iv) with
  | Some (Some m), Some at_, Some pt, Some rs, Some tq, Some tw =>
      Some {| sr_id := iv_id iv; sr_ts := iv_ts iv; sr_machine_id := m;
              sr_air_temperature := at_; sr_process_temperature := pt;
              sr_rotational_speed := rs; sr_torque := tq; sr_tool_wear := tw;
              sr_metadata := iv_metadata iv; sr_created_at := created_at |}
  | _, _, _, _, _, _ => None
  end.

(** [record = dict(insert_values); record["ts"] = data_time.isoformat()]. *)
Definition memory_record_of `{Runtime} (iv : InsertValues datetime) : MemReading :=
  {| iv_id := iv_id iv; iv_ts := isoformat (iv_ts iv);
     iv_machine_id := iv_machine_id iv;
     iv_air_temperature := iv_air_temperature iv;
     iv_process_temperature := iv_process_temperature iv;
     iv_rotational_speed := iv_rotational_speed iv;
     iv_torque := iv_torque iv; iv_tool_wear := iv_tool_wear iv;
     iv_metadata := iv_metadata iv |}.

(** The durable attempt of [insert_reading]: [Some w'] when the
    transaction commits, [None] when the statement raises. *)
Definition db_insert_reading `{Runtime} (w : World) (iv : InsertValues datetime)
    : option World :=
  if db_up w (tick w) then
    match sensor_row_of (utcnow w (tick w)) iv with
    | Some row => Some (with_sensor_readings w (sensor_readings w ++ [row]))
    | None => None
    end
  else None.

(** The fallback of [insert_reading]: the append, whose exception is
    logged and dropped. *)
Definition memory_append (w : World) (record : MemReading) : World :=
  if mem_up w (tick w) then with_memory_store w (memory_store w ++ [record])
  else w.

(** [insert_reading]: the result of a call is the identifier returned
    (or the exception raised) and the world it leaves. *)
Definition insert_reading `{Runtime} (w : World) (payload : list (string * value))
    : (string + uuid) * World :=
  let inserted_id := uuid4 w (tick w) in
  let iv := insert_values_of inserted_id (utcnow w (tick w)) payload in
  let committed := if engine w then db_insert_reading w iv else None in
  match committed with
  | Some w' => (inr inserted_id, step w')
  | None => (inr inserted_id, step (memory_append w (memory_record_of iv)))
  end.

(** Descending stable sort, as [sorted(..., reverse=True)] performs it:
    [lt x y] says that the key of [x] is strictly below that of [y];
    items with equal keys keep their original order.  The same order
    stands for SQL's [ORDER BY ... DESC], which leaves ties open. *)
Fixpoint insert_desc {A : Type} (lt : A -> A -> bool) (x : A) (l : list A) : list A :=
  match l with
  | [] => [x]
  | y :: l' => if lt x y then y :: insert_desc lt x l' else x :: l
  end.

Definition sort_desc {A : Type} (lt : A -> A -> bool) (l : list A) : list A :=
  fold_right (insert_desc lt) [] l.

(** What [fetch_readings] returns: dictionaries made from database rows,
    or the records of the memory store. *)
Inductive ReadingRecord : Type :=
| FromDb (r : SensorRow)
| FromMemory (r : MemReading).

(** The statement of [fetch_readings]: [None] when it raises (the server
    rejects a negative LIMIT or OFFSET). *)
Definition select_readings (w : World) (machine_id : option string)
    (limit offset : Z) : option (list SensorRow) :=
  if (db_up w (tick w) && (0 <=? limit) && (0 <=? offset))%Z then
    let matching :=
      match machine_id with
      | Some m =>
          if truthy (VStr m)
          then filter (fun r => String.eqb (sr_machine_id r) m) (sensor_readings w)
          else sensor_readings w
      | None => sensor_readings w
      end in
    let ordered := sort_desc (fun a b => (sr_ts a <? sr_ts b)%Z) matching in
    Some (firstn (Z.to_nat limit) (skipn (Z.to_nat offset) ordered))
  else None.

Definition memory_matches (machine_id : option string) (r : MemReading) : bool :=
  match machine_id with
  | None => true
  | Some m =>
      match iv_machine_id r with
      | VStr m' => String.eqb m' m
      | _ => false
      end
  end.

(** [fetch_readings]: with an engine the rows of the table, or [[]] when
    the query raises; without one the memory store, filtered, newest
    first by its ISO strings, and sliced. *)
Definition fetch_readings (w : World) (machine_id : option string)
    (limit offset : Z) : list ReadingRecord * World :=
  if engine w then
    match select_readings w machine_id limit offset with
    | Some rows => (map FromDb rows, step w)
    | None => ([], step w)
    end
  else
    let filtered := filter (memory_matches machine_id) (memory_store w) in
    let filtered_sorted :=
      sort_desc (fun a b => String.ltb (iv_ts a) (iv_ts b)) filtered in
    (map FromMemory (slice filtered_sorted offset (offset + limit)), w).

Definition get_memory_store (w : World) : list MemReading := memory_store w.

End DbService.

Import DbService.

(** What a FastAPI handler gives back: its return value, or the status
    and detail of the error response (an [HTTPException], 422 for a
    rejected query parameter, 500 for any other exception). *)
Inductive http (A : Type) : Type :=
| Ok (a : A)
| HttpError (status : Z) (detail : string).
Arguments Ok {A} a.
Arguments HttpError {A} status detail.

(** [Query(default, gt=lo, le=hi)] on an integer parameter. *)
Definition query_gt_le (lo hi v : Z) : bool := ((lo <? v) && (v <=? hi))%Z.

(** [Query(default, ge=lo)]. *)
Definition query_ge (lo v : Z) : bool := (lo <=? v)%Z.

Definition unprocessable {A : Type} : http A :=
  HttpError 422 "Unprocessable Entity".

Definition internal_error {A : Type} : http A :=
  HttpError 500 "Internal Server Error".

(* ===================================================================== *)
(** ** app/api/v1/predictions.py *)
(* ===================================================================== *)

Module Predictions.

Definition ML_SERVICE_URL : string := "http://ml_service:5000/predict".

(** [x is not None and x > bound]. *)
Definition above (x : option float) (bound : float) : bool :=
  match x with
  | Some v => (bound <? v)%float
  | None => false
  end.

Definition compute_risk (temp_k vib current : option float) : string :=
  match temp_k, vib, current with
  | None, None, None => "Unknown"
  | _, _, _ =>
      if above temp_k 315 || above vib 2200 || above current 85 then "Bahaya"
      else if above temp_k 305 || above vib 1600 || above current 65 then "Waspada"
      else "Normal"
  end.

(** One entry of the request's [readings] list and the request body. *)
Record Reading : Type := {
  rd_ts : option string;
  rd_air_temperature : option float;
  rd_process_temperature : option float;
  rd_rotational_speed : option Z;
  rd_torque : option float;
  rd_tool_wear : option Z;
  rd_metadata : value
}.

Record Payload : Type := {
  pl_machine_id : string;
  pl_readings : list Reading
}.

(** The remote service: the result of the [i]-th request of one
    invocation, given the address and the body. *)
Definition Remote : Type := string -> Payload -> nat -> string + value.

(** The fields [predict] reads off the response (lines 110 to 132). *)
Record Normalized : Type := {
  failure_prob : option float;
  prediction_label : value;
  model_version : value;
  raw_scores : value;
  raw_features : value;
  meta_ : value;
  label_to_store : value
}.

(** [float(failure_prob) if failure_prob is not None else None], any
    exception giving [None]. *)
Definition coerce_probability `{Runtime} (v : value) : option float :=
  if is_none v then None else float_of_value v.

(** [failure_prob or 0.0]. *)
Definition prob_or_zero (p : option float) : float :=
  match p with
  | Some f => if truthy (VFloat f) then f else 0
  | None => 0
  end.

Definition normalize `{Runtime} (ml : value) : Normalized :=
  let raw :=
    match ml with
    | VDict d =>
        (or_ (get d "failure_probability") (get d "score"),
         or_ (get d "prediction_label") (get d "label"),
         or_ (get d "model_version") (get d "model_name"),
         or_ (or_ (get d "raw_scores") (get d "scores")) (get d "probabilities"),
         or_ (get d "raw_features") (get d "features"),
         get_default d "meta" (get_default d "explain" (VDict [])))
    | _ => (VNone, VNone, VNone, VNone, VNone, VDict [("raw_ml_response", ml)])
    end in
  let '(fp, lbl, mv, rs, rf, m) := raw in
  let fp := coerce_probability fp in
  {| failure_prob := fp;
     prediction_label := lbl;
     model_version := mv;
     raw_scores := rs;
     raw_features := rf;
     meta_ := m;
     label_to_store :=
       if is_none lbl then VStr (score_to_label (prob_or_zero fp)) else lbl |}.

(** [SELECT ... WHERE machine_id = :m ORDER BY ts DESC LIMIT :limit]. *)
Definition select_window (w : World) (machine_id : string) (limit : Z)
    : list SensorRow :=
  firstn (Z.to_nat limit)
    (sort_desc (fun a b => (sr_ts a <? sr_ts b)%Z)
       (filter (fun r => String.eqb (sr_machine_id r) machine_id)
          (sensor_readings w))).

(** The dictionary appended to [readings] for one row; [ts] is a
    [datetime], hence true, parsed to itself and printed. *)
Definition reading_of `{Runtime} (d : SensorRow) : Reading :=
  {| rd_ts := option_map isoformat (parse_timestamp (VDatetime (sr_ts d)));
     rd_air_temperature := sr_air_temperature d;
     rd_process_temperature := sr_process_temperature d;
     rd_rotational_speed := sr_rotational_speed d;
     rd_torque := sr_torque d;
     rd_tool_wear := sr_tool_wear d;
     rd_metadata := parse_metadata (sr_metadata d) |}.

(** The loop over the rows: the identifier kept is that of the first row
    (no row has a null [id]), and every row gives one reading. *)
Fixpoint scan_rows `{Runtime} (rows : list SensorRow)
    (latest_sensor_id : option uuid) (readings : list Reading)
    : option uuid * list Reading :=
  match rows with
  | [] => (latest_sensor_id, readings)
  | r :: rows' =>
      let d := row_to_dict_safe r in
      let latest :=
        match latest_sensor_id with
        | None => Some (sr_id d)
        | Some _ => latest_sensor_id
        end in
      scan_rows rows' latest (readings ++ [reading_of d])
  end.

(** A document is stored as [json.dumps] wrote it and [CAST AS jsonb]
    read it back; [None] is stored as the empty document. *)
Definition jsonb_or_empty (v : value) : value :=
  if is_none v then VDict [] else v.

(** The row the INSERT of [predict] stores ([ts] is not set), or [None]
    when a parameter cannot be bound. *)
Definition prediction_row_of `{Runtime} (new_id : uuid) (created_at : datetime)
    (latest_sensor_id : option uuid) (machine_id : string) (n : Normalized)
    : option PredictionRow :=
  match bind_text (model_version n), bind_text (label_to_store n) with
  | Some mv, Some lbl =>
      Some {| pr_id := new_id;
              pr_sensor_reading_id := latest_sensor_id;
              pr_machine_id := Some machine_id;
              pr_ts := None;
              pr_model_version := mv;
              pr_prediction_label := lbl;
              pr_failure_probability := failure_prob n;
              pr_raw_scores := jsonb_or_empty (raw_scores n);
              pr_raw_features := jsonb_or_empty (raw_features n);
              pr_metadata := jsonb_or_empty (meta_ n);
              pr_created_at := created_at |}
  | _, _ => None
  end.

(** Construction of a [PredictionResult]: pydantic accepts [None] or a
    [str] for [model_name] and [label], [None] or a [dict] for [meta];
    [None] is the validation error. *)
Definition opt_str (v : value) : option (option string) :=
  match v with
  | VNone => Some None
  | VStr s => Some (Some s)
  | _ => None
  end.

Definition opt_dict (v : value) : option (option (list (string * value))) :=
  match v with
  | VNone => Some None
  | VDict d => Some (Some d)
  | _ => None
  end.

Definition make_result (prediction_id : string) (model_name label : value)
    (score : option float) (meta : value) : option PredictionResult :=
  match opt_str model_name, opt_str label, opt_dict meta with
  | Some mn, Some lbl, Some m =>
      Some {| MachineUtils.prediction_id := prediction_id;
              MachineUtils.model_name := mn;
              MachineUtils.label := lbl;
              MachineUtils.score := score;
              MachineUtils.meta := m |}
  | _, _, _ => None
  end.

Definition as_value (s : option string) : value :=
  match s with
  | Some x => VStr x
  | None => VNone
  end.

(** [POST /machines/{machine_id}/predict]. *)
Definition predict `{Runtime} (remote : Remote) (w : World) (machine_id : string)
    (limit : Z) (threshold : float) : http PredictionResult * World :=
  if negb (query_gt_le 1 2000 limit) then (unprocessable, w)
  else if negb (engine w) then (internal_error, w)
  else if negb (db_up w (tick w)) then (internal_error, step w)
  else
    let w1 := step w in
    let rows := select_window w machine_id limit in
    match rows with
    | [] => (HttpError 404 "No readings found for this machine.", w1)
    | _ :: _ =>
        let '(latest_sensor_id, readings) := scan_rows rows None [] in
        let payload := {| pl_machine_id := machine_id; pl_readings := readings |} in
        match call_ml_service_with_retry (remote ML_SERVICE_URL payload)
                default_retries default_backoff with
        | (Raised e, _) =>
            (HttpError 502 (String.append "ML service error: " (exn_message e)), w1)
        | (Returned ml, _) =>
            let n := normalize ml in
            let stored :=
              if db_up w1 (tick w1) then
                prediction_row_of (uuid4 w1 (tick w1)) (utcnow w1 (tick w1))
                  latest_sensor_id machine_id n
              else None in
            match stored with
            | None => (internal_error, step w1)
            | Some row =>
                let w2 := step (with_predictions w1 (predictions w1 ++ [row])) in
                match make_result (pr_id row) (model_version n) (label_to_store n)
                        (failure_prob n) (meta_ n) with
                | Some res => (Ok res, w2)
                | None => (internal_error, w2)
                end
            end
        end
    end.

(** [ORDER BY ts DESC] on a nullable column: NULLs come first. *)
Definition ts_lt (a b : option datetime) : bool :=
  match a, b with
  | Some x, Some y => (x <? y)%Z
  | Some _, None => true
  | None, _ => false
  end.

Definition select_history (w : World) (machine_id : string) (limit : Z)
    : list PredictionRow :=
  firstn (Z.to_nat limit)
    (sort_desc (fun a b => ts_lt (pr_ts a) (pr_ts b))
       (filter (fun r => match pr_machine_id r with
                         | Some m => String.eqb m machine_id
                         | None => false
                         end)
          (predictions w))).

(** [float(d.get("failure_probability") or 0)]. *)
Definition history_score (p : option float) : float :=
  match p with
  | Some f => if truthy (VFloat f) then f else 0
  | None => 0
  end.

Definition history_item `{Runtime} (r : PredictionRow) : option PredictionResult :=
  let d := row_to_dict_safe r in
  make_result (pr_id d) (as_value (pr_model_version d))
    (as_value (pr_prediction_label d))
    (Some (history_score (pr_failure_probability d)))
    (parse_metadata (pr_metadata d)).

Fixpoint history_items `{Runtime} (rows : list PredictionRow)
    : option (list PredictionResult) :=
  match rows with
  | [] => Some []
  | r :: rows' =>
      match history_item r, history_items rows' with
      | Some x, Some xs => Some (x :: xs)
      | _, _ => None
      end
  end.

(** [GET /machines/{machine_id}/prediction-history]. *)
Definition history `{Runtime} (w : World) (machine_id : string) (limit : Z)
    : http (list PredictionResult) * World :=
  if negb (query_gt_le 1 2000 limit) then (unprocessable, w)
  else if negb (engine w) then (internal_error, w)
  else if negb (db_up w (tick w)) then (internal_error, step w)
  else
    match history_items (select_history w machine_id limit) with
    | Some out => (Ok out, step w)
    | None => (internal_error, step w)
    end.

End Predictions.

(* ===================================================================== *)
(** ** app/api/v1/ingest.py *)
(* ===================================================================== *)

Module Ingest.

(** [POST /ingest]: the validated payload, as a dictionary, goes to
    [insert_reading]; an exception becomes a 500 response. *)
Definition ingest `{Runtime} (w : World) (data : list (string * value))
    : http uuid * World :=
  match insert_reading w data with
  | (inr inserted_id, w') => (Ok inserted_id, w')
  | (inl _, w') => (HttpError 500 "Ingest failed", w')
  end.

(** [GET /ingest]. *)
Definition get_ingest (w : World) (machine_id : option string) (limit offset : Z)
    : http (list ReadingRecord) * World :=
  if negb (query_gt_le 1 5000 limit && query_ge 0 offset) then (unprocessable, w)
  else
    let '(rows, w') := fetch_readings w machine_id limit offset in
    (Ok rows, w').

End Ingest.

Import Predictions Ingest.

(* ===================================================================== *)
(** ** More of Python: substring test, integers among floats, exceptions *)
(* ===================================================================== *)

Module PyMore.

(** [sub in s] on strings. *)
Fixpoint str_in (sub s : string) : bool :=
  String.prefix sub s ||
  match s with
  | EmptyString => false
  | String _ s' => str_in sub s'
  end.

(** [str(n)] and [f"{n}"] for an [int]. *)
Definition str_of_int (z : Z) : string := NilZero.string_of_int (Z.to_int z).

(** An [int] where a float is expected by a comparison with a float or
    integer bound: the nearest float, and beyond the range of floats the
    infinity of its sign, which compares with every finite bound as the
    integer does. *)
Definition int_as_float (z : Z) : float :=
  match float_of_int z with
  | Some f => f
  | None => if (z <? 0)%Z then neg_infinity else infinity
  end.

(** The result of a call that may raise. *)
Inductive raising (A : Type) : Type :=
| Value (a : A)
| Exception (what : string).
Arguments Value {A} a.
Arguments Exception {A} what.

End PyMore.

Import PyMore.

(* ===================================================================== *)
(** ** app/services/db_service.py, continued *)
(* ===================================================================== *)

Module DbServiceMore.

(** The database fields of [Settings] ([app/core/config.py]). *)
Record Settings : Type := {
  DB_HOST : string;
  DB_PORT : Z;
  DB_NAME : string;
  DB_USER : string;
  DB_PASS : string
}.

(** [_build_database_url_from_settings]; [settings] is [None] when the
    import of the configuration failed. *)
Definition build_database_url_from_settings (settings : option Settings)
    : option string :=
  match settings with
  | None => None
  | Some st =>
      let host := DB_HOST st in
      let port := DB_PORT st in
      let dbname := DB_NAME st in
      let user := DB_USER st in
      let pwd := DB_PASS st in
      if negb (truthy (VStr host) && truthy (VStr dbname) && truthy (VStr user))
      then None
      else
        let port_part :=
          if truthy (VInt port) then String.append ":" (str_of_int port) else "" in
        let auth_part :=
          if truthy (VStr pwd) then String.append user (String.append ":" pwd)
          else user in
        Some (String.append "postgresql+psycopg2://"
                (String.append auth_part
                   (String.append "@"
                      (String.append host
                         (String.append port_part (String.append "/" dbname))))))
  end.

(** The module-level choice of [DATABASE_URL] from the environment
    variable of that name and the settings. *)
Definition database_url (env_db_url : option string) (settings : option Settings)
    : option string :=
  match env_db_url with
  | Some url =>
      if truthy (VStr url) && str_in "://" url then Some url
      else build_database_url_from_settings settings
  | None => build_database_url_from_settings settings
  end.

(** [get_recent]. *)
Definition get_recent (w : World) (machine_id : option string) (limit : Z)
    : list ReadingRecord * World :=
  fetch_readings w machine_id limit 0.

End DbServiceMore.

Import DbServiceMore.

(* ===================================================================== *)
(** ** app/api/v1/predictions.py, continued: the dashboard *)
(* ===================================================================== *)

Module Dashboard.

(** The dictionary [counts]. *)
Record Counts : Type := {
  total : nat;
  failure_count : nat;
  warning_count : nat;
  normal_count : nat
}.

(** [SELECT DISTINCT machine_id FROM sensor_readings]. *)
Definition distinct_machines (w : World) : list string :=
  nodup string_dec (map sr_machine_id (sensor_readings w)).

(** [x or 0] on a nullable float and on a nullable integer. *)
Definition float_or_zero (x : option float) : float :=
  match x with
  | Some f => if truthy (VFloat f) then f else 0
  | None => 0
  end.

Definition int_or_zero (x : option Z) : Z :=
  match x with
  | Some z => if truthy (VInt z) then z else 0
  | None => 0
  end.

(** The risk [dashboard_summary] computes for the latest row of a
    machine: nulls are replaced by 0 before [compute_risk] sees them. *)
Definition dashboard_risk (d : SensorRow) : string :=
  let temp := float_or_zero (sr_air_temperature d) in
  let vib := int_or_zero (sr_rotational_speed d) in
  let current := float_or_zero (sr_torque d) in
  compute_risk (Some temp) (Some (int_as_float vib)) (Some current).

Definition count_risk (risk : string) (c : Counts) : Counts :=
  if String.eqb risk "Bahaya" then
    {| total := total c; failure_count := S (failure_count c);
       warning_count := warning_count c; normal_count := normal_count c |}
  else if String.eqb risk "Waspada" then
    {| total := total c; failure_count := failure_count c;
       warning_count := S (warning_count c); normal_count := normal_count c |}
  else
    {| total := total c; failure_count := failure_count c;
       warning_count := warning_count c; normal_count := S (normal_count c) |}.

(** The loop over the machines: one query each, outside any [try]; a
    machine without a row is skipped. *)
Fixpoint summary_loop (w : World) (machines : list string) (counts : Counts)
    : option Counts * World :=
  match machines with
  | [] => (Some counts, w)
  | m :: machines' =>
      if db_up w (tick w) then
        match select_window w m 1 with
        | [] => summary_loop (step w) machines' counts
        | r :: _ =>
            let d := row_to_dict_safe r in
            summary_loop (step w) machines' (count_risk (dashboard_risk d) counts)
        end
      else (None, step w)
  end.

(** [GET /dashboard/summary]. *)
Definition dashboard_summary (w : World) : http Counts * World :=
  if negb (engine w) then (HttpError 500 "Database error fetching machines", w)
  else if negb (db_up w (tick w)) then
    (HttpError 500 "Database error fetching machines", step w)
  else
    let machines := distinct_machines w in
    let counts :=
      {| total := List.length machines; failure_count := 0;
         warning_count := 0; normal_count := 0 |} in
    match summary_loop (step w) machines counts with
    | (Some counts', w') => (Ok counts', w')
    | (None, w') => (internal_error, w')
    end.

End Dashboard.

Import Dashboard.

(* ===================================================================== *)
(** ** app/api/v1/machines.py *)
(* ===================================================================== *)

Module Machines.

(** One entry of the list [list_machines_latest] returns. *)
Record MachineStatus : Type := {
  ms_machine_id : string;
  ms_ts : string;
  ms_temperature : option float;
  ms_vibration : option Z;
  ms_current : option float;
  ms_pressure : option Z;
  ms_risk : string;
  ms_metadata : value
}.

(** The risk of a row as [list_machines_latest] and the chat helper
    compute it: the three columns go to [compute_risk] as they are. *)
Definition status_risk (d : SensorRow) : string :=
  compute_risk (sr_air_temperature d)
    (option_map int_as_float (sr_rotational_speed d))
    (sr_torque d).

Definition machine_status `{Runtime} (m : string) (d : SensorRow) : MachineStatus :=
  {| ms_machine_id := m;
     ms_ts := str_of_value (VDatetime (sr_ts d));
     ms_temperature := sr_air_temperature d;
     ms_vibration := sr_rotational_speed d;
     ms_current := sr_torque d;
     ms_pressure := sr_tool_wear d;
     ms_risk := status_risk d;
     ms_metadata := parse_metadata (sr_metadata d) |}.

Fixpoint latest_loop `{Runtime} (w : World) (machines : list string)
    (out : list MachineStatus) : option (list MachineStatus) * World :=
  match machines with
  | [] => (Some out, w)
  | m :: machines' =>
      if db_up w (tick w) then
        match select_window w m 1 with
        | [] => latest_loop (step w) machines' out
        | r :: _ =>
            let d := row_to_dict_safe r in
            latest_loop (step w) machines' (out ++ [machine_status m d])
        end
      else (None, step w)
  end.

(** [GET /machines/]. *)
Definition list_machines_latest `{Runtime} (w : World)
    : http (list MachineStatus) * World :=
  if negb (engine w) then (HttpError 500 "Database error fetching machines", w)
  else if negb (db_up w (tick w)) then
    (HttpError 500 "Database error fetching machines", step w)
  else
    match latest_loop (step w) (distinct_machines w) [] with
    | (Some out, w') => (Ok out, w')
    | (None, w') => (internal_error, w')
    end.

(** A reading as [recent] returns it. *)
Record RecentReading : Type := {
  rr_ts : datetime;
  rr_air_temperature : option float;
  rr_process_temperature : option float;
  rr_rotational_speed : option Z;
  rr_torque : option float;
  rr_tool_wear : option Z;
  rr_prediction : option PredictionResult;
  rr_metadata : option (list (string * value))
}.

(** The rows of the outer join of [recent]: every reading of the
    machine, newest creation first, once with each prediction that
    refers to it, or once alone when none does. *)
Definition refers_to (r : SensorRow) (p : PredictionRow) : bool :=
  match pr_sensor_reading_id p with
  | Some id => String.eqb id (sr_id r)
  | None => false
  end.

Definition joined_with (preds : list PredictionRow) (r : SensorRow)
    : list (SensorRow * option PredictionRow) :=
  match filter (refers_to r) preds with
  | [] => [(r, None)]
  | ps => map (fun p => (r, Some p)) ps
  end.

Definition select_recent (w : World) (machine_id : string) (limit : Z)
    : list (SensorRow * option PredictionRow) :=
  firstn (Z.to_nat limit)
    (flat_map (joined_with (predictions w))
       (sort_desc (fun a b => (sr_created_at a <? sr_created_at b)%Z)
          (filter (fun r => String.eqb (sr_machine_id r) machine_id)
             (sensor_readings w)))).

(** The body of the loop of [recent]; [None] is a validation error of
    one of the two models. *)
Definition recent_item `{Runtime} (d : SensorRow * option PredictionRow)
    : option RecentReading :=
  let '(r, p) := d in
  let prediction :=
    match p with
    | Some p =>
        option_map Some
          (make_result (pr_id p) (as_value (pr_model_version p))
             (as_value (pr_prediction_label p)) (pr_failure_probability p)
             (parse_metadata (pr_metadata p)))
    | None => Some None
    end in
  match prediction, parse_timestamp (VDatetime (sr_ts r)),
        opt_dict (parse_metadata (sr_metadata r)) with
  | Some prediction, Some ts, Some metadata =>
      Some {| rr_ts := ts;
              rr_air_temperature := sr_air_temperature r;
              rr_process_temperature := sr_process_temperature r;
              rr_rotational_speed := sr_rotational_speed r;
              rr_torque := sr_torque r;
              rr_tool_wear := sr_tool_wear r;
              rr_prediction := prediction;
              rr_metadata := metadata |}
  | _, _, _ => None
  end.

Fixpoint recent_items `{Runtime} (rows : list (SensorRow * option PredictionRow))
    : option (list RecentReading) :=
  match rows with
  | [] => Some []
  | d :: rows' =>
      match recent_item d, recent_items rows' with
      | Some x, Some xs => Some (x :: xs)
      | _, _ => None
      end
  end.

(** [GET /machines/{machine_id}/recent]. *)
Definition recent `{Runtime} (w : World) (machine_id : string) (limit : Z)
    : http (list RecentReading) * World :=
  if negb (query_gt_le 0 2000 limit) then (unprocessable, w)
  else if negb (engine w) then (internal_error, w)
  else if negb (db_up w (tick w)) then
    (HttpError 500 "Database query failed", step w)
  else
    match recent_items (select_recent w machine_id limit) with
    | Some results => (Ok results, step w)
    | None => (internal_error, step w)
    end.

End Machines.

Import Machines.

(* ===================================================================== *)
(** ** app/api/v1/chat.py *)
(* ===================================================================== *)

Module Chat.

(** String operations of the interpreter the chat handler relies on. *)
Class Text : Type := {
  (** [s.lower()]. *)
  lower : string -> string;
  (** [s.strip()]. *)
  strip : string -> string;
  (** [format(x, ".2f")] on a float. *)
  format_2f : float -> string
}.

Record ChatRequest : Type := {
  message : string;
  machine_id : option string
}.

(** The dictionary [get_latest_machine_status] returns. *)
Record Status : Type := {
  st_ts : string;
  st_temperature : option float;
  st_vibration : option Z;
  st_current : option float;
  st_pressure : option Z;
  st_risk : string
}.

Record ChatResponse : Type := {
  reply : string;
  cr_machine_id : option string;
  intent : option string;
  extra : option Status
}.

(** [get_latest_machine_status]: [None] without an engine or without a
    row; the query is not guarded, so its failure is raised. *)
Definition get_latest_machine_status `{Runtime} (w : World) (mid : string)
    : raising (option Status) * World :=
  if negb (engine w) then (Value None, w)
  else if negb (db_up w (tick w)) then (Exception "OperationalError", step w)
  else
    match select_window w mid 1 with
    | [] => (Value None, step w)
    | d :: _ =>
        let temp := sr_air_temperature d in
        let vib := sr_rotational_speed d in
        let current := sr_torque d in
        let pressure := sr_tool_wear d in
        let risk := compute_risk temp (option_map int_as_float vib) current in
        (Value (Some {| st_ts := str_of_value (VDatetime (sr_ts d));
                        st_temperature := temp;
                        st_vibration := vib;
                        st_current := current;
                        st_pressure := pressure;
                        st_risk := risk |}),
         step w)
    end.

(** [any(k in text for k in keywords)]. *)
Definition any_in (keywords : list string) (text : string) : bool :=
  existsb (fun k => str_in k text) keywords.

Definition nl : string := String (ascii_of_nat 10) EmptyString.

Fixpoint concat_all (parts : list string) : string :=
  match parts with
  | [] => EmptyString
  | p :: parts' => String.append p (concat_all parts')
  end.

(** [f"{x}"] for a nullable number. *)
Definition show_int `{Runtime} (x : option Z) : string :=
  str_of_value (match x with Some z => VInt z | None => VNone end).

Definition show_float `{Runtime} (x : option float) : string :=
  str_of_value (match x with Some f => VFloat f | None => VNone end).

Definition default_reply : string :=
  concat_all
    ["Halo, saya predictive maintenance copilot."; nl; nl;
     "Kamu bisa tanya hal-hal seperti:"; nl;
     "- 'Bagaimana status mesin M1?'"; nl;
     "- 'Apakah mesin M2 berisiko tinggi?'"; nl;
     "- 'Tolong jelaskan kondisi mesin M3 sekarang.'"; nl; nl;
     "Jika perlu, sertakan juga ID mesin (misalnya: M1, M2, M3)."].

Definition recommendation (risk : string) : string :=
  if String.eqb risk "Bahaya" then
    String.append nl
      "Rekomendasi: Segera lakukan inspeksi menyeluruh dan hentikan operasi jika memungkinkan."
  else if String.eqb risk "Waspada" then
    String.append nl
      "Rekomendasi: Jadwalkan pengecekan dalam waktu dekat dan pantau tren sensor lebih sering."
  else
    String.append nl
      "Rekomendasi: Kondisi masih normal, tetap lakukan pemantauan berkala.".

(** The reply about a machine; [None] is the [TypeError] of formatting a
    null temperature with [.2f]. *)
Definition status_reply `{Runtime} `{Text} (mid : string) (status : Status)
    : option string :=
  match st_temperature status with
  | None => None
  | Some temp =>
      Some (String.append
              (concat_all
                 ["Kondisi terbaru mesin "; mid; ":"; nl;
                  "- Suhu: "; format_2f temp; " K"; nl;
                  "- Getaran (rpm): "; show_int (st_vibration status); nl;
                  "- Arus/Torque: "; show_float (st_current status); nl;
                  "- Status risiko: "; st_risk status; "."; nl])
              (recommendation (st_risk status)))
  end.

(** [POST /chat/messages]. *)
Definition chat_messages `{Runtime} `{Text} (w : World) (payload : ChatRequest)
    : http ChatResponse * World :=
  let text := strip (lower (message payload)) in
  let mid := machine_id payload in
  let is_status_question :=
    any_in ["status"; "kondisi"; "keadaan"; "bagaimana mesin"] text in
  let is_risk_question :=
    any_in ["risiko"; "resiko"; "bahaya"; "aman"] text in
  let help :=
    (Ok {| reply := default_reply; cr_machine_id := mid;
           intent := Some "help"; extra := None |}, w) in
  match mid with
  | Some m =>
      if truthy (VStr m) && (is_status_question || is_risk_question) then
        match get_latest_machine_status w m with
        | (Exception _, w') => (internal_error, w')
        | (Value None, w') =>
            (Ok {| reply :=
                     concat_all
                       ["Saya belum menemukan data terbaru untuk mesin "; m;
                        ". Pastikan data sensor sudah terkirim."];
                   cr_machine_id := mid;
                   intent := Some "machine_status_not_found";
                   extra := None |}, w')
        | (Value (Some status), w') =>
            match status_reply m status with
            | None => (internal_error, w')
            | Some text_reply =>
                (Ok {| reply := text_reply; cr_machine_id := mid;
                       intent := Some "machine_status";
                       extra := Some status |}, w')
            end
        end
      else help
  | None => help
  end.

End Chat.

Import Chat.

(* ===================================================================== *)
(** ** app/tests/ml_mock.py *)
(* ===================================================================== *)

Module MlMock.

(** The label the mock gives the score it drew. *)
Definition mock_label (score : float) : string :=
  if (0.7 <? score)%float then "failure"
  else if (0.3 <? score)%float then "warning"
  else "normal".

(** The request model of the mock: every reading needs a [ts] that is a
    string, and its [metadata] is null or a document. *)
Definition valid_reading (r : Reading) : bool :=
  match rd_ts r, opt_dict (rd_metadata r) with
  | Some _, Some _ => true
  | _, _ => false
  end.

(** [predict] of the mock service, for the score [random.uniform(0, 1)]
    drew; [payload.readings[0]] raises on an empty list. *)
Definition mock_predict (score : float) (payload : Payload) : http value :=
  if negb (forallb valid_reading (pl_readings payload)) then unprocessable
  else
    match pl_readings payload with
    | [] => internal_error
    | last :: _ =>
        Ok (VDict [("model_version", VStr "mock-v1");
                   ("failure_probability", VFloat score);
                   ("prediction_label", VStr (mock_label score));
                   ("raw_scores", VDict [("p", VFloat score)]);
                   ("raw_features",
                    VDict [("temp", match rd_air_temperature last with
                                    | Some t => VFloat t
                                    | None => VNone
                                    end)]);
                   ("meta", VDict [("mock", VBool true)])])
    end.

End MlMock.

Import MlMock.

(* ===================================================================== *)
(** ** Vocabulary of the statements *)
(* ===================================================================== *)

(** The four risk tiers, and the literal [compute_risk] returns for each
    (the source names two of them in Indonesian). *)
Inductive RiskLevel : Type := Unknown | Normal | Watch | Danger.

Definition risk_label (r : RiskLevel) : string :=
  match r with
  | Unknown => "Unknown"
  | Normal => "Normal"
  | Watch => "Waspada"
  | Danger => "Bahaya"
  end.

(** An input triggers a rule when it is present and strictly above the
    rule's bound. *)
Definition exceeds (x : option float) (bound : float) : Prop :=
  exists v, x = Some v /\ (bound <? v)%float = true.

Definition all_null (t v c : option float) : Prop :=
  t = None /\ v = None /\ c = None.

Definition danger_rule (t v c : option float) : Prop :=
  exceeds t 315 \/ exceeds v 2200 \/ exceeds c 85.

Definition watch_rule (t v c : option float) : Prop :=
  exceeds t 305 \/ exceeds v 1600 \/ exceeds c 65.

(** The dictionary [insert_reading] is about to write. *)
Definition prepared `{Runtime} (w : World) (payload : list (string * value))
    : InsertValues datetime :=
  insert_values_of (uuid4 w (tick w)) (utcnow w (tick w)) payload.

(** A call reports failure when it raises instead of returning. *)
Definition reports_failure {A : Type} (r : (string + A) * World) : Prop :=
  exists e, fst r = inl e.

(** The fallback is reached when no engine is configured or the durable
    write raises; its append fails when the memory store refuses it. *)
Definition fallback_reached `{Runtime} (w : World) (payload : list (string * value))
    : Prop :=
  engine w = false \/ db_insert_reading w (prepared w payload) = None.

Definition fallback_append_fails `{Runtime} (w : World)
    (payload : list (string * value)) : Prop :=
  fallback_reached w payload /\ mem_up w (tick w) = false.

(** The machine has no stored reading. *)
Definition no_readings (w : World) (machine_id : string) : Prop :=
  forall r, In r (sensor_readings w) -> sr_machine_id r <> machine_id.

(** The remote call exhausts its retries: each of the five requests
    fails, whatever the body. *)
Definition exhausts_retries (remote : Remote) : Prop :=
  forall payload i, i < default_retries ->
    exists e, remote ML_SERVICE_URL payload i = inl e.

(** Nothing was written: the two tables and the memory store are as
    before. *)
Definition same_storage (w w' : World) : Prop :=
  sensor_readings w' = sensor_readings w /\
  predictions w' = predictions w /\
  memory_store w' = memory_store w.

(** The request body [predict] builds from the rows of the window. *)
Definition payload_of `{Runtime} (machine_id : string) (rows : list SensorRow)
    : Payload :=
  {| pl_machine_id := machine_id;
     pl_readings := snd (scan_rows rows None []) |}.

(* ===================================================================== *)
(** ** Data of the examples *)
(* ===================================================================== *)

(** A runtime that parses no string and adapts no value of another type;
    a date is printed as its count of microseconds. *)
Definition strict_runtime : Runtime :=
  {| float_of_str := fun _ => None;
     json_loads := fun _ => None;
     str_of_value := fun _ => "";
     isoformat := fun t => NilZero.string_of_int (Z.to_int t);
     fromisoformat := fun _ => None;
     utcfromtimestamp := fun _ => None;
     adapt_text := fun _ => None;
     adapt_float := fun _ => None;
     adapt_int := fun _ => None |}.

(** An endpoint that is down until its fifth request, and one that never
    answers. *)
Definition flaky_endpoint (i : nat) : string + value :=
  if Nat.ltb i 4 then inl "503 Service Unavailable"
  else inr (VDict [("failure_probability", VFloat 0.42)]).

Definition dead_endpoint (i : nat) : string + value :=
  inl (String.append "connection refused #" (NilZero.string_of_uint (Nat.to_uint i))).

(** The answer of the mock service ([app/tests/ml_mock.py]) when it draws
    the score 0.0: every field under its canonical name. *)
Definition canonical_zero_fields : list (string * value) :=
  [("model_version", VStr "mock-v1");
   ("failure_probability", VFloat 0);
   ("prediction_label", VStr "normal");
   ("raw_scores", VDict [("p", VFloat 0)]);
   ("raw_features", VDict [("temp", VFloat 310)]);
   ("meta", VDict [("mock", VBool true)])].

Definition canonical_zero : value := VDict canonical_zero_fields.

(** A response that carries the probability under both of its names. *)
Definition both_names : value :=
  VDict [("failure_probability", VFloat 0); ("score", VFloat 0.9)].

(** A reading as [POST /ingest] hands it over. *)
Definition sample_payload : list (string * value) :=
  [("machine_id", VStr "machine_01");
   ("time", VDatetime 1700000000);
   ("air_temperature", VFloat 305.5);
   ("process_temperature", VFloat 310.2);
   ("rotational_speed", VInt 1500);
   ("torque", VFloat 45.2);
   ("tool_wear", VInt 120);
   ("metadata", VDict [("location", VStr "factory_A")])].

(** Empty worlds: with or without an engine, with a database and a
    memory store that accept or refuse every write. *)
Definition world_of (has_engine : bool) (db mem : bool) : World :=
  {| engine := has_engine; sensor_readings := []; predictions := [];
     memory_store := []; tick := 0; db_up := fun _ => db; mem_up := fun _ => mem;
     uuid4 := fun n => NilZero.string_of_uint (Nat.to_uint n);
     utcnow := fun n => (1700000000 + Z.of_nat n)%Z |}.

Definition healthy_world : World := world_of true true true.
Definition degraded_world : World := world_of true false true.
Definition stuck_world : World := world_of true false false.
Definition memory_only_world : World := world_of false false true.

(** Three readings of [machine_01] with rising temperature, as the
    end-to-end scenario ingests them, and a reading of another machine. *)
Definition reading_at (id : uuid) (ts : datetime) (machine : string)
    (air : float) : SensorRow :=
  {| sr_id := id; sr_ts := ts; sr_machine_id := machine;
     sr_air_temperature := Some air; sr_process_temperature := Some 310.2%float;
     sr_rotational_speed := Some 1500%Z; sr_torque := Some 45.2%float;
     sr_tool_wear := Some 120%Z;
     sr_metadata := VDict [("location", VStr "factory_A")];
     sr_created_at := ts |}.

Definition scenario_world : World :=
  {| engine := true;
     sensor_readings :=
       [reading_at "r-305" 100 "machine_01" 305.5;
        reading_at "r-other" 150 "machine_02" 300;
        reading_at "r-308" 200 "machine_01" 308.1;
        reading_at "r-310" 300 "machine_01" 310];
     predictions := [];
     memory_store := [];
     tick := 0;
     db_up := fun _ => true;
     mem_up := fun _ => true;
     uuid4 := fun n => String.append "p-" (NilZero.string_of_uint (Nat.to_uint n));
     utcnow := fun n => (1000 + Z.of_nat n)%Z |}.

Definition mocked_remote : Remote :=
  fun _ _ _ => inr (VDict [("failure_probability", VFloat 0.42)]).

Definition unreachable_remote : Remote :=
  fun _ _ _ => inl "connection refused".


(** Two stored predictions of [machine_01]: one whose probability is
    null, one whose probability is zero. *)
Definition stored_prediction (id : uuid) (p : option float) : PredictionRow :=
  {| pr_id := id; pr_sensor_reading_id := Some "r-310";
     pr_machine_id := Some "machine_01"; pr_ts := None;
     pr_model_version := None; pr_prediction_label := Some "normal";
     pr_failure_probability := p; pr_raw_scores := VDict [];
     pr_raw_features := VDict []; pr_metadata := VDict [];
     pr_created_at := 1000 |}.

Definition history_world : World :=
  with_predictions scenario_world
    [stored_prediction "p-null" None; stored_prediction "p-zero" (Some 0%float)].

(* ===================================================================== *)
(** ** Vocabulary and data of the further properties *)
(* ===================================================================== *)


(** A response that is not a document: a scalar, a list or null. *)
Definition not_a_document (ml : value) : Prop :=
  forall d, ml <> VDict d.

(** The predictions stored for a machine. *)
Definition predictions_of (w : World) (machine_id : string) : list PredictionRow :=
  filter (fun r => match pr_machine_id r with
                   | Some m => String.eqb m machine_id
                   | None => false
                   end) (predictions w).

(** Every record of the memory store has a machine identifier that is
    not empty and a document [json.dumps] accepts. *)
Definition memory_well_formed (w : World) : Prop :=
  Forall (fun r => truthy (iv_machine_id r) = true /\
                   json_serializable (iv_metadata r) = true)
         (memory_store w).

(** The database answers every statement. *)
Definition reachable (w : World) : Prop :=
  engine w = true /\ forall n, db_up w n = true.

(** The row [predict] writes for a normalised response [n], with the
    strings [mv] and [lbl] bound for the model version and the label. *)
Definition written_row (w : World) (newest : SensorRow) (machine_id : string)
    (n : Normalized) (mv lbl : option string) : PredictionRow :=
  {| pr_id := uuid4 w (S (tick w));
     pr_sensor_reading_id := Some (sr_id newest);
     pr_machine_id := Some machine_id;
     pr_ts := None;
     pr_model_version := mv;
     pr_prediction_label := lbl;
     pr_failure_probability := failure_prob n;
     pr_raw_scores := jsonb_or_empty (raw_scores n);
     pr_raw_features := jsonb_or_empty (raw_features n);
     pr_metadata := jsonb_or_empty (meta_ n);
     pr_created_at := utcnow w (S (tick w)) |}.

(** The remote answers [ml] to the first request, whatever the body. *)
Definition answers (remote : Remote) (ml : value) : Prop :=
  forall payload, remote ML_SERVICE_URL payload 0 = inr ml.

(** A value pydantic rejects for an optional [dict] field. *)
Definition not_null_or_document (v : value) : Prop :=
  opt_dict v = None.

(** The records [fetch_readings] pages through: the rows of the table or
    the records of the memory store that match the filter, newest
    first. *)
Definition matching_records (w : World) (machine_id : option string)
    : list ReadingRecord :=
  if engine w then
    map FromDb
      (sort_desc (fun a b => (sr_ts a <? sr_ts b)%Z)
         (match machine_id with
          | Some m =>
              if truthy (VStr m)
              then filter (fun r => String.eqb (sr_machine_id r) m)
                     (sensor_readings w)
              else sensor_readings w
          | None => sensor_readings w
          end))
  else
    map FromMemory
      (sort_desc (fun a b => String.ltb (iv_ts a) (iv_ts b))
         (filter (memory_matches machine_id) (memory_store w))).

(** The page of [fetch_readings]: what it returns, without the world. *)
Definition page (w : World) (machine_id : option string) (limit offset : Z)
    : list ReadingRecord :=
  fst (fetch_readings w machine_id limit offset).

(** A record agrees with the filter of [fetch_readings]. *)
Definition agrees_with (machine_id : option string) (r : ReadingRecord) : Prop :=
  match r with
  | FromMemory rec => memory_matches machine_id rec = true
  | FromDb row =>
      forall m, machine_id = Some m -> m <> "" -> sr_machine_id row = m
  end.

(** A record is one of those stored. *)
Definition stored_in (w : World) (r : ReadingRecord) : Prop :=
  match r with
  | FromMemory rec => engine w = false /\ In rec (memory_store w)
  | FromDb row => engine w = true /\ In row (sensor_readings w)
  end.

(** A memory store holding two readings of different machines. *)
Definition memory_record (id ts machine : string) : MemReading :=
  {| iv_id := id; iv_ts := ts; iv_machine_id := VStr machine;
     iv_air_temperature := VFloat 300; iv_process_temperature := VNone;
     iv_rotational_speed := VInt 1500; iv_torque := VNone;
     iv_tool_wear := VNone; iv_metadata := VDict [] |}.

Definition two_memory_records : World :=
  with_memory_store memory_only_world
    [memory_record "a" "2024-01-01T00:00:00" "machine_01";
     memory_record "b" "2024-01-02T00:00:00" "machine_02"].

(** The three columns the risk is computed from are all null. *)
Definition no_sensor_value (d : SensorRow) : Prop :=
  sr_air_temperature d = None /\ sr_rotational_speed d = None /\
  sr_torque d = None.

(** The machines of a list that have a reading, each with its latest
    row. *)
Definition latest_rows (w : World) (machines : list string)
    : list (string * SensorRow) :=
  flat_map (fun m => match select_window w m 1 with
                     | [] => []
                     | r :: _ => [(m, r)]
                     end) machines.

(** How many entries of the machine list bear a given risk. *)
Definition risk_count (risk : string) (out : list MachineStatus) : nat :=
  count_occ string_dec (map ms_risk out) risk.

(** A table with a reading whose sensor columns are all null. *)
Definition silent_reading : SensorRow :=
  {| sr_id := "r-silent"; sr_ts := 400; sr_machine_id := "machine_03";
     sr_air_temperature := None; sr_process_temperature := None;
     sr_rotational_speed := None; sr_torque := None; sr_tool_wear := None;
     sr_metadata := VNone; sr_created_at := 400 |}.

Definition hot_reading : SensorRow :=
  {| sr_id := "r-hot"; sr_ts := 500; sr_machine_id := "machine_04";
     sr_air_temperature := Some 320%float; sr_process_temperature := None;
     sr_rotational_speed := Some 1700%Z; sr_torque := None; sr_tool_wear := None;
     sr_metadata := VNone; sr_created_at := 500 |}.

Definition plant_world : World :=
  with_sensor_readings scenario_world
    (sensor_readings scenario_world ++ [silent_reading; hot_reading]).

(** The message, lowered and stripped, holds a keyword of a status or
    of a risk question. *)
Definition is_question `{Text} (payload : ChatRequest) : bool :=
  let text := strip (lower (message payload)) in
  any_in ["status"; "kondisi"; "keadaan"; "bagaimana mesin"] text
  || any_in ["risiko"; "resiko"; "bahaya"; "aman"] text.

(** The request names the machine and asks about it. *)
Definition asks_about `{Text} (payload : ChatRequest) (m : string) : Prop :=
  machine_id payload = Some m /\ m <> "" /\ is_question payload = true.

(** The reply of the chat when it finds no reading of the machine. *)
Definition not_found_response (m : string) : ChatResponse :=
  {| reply := concat_all
                ["Saya belum menemukan data terbaru untuk mesin "; m;
                 ". Pastikan data sensor sudah terkirim."];
     cr_machine_id := Some m;
     intent := Some "machine_status_not_found";
     extra := None |}.

(** The readings of a machine, and the number of rows the outer join of
    [recent] gives one of them: one per prediction that refers to it, and
    one when none does. *)
Definition readings_of (w : World) (machine_id : string) : list SensorRow :=
  filter (fun r => String.eqb (sr_machine_id r) machine_id) (sensor_readings w).

Definition join_rows (w : World) (r : SensorRow) : nat :=
  Nat.max 1 (List.length (filter (refers_to r) (predictions w))).

(** The three levels of risk in rising order; [Unknown] counts as the
    lowest. *)
Definition risk_rank (risk : string) : nat :=
  if String.eqb risk "Bahaya" then 2
  else if String.eqb risk "Waspada" then 1
  else 0.

(** A sensor value has not dropped: both are null, or both are numbers
    and the second is not below the first. *)
Definition not_dropped (x x' : option float) : Prop :=
  match x, x' with
  | Some a, Some b => (a <=? b)%float = true
  | None, None => True
  | _, _ => False
  end.

(** The metadata of a row, once parsed, is null or a document. *)
Definition document_or_null `{Runtime} (r : SensorRow) : bool :=
  match opt_dict (parse_metadata (sr_metadata r)) with
  | Some _ => true
  | None => false
  end.

(** The answer of the mock to a request whose first reading has the air
    temperature [temp]. *)
Definition mock_answer (score : float) (temp : option float) : value :=
  VDict [("model_version", VStr "mock-v1");
         ("failure_probability", VFloat score);
         ("prediction_label", VStr (mock_label score));
         ("raw_scores", VDict [("p", VFloat score)]);
         ("raw_features",
          VDict [("temp", match temp with
                          | Some t => VFloat t
                          | None => VNone
                          end)]);
         ("meta", VDict [("mock", VBool true)])].

(** The mock service as the remote of [predict], drawing [score] at
    every request. *)
Definition mock_remote (score : float) : Remote :=
  fun _ payload _ =>
    match mock_predict score payload with
    | Ok body => inr body
    | HttpError status _ => inl (String.append "HTTP " (str_of_int status))
    end.

(** Text operations on ASCII strings, where they agree with the
    interpreter: letters are lowered, white space is stripped at both
    ends, and a float is printed with two decimals, rounded to nearest
    with ties to even. *)
Definition lower_ascii (c : ascii) : ascii :=
  let n := nat_of_ascii c in
  if (Nat.leb 65 n && Nat.leb n 90)%bool then ascii_of_nat (n + 32) else c.

Fixpoint lower_string (s : string) : string :=
  match s with
  | EmptyString => EmptyString
  | String c s' => String (lower_ascii c) (lower_string s')
  end.

Definition is_space (c : ascii) : bool :=
  let n := nat_of_ascii c in
  (Nat.leb 9 n && Nat.leb n 13) || (Nat.leb 28 n && Nat.leb n 32).

Fixpoint lstrip (s : string) : string :=
  match s with
  | EmptyString => EmptyString
  | String c s' => if is_space c then lstrip s' else s
  end.

Fixpoint rstrip (s : string) : string :=
  match s with
  | EmptyString => EmptyString
  | String c s' =>
      match rstrip s' with
      | EmptyString => if is_space c then EmptyString else String c EmptyString
      | rest => String c rest
      end
  end.

Definition fixed_2 (f : float) : string :=
  match Prim2SF f with
  | S754_nan => "nan"
  | S754_infinity s => if s then "-inf" else "inf"
  | S754_zero s => if s then "-0.00" else "0.00"
  | S754_finite s m e =>
      let n := (Z.pos m * 100)%Z in
      let q :=
        if (0 <=? e)%Z then (n * 2 ^ e)%Z
        else
          let d := (2 ^ (- e))%Z in
          let q0 := (n / d)%Z in
          let r := (n mod d)%Z in
          if (2 * r <? d)%Z then q0
          else if (d <? 2 * r)%Z then (q0 + 1)%Z
          else if Z.even q0 then q0 else (q0 + 1)%Z in
      let cents := (q mod 100)%Z in
      String.append (if s then "-" else "")
        (String.append (str_of_int (q / 100))
           (String.append "."
              (String.append (if (cents <? 10)%Z then "0" else "")
                 (str_of_int cents))))
  end.

Definition ascii_text : Text :=
  {| lower := lower_string;
     strip := fun s => rstrip (lstrip s);
     format_2f := fixed_2 |}.

(** A question about the state of a machine. *)
Definition status_question (m : string) : ChatRequest :=
  {| message := "  Bagaimana STATUS mesin ini? "; machine_id := Some m |}.

(** A remote that answers a bare string, and one whose [meta] is a
    string. *)
Definition scalar_remote : Remote :=
  fun _ _ _ => inr (VStr "model is warming up").

Definition text_meta_remote : Remote :=
  fun _ _ _ => inr (VDict [("failure_probability", VFloat 0.9);
                           ("meta", VStr "high vibration")]).

(** A remote that answers with a label and no probability. *)
Definition label_only_remote : Remote :=
  fun _ _ _ => inr (VDict [("prediction_label", VStr "warning")]).

(* ===================================================================== *)
(** ** Risk rules *)
(* ===================================================================== *)

Lemma above_true_iff (x : option float) (bound : float) :
  above x bound = true <-> exceeds x bound.
Proof.
  unfold above, exceeds. destruct x as [v|].
  - split.
    + intros Hv. exists v. split; [reflexivity | exact Hv].
    + intros [v' [Heq Hv]]. inversion Heq; subst. exact Hv.
  - split; [discriminate | intros [v' [Heq _]]; discriminate].
Qed.

Lemma above_false_iff (x : option float) (bound : float) :
  above x bound = false <-> ~ exceeds x bound.
Proof.
  rewrite <- above_true_iff. destruct (above x bound); split; intros; congruence.
Qed.

Lemma rule_decided (t v c : option float) (b1 b2 b3 : float) :
  above t b1 || above v b2 || above c b3 = true <->
  exceeds t b1 \/ exceeds v b2 \/ exceeds c b3.
Proof.
  rewrite !orb_true_iff, !above_true_iff. tauto.
Qed.

Lemma compute_risk_not_null (t v c : option float) :
  ~ all_null t v c ->
  compute_risk t v c =
    if above t 315 || above v 2200 || above c 85 then "Bahaya"
    else if above t 305 || above v 1600 || above c 65 then "Waspada"
    else "Normal".
Proof.
  intros Hn. destruct t, v, c; try reflexivity.
  exfalso. apply Hn. repeat split.
Qed.

(** C1. The risk classification is [Unknown] when the three inputs are
    null; otherwise [Danger] when temperature > 315 or vibration > 2200
    or current > 85; otherwise [Watch] when temperature > 305 or
    vibration > 1600 or current > 65; otherwise [Normal].  The rules are
    tried in that order, the comparisons are strict (315 itself does not
    trigger Danger, 305 itself does not trigger Watch), and a null input
    triggers nothing and blocks nothing. *)
Theorem compute_risk_priority (t v c : option float) :
  (all_null t v c -> compute_risk t v c = risk_label Unknown) /\
  (~ all_null t v c -> danger_rule t v c ->
     compute_risk t v c = risk_label Danger) /\
  (~ all_null t v c -> ~ danger_rule t v c -> watch_rule t v c ->
     compute_risk t v c = risk_label Watch) /\
  (~ all_null t v c -> ~ danger_rule t v c -> ~ watch_rule t v c ->
     compute_risk t v c = risk_label Normal) /\
  (~ exceeds (Some 315%float) 315 /\ ~ exceeds (Some 305%float) 305) /\
  (compute_risk (Some 315%float) v c = risk_label Danger ->
     exceeds v 2200 \/ exceeds c 85) /\
  (compute_risk (Some 305%float) v c = risk_label Watch ->
     exceeds v 1600 \/ exceeds c 65) /\
  (forall bound, ~ exceeds None bound).
Proof.
  unfold danger_rule, watch_rule.
  repeat match goal with |- _ /\ _ => split end.
  - intros (-> & -> & ->). reflexivity.
  - intros Hn Hd. rewrite (compute_risk_not_null _ _ _ Hn).
    apply rule_decided in Hd. rewrite Hd. reflexivity.
  - intros Hn Hd Hw. rewrite (compute_risk_not_null _ _ _ Hn).
    rewrite <- rule_decided in Hd, Hw.
    apply not_true_is_false in Hd. rewrite Hd, Hw. reflexivity.
  - intros Hn Hd Hw. rewrite (compute_risk_not_null _ _ _ Hn).
    rewrite <- rule_decided in Hd, Hw.
    apply not_true_is_false in Hd. apply not_true_is_false in Hw.
    rewrite Hd, Hw. reflexivity.
  - apply above_false_iff. reflexivity.
  - apply above_false_iff. reflexivity.
  - intros Hr. rewrite <- !above_true_iff, <- orb_true_iff.
    unfold compute_risk in Hr.
    change (above (Some 315%float) 315) with false in Hr.
    change (above (Some 315%float) 305) with true in Hr.
    simpl in Hr.
    destruct (above v 2200 || above c 85); [reflexivity | discriminate].
  - intros Hr. rewrite <- !above_true_iff, <- orb_true_iff.
    unfold compute_risk in Hr.
    change (above (Some 305%float) 315) with false in Hr.
    change (above (Some 305%float) 305) with false in Hr.
    simpl in Hr.
    destruct (above v 2200 || above c 85); [discriminate |].
    destruct (above v 1600 || above c 65); [reflexivity | discriminate].
  - intros bound. apply above_false_iff. reflexivity.
Qed.

(** The rules at concrete readings: a hot machine with the two other
    inputs missing, and the two boundary temperatures. *)
Lemma compute_risk_priority_witness :
  compute_risk (Some 320%float) None None = "Bahaya" /\
  compute_risk None None (Some 70%float) = "Waspada" /\
  compute_risk None None None = "Unknown".
Proof.
  destruct (compute_risk_priority (Some 320%float) None None)
    as (_ & Hdanger & _).
  destruct (compute_risk_priority None None (Some 70%float))
    as (_ & _ & Hwatch & _).
  destruct (compute_risk_priority None None None) as (Hnull & _).
  split; [| split].
  - apply Hdanger.
    + intros (H & _); discriminate H.
    + left. exists 320%float. split; reflexivity.
  - apply Hwatch.
    + intros (_ & _ & H); discriminate H.
    + intros [(x & H & _) | [(x & H & _) | (x & H & Hx)]];
        try discriminate H.
      inversion H; subst x. vm_compute in Hx. discriminate Hx.
    + right; right. exists 70%float. split; reflexivity.
  - apply Hnull. repeat split.
Defined.

(* ===================================================================== *)
(** ** Retry with backoff *)
(* ===================================================================== *)

Lemma default_delays :
  backoff_delay default_backoff 0 = Some 0.5%float /\
  backoff_delay default_backoff 1 = Some 1%float /\
  backoff_delay default_backoff 2 = Some 2%float /\
  backoff_delay default_backoff 3 = Some 4%float /\
  backoff_delay default_backoff 4 = Some 8%float.
Proof. repeat split; vm_compute; reflexivity. Qed.

(** One failed attempt: the error is remembered, the delay is slept, and
    the loop goes on with the next index. *)
Lemma retry_loop_failed (post : nat -> string + value) (backoff d : float)
    (n i : nat) (last : option string) (tr : RetryTrace) (e : string) :
  post i = inl e ->
  backoff_delay backoff i = Some d ->
  retry_loop post backoff (S n) i last tr =
  retry_loop post backoff n (S i) (Some e) (slept d (sent tr)).
Proof.
  intros Hpost Hdelay. cbn [retry_loop]. rewrite Hpost, Hdelay. reflexivity.
Qed.

Lemma retry_loop_succeeded (post : nat -> string + value) (backoff : float)
    (n i : nat) (last : option string) (tr : RetryTrace) (v : value) :
  post i = inr v ->
  retry_loop post backoff (S n) i last tr = (Returned v, sent tr).
Proof.
  intros Hpost. cbn [retry_loop]. rewrite Hpost. reflexivity.
Qed.

(** One more failed attempt on the left of the goal, by [Hpost] and the
    delay [Hdelay]. *)
Ltac failed_attempt Hpost Hdelay :=
  rewrite (retry_loop_failed _ _ _ _ _ _ _ _ Hpost Hdelay).

(** C2. With the default five attempts and base delay 0.5: an endpoint
    that fails four times and then answers is called exactly five times
    and its answer is returned; an endpoint that always fails is called
    exactly five times, the error of the last attempt is raised, and the
    delays slept, one after each failed attempt, are 0.5, 1, 2, 4, 8,
    the [i]-th being [backoff * 2 ** i]. *)
Theorem retry_attempts_and_backoff (post : nat -> string + value) :
  (forall v,
     (forall i, i < 4 -> exists e, post i = inl e) ->
     post 4 = inr v ->
     call_ml_service_with_retry post default_retries default_backoff =
       (Returned v, {| attempts := 5; sleeps := [0.5; 1; 2; 4]%float |})) /\
  (forall err : nat -> string,
     (forall i, i < 5 -> post i = inl (err i)) ->
     call_ml_service_with_retry post default_retries default_backoff =
       (Raised (RemoteError (err 4)),
        {| attempts := 5; sleeps := [0.5; 1; 2; 4; 8]%float |})) /\
  (forall i d,
     nth_error [0.5; 1; 2; 4; 8]%float i = Some d ->
     backoff_delay default_backoff i = Some d).
Proof.
  destruct default_delays as (D0 & D1 & D2 & D3 & D4).
  split; [| split].
  - intros v Hfail Hok.
    destruct (Hfail 0) as [e0 H0]; [lia |].
    destruct (Hfail 1) as [e1 H1]; [lia |].
    destruct (Hfail 2) as [e2 H2]; [lia |].
    destruct (Hfail 3) as [e3 H3]; [lia |].
    unfold call_ml_service_with_retry, default_retries.
    failed_attempt H0 D0.
    failed_attempt H1 D1.
    failed_attempt H2 D2.
    failed_attempt H3 D3.
    rewrite (retry_loop_succeeded _ _ _ _ _ _ _ Hok).
    reflexivity.
  - intros err Hfail.
    unfold call_ml_service_with_retry, default_retries.
    failed_attempt (Hfail 0 ltac:(lia)) D0.
    failed_attempt (Hfail 1 ltac:(lia)) D1.
    failed_attempt (Hfail 2 ltac:(lia)) D2.
    failed_attempt (Hfail 3 ltac:(lia)) D3.
    failed_attempt (Hfail 4 ltac:(lia)) D4.
    reflexivity.
  - intros i d Hnth.
    do 5 (destruct i as [| i]; [inversion Hnth; subst; assumption |]).
    destruct i; discriminate Hnth.
Qed.

(** The two endpoints of the examples, through the retry loop. *)
Lemma retry_attempts_and_backoff_witness :
  call_ml_service_with_retry flaky_endpoint default_retries default_backoff =
    (Returned (VDict [("failure_probability", VFloat 0.42)]),
     {| attempts := 5; sleeps := [0.5; 1; 2; 4]%float |}) /\
  call_ml_service_with_retry dead_endpoint default_retries default_backoff =
    (Raised (RemoteError "connection refused #4"),
     {| attempts := 5; sleeps := [0.5; 1; 2; 4; 8]%float |}).
Proof.
  split.
  - apply (proj1 (retry_attempts_and_backoff flaky_endpoint)).
    + intros i Hi. exists "503 Service Unavailable".
      unfold flaky_endpoint.
      destruct (Nat.ltb_spec i 4) as [_ | Hge]; [reflexivity | lia].
    + reflexivity.
  - apply (proj1 (proj2 (retry_attempts_and_backoff dead_endpoint))
             (fun i => String.append "connection refused #"
                         (NilZero.string_of_uint (Nat.to_uint i)))).
    intros i _. reflexivity.
Defined.

(* ===================================================================== *)
(** ** Normalisation of the remote response *)
(* ===================================================================== *)

(** A float that equals zero is below every positive bound. *)
Lemma zero_below (p bound : float) :
  (0 <? bound)%float = true -> (p =? 0)%float = true -> (p <? bound)%float = true.
Proof.
  rewrite !ltb_spec, eqb_spec.
  change (Prim2SF 0) with (S754_zero false).
  destruct (Prim2SF p) as [s | s | | s m e];
    destruct (Prim2SF bound) as [s' | s' | | s' m' e'];
    simpl; try discriminate; try (destruct s; discriminate); auto.
Qed.

Lemma score_to_label_or_zero (p : float) :
  score_to_label (prob_or_zero (Some p)) = score_to_label p.
Proof.
  unfold prob_or_zero, truthy.
  destruct (p =? 0)%float eqn:Hz; [| reflexivity].
  simpl. unfold score_to_label at 2.
  rewrite (zero_below p 0.3%float eq_refl Hz). reflexivity.
Qed.

Lemma label_to_store_eq `{Runtime} (ml : value) :
  label_to_store (normalize ml) =
    if is_none (prediction_label (normalize ml))
    then VStr (score_to_label (prob_or_zero (failure_prob (normalize ml))))
    else prediction_label (normalize ml).
Proof. destruct ml; reflexivity. Qed.

Lemma failure_prob_dict `{Runtime} (d : list (string * value)) :
  failure_prob (normalize (VDict d)) =
    coerce_probability (or_ (get d "failure_probability") (get d "score")).
Proof. reflexivity. Qed.

(** A value [float] rejects leaves the probability null; the call goes
    on. *)
Lemma unparsable_probability_is_null `{Runtime} (d : list (string * value)) :
  float_of_value (or_ (get d "failure_probability") (get d "score")) = None ->
  failure_prob (normalize (VDict d)) = None.
Proof.
  intros Hbad. rewrite failure_prob_dict. unfold coerce_probability.
  destruct (is_none _); [reflexivity | exact Hbad].
Qed.

(** A non-zero probability under the canonical name is kept as it is. *)
Lemma nonzero_probability_kept `{Runtime} (d : list (string * value)) (f : float) :
  get d "failure_probability" = VFloat f ->
  (f =? 0)%float = false ->
  failure_prob (normalize (VDict d)) = Some f.
Proof.
  intros Hget Hnz. rewrite failure_prob_dict, Hget.
  unfold or_, truthy. rewrite Hnz. reflexivity.
Qed.

(** C3. When the response carries no label (neither [prediction_label]
    nor [label]), the label to store is read off the probability: below 0.3 [normal], below 0.7 [warning],
    otherwise [failure]; 0.3 itself gives [warning] and 0.7 itself
    [failure]; a missing probability counts as 0.0 and gives [normal]. *)
Theorem derived_label_thresholds `{Runtime} :
  (forall d,
     lookup d "prediction_label" = None -> lookup d "label" = None ->
     prediction_label (normalize (VDict d)) = VNone) /\
  (forall ml p,
     prediction_label (normalize ml) = VNone ->
     failure_prob (normalize ml) = Some p ->
     label_to_store (normalize ml) = VStr (score_to_label p)) /\
  (forall ml,
     prediction_label (normalize ml) = VNone ->
     failure_prob (normalize ml) = None ->
     label_to_store (normalize ml) = VStr (score_to_label 0) /\
     score_to_label 0 = "normal") /\
  (forall p, (p <? 0.3)%float = true -> score_to_label p = "normal") /\
  (forall p, (p <? 0.3)%float = false -> (p <? 0.7)%float = true ->
     score_to_label p = "warning") /\
  (forall p, (p <? 0.3)%float = false -> (p <? 0.7)%float = false ->
     score_to_label p = "failure") /\
  score_to_label 0.3 = "warning" /\
  score_to_label 0.7 = "failure".
Proof.
  repeat match goal with |- _ /\ _ => split end.
  - intros d Hcanonical Halias. simpl. unfold get, get_default.
    rewrite Hcanonical, Halias. reflexivity.
  - intros ml p Hlbl Hp. rewrite label_to_store_eq, Hlbl, Hp. simpl is_none.
    cbv iota. rewrite score_to_label_or_zero. reflexivity.
  - intros ml Hlbl Hp. split; [| reflexivity].
    rewrite label_to_store_eq, Hlbl, Hp. reflexivity.
  - intros p Hlt. unfold score_to_label. rewrite Hlt. reflexivity.
  - intros p Hge Hlt. unfold score_to_label. rewrite Hge, Hlt. reflexivity.
  - intros p Hge Hge'. unfold score_to_label. rewrite Hge, Hge'. reflexivity.
  - reflexivity.
  - reflexivity.
Qed.

(** Responses without a label: probabilities 0.2, 0.5 and 0.9, and no
    probability at all. *)
Lemma derived_label_thresholds_witness :
  label_to_store (normalize (H := strict_runtime)
                    (VDict [("failure_probability", VFloat 0.2)])) = VStr "normal" /\
  label_to_store (normalize (H := strict_runtime)
                    (VDict [("score", VFloat 0.5)])) = VStr "warning" /\
  label_to_store (normalize (H := strict_runtime)
                    (VDict [("failure_probability", VFloat 0.9)])) = VStr "failure" /\
  label_to_store (normalize (H := strict_runtime) (VDict [])) = VStr "normal".
Proof.
  destruct (derived_label_thresholds (H := strict_runtime))
    as (_ & Hsome & Hnone & _).
  repeat match goal with |- _ /\ _ => split end.
  - apply (Hsome _ 0.2%float); reflexivity.
  - apply (Hsome _ 0.5%float); reflexivity.
  - apply (Hsome _ 0.9%float); reflexivity.
  - exact (proj1 (Hnone (VDict []) eq_refl eq_refl)).
Defined.

(** C5, at the failing input.  The mock's canonical answer with the
    probability 0.0 loses it: [0.0 or ml.get("score")] is [None], so the
    normalised probability is null and not 0.0. *)
Theorem canonical_zero_probability_lost `{Runtime} :
  get canonical_zero_fields "failure_probability" = VFloat 0 /\
  failure_prob (normalize canonical_zero) = None /\
  failure_prob (normalize canonical_zero) <> Some 0%float.
Proof.
  split; [reflexivity |]. split; [reflexivity | discriminate].
Qed.

(** C6, at the failing input.  With both names present and a zero under
    the preferred one, the probability is taken from [score]. *)
Theorem zero_probability_yields_to_score `{Runtime} :
  failure_prob (normalize both_names) = Some 0.9%float /\
  failure_prob (normalize both_names) <> Some 0%float.
Proof.
  split; [reflexivity |].
  intros Heq. vm_compute in Heq. discriminate Heq.
Qed.

(* ===================================================================== *)
(** ** Storage fallback *)
(* ===================================================================== *)

Section SortDesc.

Context {A : Type} (lt : A -> A -> bool).

Lemma insert_desc_In (x y : A) (l : list A) :
  In y (insert_desc lt x l) <-> y = x \/ In y l.
Proof.
  induction l as [| z l IH]; simpl.
  - intuition congruence.
  - destruct (lt x z); simpl; rewrite ?IH; intuition congruence.
Qed.

Lemma sort_desc_In (y : A) (l : list A) :
  In y (sort_desc lt l) <-> In y l.
Proof.
  induction l as [| x l IH]; simpl.
  - tauto.
  - rewrite insert_desc_In, IH. intuition congruence.
Qed.

Lemma insert_desc_length (x : A) (l : list A) :
  List.length (insert_desc lt x l) = S (List.length l).
Proof.
  induction l as [| z l IH]; simpl; [reflexivity |].
  destruct (lt x z); simpl; [rewrite IH |]; reflexivity.
Qed.

Lemma sort_desc_length (l : list A) :
  List.length (sort_desc lt l) = List.length l.
Proof.
  induction l as [| x l IH]; simpl; [reflexivity |].
  rewrite insert_desc_length, IH. reflexivity.
Qed.

Lemma sort_desc_nil_inv (l : list A) : sort_desc lt l = [] -> l = [].
Proof.
  intros Hs. apply length_zero_iff_nil.
  rewrite <- sort_desc_length, Hs. reflexivity.
Qed.

End SortDesc.



Lemma slice_whole {A : Type} (xs : list A) (stop : Z) :
  (Z.of_nat (List.length xs) <= stop)%Z -> slice xs 0 stop = xs.
Proof.
  intros Hlen. unfold slice, slice_index.
  change (0 <? 0)%Z with false. cbv iota.
  assert (Hstop : (stop <? 0)%Z = false) by (apply Z.ltb_ge; lia).
  rewrite Hstop.
  rewrite (Z.min_l 0 (Z.of_nat (List.length xs))) by lia.
  rewrite (Z.min_r stop (Z.of_nat (List.length xs))) by lia.
  rewrite Z.sub_0_r, Nat2Z.id. simpl skipn. apply firstn_all.
Qed.

Lemma filter_everything {A : Type} (xs : list A) :
  filter (fun _ => true) xs = xs.
Proof.
  induction xs as [| x xs IH]; simpl; [| rewrite IH]; reflexivity.
Qed.

Lemma step_fields (w : World) :
  engine (step w) = engine w /\
  sensor_readings (step w) = sensor_readings w /\
  predictions (step w) = predictions w /\
  memory_store (step w) = memory_store w.
Proof. repeat split. Qed.

Lemma db_insert_reading_appends `{Runtime} (w w1 : World) (iv : InsertValues datetime) :
  db_insert_reading w iv = Some w1 ->
  exists row,
    sensor_row_of (utcnow w (tick w)) iv = Some row /\
    w1 = with_sensor_readings w (sensor_readings w ++ [row]).
Proof.
  unfold db_insert_reading. intros Hdb.
  destruct (db_up w (tick w)); [| discriminate].
  destruct (sensor_row_of (utcnow w (tick w)) iv) as [row |]; [| discriminate].
  exists row. inversion Hdb. split; reflexivity.
Qed.

Lemma sensor_row_of_id `{Runtime} (now : datetime) (iv : InsertValues datetime)
    (row : SensorRow) :
  sensor_row_of now iv = Some row -> sr_id row = iv_id iv.
Proof.
  unfold sensor_row_of. intros Hrow.
  destruct (bind_text (iv_machine_id iv)) as [[m |] |]; try discriminate.
  destruct (bind_float (iv_air_temperature iv)); try discriminate.
  destruct (bind_float (iv_process_temperature iv)); try discriminate.
  destruct (bind_int (iv_rotational_speed iv)); try discriminate.
  destruct (bind_float (iv_torque iv)); try discriminate.
  destruct (bind_int (iv_tool_wear iv)); try discriminate.
  inversion Hrow. reflexivity.
Qed.

(** The fallback path of [insert_reading], spelled out. *)
Lemma insert_reading_fallback_eq `{Runtime} (w : World)
    (payload : list (string * value)) :
  fallback_reached w payload ->
  insert_reading w payload =
    (inr (uuid4 w (tick w)),
     step (memory_append w (memory_record_of (prepared w payload)))).
Proof.
  unfold fallback_reached, insert_reading. fold (prepared w payload).
  intros [Hoff | Hraise].
  - rewrite Hoff. reflexivity.
  - rewrite Hraise. destruct (engine w); reflexivity.
Qed.

(** C4, as the code has it.  A write first tries the durable backend
    when one is configured, and a committed write leaves the memory
    store alone.  When there is no engine or the durable write raises,
    the reading is appended to the memory store instead of failing the
    caller.  The write never reports failure: it returns the generated
    identifier even when the fallback append fails, and nothing is then
    stored.  After a successful fallback append the reading is in the
    memory store, and [fetch_readings] returns it when no engine is
    configured. *)
Theorem insert_reading_never_fails `{Runtime} (w : World)
    (payload : list (string * value)) :
  let iv := prepared w payload in
  let res := insert_reading w payload in
  fst res = inr (uuid4 w (tick w)) /\
  ~ reports_failure res /\
  (forall w1,
     engine w = true -> db_insert_reading w iv = Some w1 ->
     snd res = step w1 /\
     memory_store (snd res) = memory_store w /\
     exists row,
       sensor_readings (snd res) = sensor_readings w ++ [row] /\
       sr_id row = uuid4 w (tick w)) /\
  (fallback_reached w payload -> mem_up w (tick w) = true ->
     memory_store (snd res) = memory_store w ++ [memory_record_of iv] /\
     In (memory_record_of iv) (get_memory_store (snd res)) /\
     sensor_readings (snd res) = sensor_readings w) /\
  (fallback_append_fails w payload -> snd res = step w) /\
  (engine w = false -> mem_up w (tick w) = true ->
     forall limit, (Z.of_nat (List.length (memory_store w)) < limit)%Z ->
     In (FromMemory (memory_record_of iv))
        (fst (fetch_readings (snd res) None limit 0))).
Proof.
  intros iv res.
  assert (Hfst : fst res = inr (uuid4 w (tick w))).
  { subst res. unfold insert_reading.
    destruct (if engine w then _ else _); reflexivity. }
  split; [exact Hfst |].
  split; [intros [e He]; rewrite Hfst in He; discriminate He |].
  split; [| split; [| split]].
  - intros w1 Hon Hdb. subst res. unfold insert_reading.
    fold (prepared w payload). fold iv. rewrite Hon, Hdb. simpl.
    destruct (db_insert_reading_appends _ _ _ Hdb) as (row & Hrow & ->).
    split; [reflexivity |]. split; [reflexivity |].
    exists row. split; [reflexivity |].
    rewrite (sensor_row_of_id _ _ _ Hrow). reflexivity.
  - intros Hfb Hmem. subst res.
    rewrite (insert_reading_fallback_eq _ _ Hfb). fold iv.
    unfold memory_append. rewrite Hmem. simpl.
    split; [reflexivity |]. split; [| reflexivity].
    unfold get_memory_store. simpl. apply in_or_app. right. left. reflexivity.
  - intros [Hfb Hmem]. subst res.
    rewrite (insert_reading_fallback_eq _ _ Hfb).
    unfold memory_append. rewrite Hmem. reflexivity.
  - intros Hoff Hmem limit Hlimit. subst res.
    rewrite (insert_reading_fallback_eq _ _ (or_introl Hoff)). fold iv.
    unfold memory_append. rewrite Hmem. simpl snd.
    unfold fetch_readings. simpl engine. rewrite Hoff.
    simpl fst. unfold memory_matches. rewrite filter_everything.
    change (0 + limit)%Z with limit.
    rewrite slice_whole.
    + apply in_map. apply sort_desc_In. simpl.
      apply in_or_app. right. left. reflexivity.
    + rewrite sort_desc_length. simpl. rewrite length_app. simpl. lia.
Qed.

(** The claim as worded, at a world where the engine is down and the
    memory store refuses the append: the fallback append fails and the
    call still returns an identifier, so failure is not reported exactly
    when the fallback append fails. *)
Lemma write_failure_not_reported :
  ~ (reports_failure (insert_reading (H := strict_runtime) stuck_world sample_payload)
     <-> fallback_append_fails (H := strict_runtime) stuck_world sample_payload).
Proof.
  intros [_ Hreport].
  destruct Hreport as [e He].
  - split; [right |]; reflexivity.
  - vm_compute in He. discriminate He.
Qed.

(** A write on a healthy database goes to the table and leaves the
    memory store alone; while the engine is down the reading lands in
    the memory store; with the memory store down as well the identifier
    is still returned and nothing is kept; without an engine the reading
    is returned by [fetch_readings]. *)
Lemma insert_reading_never_fails_witness :
  (exists row,
     sensor_readings
       (snd (insert_reading (H := strict_runtime) healthy_world sample_payload))
       = [row] /\ sr_id row = "0") /\
  fst (insert_reading (H := strict_runtime) degraded_world sample_payload)
    = inr "0" /\
  In (memory_record_of (H := strict_runtime)
        (prepared (H := strict_runtime) degraded_world sample_payload))
     (get_memory_store
        (snd (insert_reading (H := strict_runtime) degraded_world sample_payload))) /\
  snd (insert_reading (H := strict_runtime) stuck_world sample_payload)
    = step stuck_world /\
  In (FromMemory (memory_record_of (H := strict_runtime)
                    (prepared (H := strict_runtime) memory_only_world sample_payload)))
     (fst (fetch_readings
             (snd (insert_reading (H := strict_runtime) memory_only_world
                     sample_payload))
             None 100 0)).
Proof.
  destruct (insert_reading_never_fails (H := strict_runtime)
              healthy_world sample_payload)
    as (_ & _ & Hdurable & _).
  destruct (insert_reading_never_fails (H := strict_runtime)
              degraded_world sample_payload)
    as (Hid & _ & _ & Hfallback & _).
  destruct (insert_reading_never_fails (H := strict_runtime)
              stuck_world sample_payload)
    as (_ & _ & _ & _ & Hstuck & _).
  destruct (insert_reading_never_fails (H := strict_runtime)
              memory_only_world sample_payload)
    as (_ & _ & _ & _ & _ & Hfetch).
  split; [| split; [exact Hid | split; [| split]]].
  - destruct (Hdurable _ eq_refl eq_refl) as (_ & _ & row & Hrows & Hrow).
    exists row. split; [exact Hrows | exact Hrow].
  - apply Hfallback; [right |]; reflexivity.
  - apply Hstuck. split; [right |]; reflexivity.
  - apply Hfetch; [reflexivity | reflexivity | simpl; lia].
Defined.

(* ===================================================================== *)
(** ** The prediction endpoint *)
(* ===================================================================== *)

Lemma filter_nil_iff {A : Type} (f : A -> bool) (l : list A) :
  filter f l = [] <-> forall x, In x l -> f x = false.
Proof.
  induction l as [| a l IH]; simpl.
  - split; [intros _ x [] | reflexivity].
  - destruct (f a) eqn:Hfa.
    + split; [discriminate |].
      intros Hall. rewrite (Hall a (or_introl eq_refl)) in Hfa. discriminate Hfa.
    + rewrite IH. split.
      * intros Hall x [<- | Hin]; [exact Hfa | exact (Hall x Hin)].
      * intros Hall x Hin. apply Hall. right. exact Hin.
Qed.

(** With a limit above one, the window is empty exactly when the machine
    has no reading. *)
Lemma select_window_nil_iff (w : World) (machine_id : string) (limit : Z) :
  (1 < limit)%Z ->
  select_window w machine_id limit = [] <-> no_readings w machine_id.
Proof.
  intros Hlimit. unfold select_window, no_readings.
  set (mine := filter _ (sensor_readings w)).
  assert (Hmine : mine = [] <-> forall r, In r (sensor_readings w) ->
                                  sr_machine_id r <> machine_id).
  { subst mine. rewrite filter_nil_iff. split; intros Hall r Hin.
    - apply String.eqb_neq. exact (Hall r Hin).
    - apply String.eqb_neq. exact (Hall r Hin). }
  rewrite <- Hmine. split.
  - intros Hwin. apply (sort_desc_nil_inv (fun a b => (sr_ts a <? sr_ts b)%Z)).
    destruct (sort_desc _ mine) as [| x xs]; [reflexivity |].
    destruct (Z.to_nat limit) as [| n] eqn:Hn; [lia | discriminate Hwin].
  - intros ->. simpl. apply firstn_nil.
Qed.

Lemma scan_rows_keeps `{Runtime} (rows : list SensorRow) (id : uuid)
    (acc : list Reading) :
  fst (scan_rows rows (Some id) acc) = Some id.
Proof.
  revert acc. induction rows as [| r rows IH]; intros acc; simpl;
    [reflexivity | apply IH].
Qed.

(** The identifier kept by the loop is that of the first row. *)
Lemma scan_rows_first `{Runtime} (r : SensorRow) (rows : list SensorRow) :
  fst (scan_rows (r :: rows) None []) = Some (sr_id r).
Proof. simpl. apply scan_rows_keeps. Qed.

(** Five failures in a row end the call with the last error. *)
Lemma retry_exhausted (post : nat -> string + value) :
  (forall i, i < default_retries -> exists e, post i = inl e) ->
  exists e tr,
    call_ml_service_with_retry post default_retries default_backoff =
      (Raised (RemoteError e), tr).
Proof.
  intros Hfail. destruct default_delays as (D0 & D1 & D2 & D3 & D4).
  unfold default_retries in *.
  destruct (Hfail 0) as [e0 H0]; [lia |].
  destruct (Hfail 1) as [e1 H1]; [lia |].
  destruct (Hfail 2) as [e2 H2]; [lia |].
  destruct (Hfail 3) as [e3 H3]; [lia |].
  destruct (Hfail 4) as [e4 H4]; [lia |].
  exists e4. eexists. unfold call_ml_service_with_retry.
  failed_attempt H0 D0.
  failed_attempt H1 D1.
  failed_attempt H2 D2.
  failed_attempt H3 D3.
  failed_attempt H4 D4.
  reflexivity.
Qed.

(** [predict] once the request is accepted and the SELECT went through. *)
Lemma predict_accepted `{Runtime} (remote : Remote) (w : World)
    (machine_id : string) (limit : Z) (threshold : float) :
  query_gt_le 1 2000 limit = true ->
  engine w = true ->
  db_up w (tick w) = true ->
  predict remote w machine_id limit threshold =
    match select_window w machine_id limit with
    | [] => (HttpError 404 "No readings found for this machine.", step w)
    | r :: rows =>
        match call_ml_service_with_retry
                (remote ML_SERVICE_URL (payload_of machine_id (r :: rows)))
                default_retries default_backoff with
        | (Raised e, _) =>
            (HttpError 502 (String.append "ML service error: " (exn_message e)),
             step w)
        | (Returned ml, _) =>
            let n := normalize ml in
            match
              (if db_up w (S (tick w)) then
                 prediction_row_of (uuid4 w (S (tick w))) (utcnow w (S (tick w)))
                   (Some (sr_id r)) machine_id n
               else None)
            with
            | None => (internal_error, step (step w))
            | Some row =>
                let w2 := step (with_predictions (step w) (predictions w ++ [row])) in
                match make_result (pr_id row) (model_version n) (label_to_store n)
                        (failure_prob n) (meta_ n) with
                | Some res => (Ok res, w2)
                | None => (internal_error, w2)
                end
            end
        end
    end.
Proof.
  intros Hq He Hdb. unfold predict. rewrite Hq, He, Hdb. cbn [negb].
  destruct (select_window w machine_id limit) as [| r rows]; [reflexivity |].
  unfold payload_of.
  pose proof (scan_rows_first r rows) as Hfirst.
  destruct (scan_rows (r :: rows) None []) as [latest readings].
  simpl in Hfirst. subst latest. reflexivity.
Qed.

Lemma same_storage_step (w : World) : same_storage w (step w).
Proof. repeat split. Qed.

(** C7. An accepted [predict] on a reachable database answers 404 when
    the machine has no stored reading, and 502 when the machine has
    readings and the remote call exhausts its retries; in both cases the
    tables and the memory store are left as they were, and more
    generally no 404 or 502 answer comes with a write. *)
Theorem predict_failures_persist_nothing `{Runtime} (remote : Remote) (w : World)
    (machine_id : string) (limit : Z) (threshold : float) :
  query_gt_le 1 2000 limit = true ->
  engine w = true ->
  db_up w (tick w) = true ->
  let res := predict remote w machine_id limit threshold in
  (no_readings w machine_id ->
     fst res = HttpError 404 "No readings found for this machine." /\
     same_storage w (snd res)) /\
  (~ no_readings w machine_id -> exhausts_retries remote ->
     (exists e,
        fst res = HttpError 502 (String.append "ML service error: " e)) /\
     same_storage w (snd res)) /\
  (forall status detail,
     fst res = HttpError status detail -> status = 404%Z \/ status = 502%Z ->
     same_storage w (snd res)).
Proof.
  intros Hq He Hdb res.
  assert (Hlimit : (1 < limit)%Z).
  { unfold query_gt_le in Hq. apply andb_prop in Hq. destruct Hq as [Hq _].
    apply Z.ltb_lt. exact Hq. }
  subst res. rewrite (predict_accepted remote w machine_id limit threshold Hq He Hdb).
  split; [| split].
  - intros Hnone. apply (select_window_nil_iff w machine_id limit Hlimit) in Hnone.
    rewrite Hnone. split; [reflexivity | apply same_storage_step].
  - intros Hsome Hdown.
    destruct (select_window w machine_id limit) as [| r rows] eqn:Hwin.
    + exfalso. apply Hsome.
      apply (select_window_nil_iff w machine_id limit Hlimit). exact Hwin.
    + destruct (retry_exhausted
                  (remote ML_SERVICE_URL (payload_of machine_id (r :: rows)))
                  (Hdown _)) as (e & tr & Hcall).
      rewrite Hcall. split; [| apply same_storage_step].
      exists e. reflexivity.
  - intros status detail Hres Hstatus.
    destruct (select_window w machine_id limit) as [| r rows];
      [apply same_storage_step |].
    destruct (call_ml_service_with_retry _ _ _) as [[ml | e] tr];
      [| apply same_storage_step].
    cbv zeta in Hres |- *.
    destruct (if db_up w (S (tick w)) then _ else None) as [row |].
    + destruct (make_result _ _ _ _ _); simpl in Hres.
      * discriminate Hres.
      * unfold internal_error in Hres. inversion Hres; subst.
        destruct Hstatus; discriminate.
    + simpl in Hres. unfold internal_error in Hres. inversion Hres; subst.
      destruct Hstatus; discriminate.
Qed.

(** An unknown machine, and a known machine behind a dead remote. *)
Lemma predict_failures_persist_nothing_witness :
  (fst (predict (H := strict_runtime) mocked_remote scenario_world "machine_99" 50 0.7)
     = HttpError 404 "No readings found for this machine." /\
   same_storage scenario_world
     (snd (predict (H := strict_runtime) mocked_remote scenario_world
             "machine_99" 50 0.7))) /\
  ((exists e,
      fst (predict (H := strict_runtime) unreachable_remote scenario_world
             "machine_01" 50 0.7)
        = HttpError 502 (String.append "ML service error: " e)) /\
   same_storage scenario_world
     (snd (predict (H := strict_runtime) unreachable_remote scenario_world
             "machine_01" 50 0.7))).
Proof.
  split.
  - apply (predict_failures_persist_nothing (H := strict_runtime)
             mocked_remote scenario_world "machine_99" 50 0.7
             eq_refl eq_refl eq_refl).
    intros r Hin. simpl in Hin.
    repeat (destruct Hin as [<- | Hin]; [discriminate |]). destruct Hin.
  - apply (predict_failures_persist_nothing (H := strict_runtime)
             unreachable_remote scenario_world "machine_01" 50 0.7
             eq_refl eq_refl eq_refl).
    + intros Hnone.
      apply (Hnone (reading_at "r-305" 100 "machine_01" 305.5)); [| reflexivity].
      left. reflexivity.
    + intros payload i _. exists "connection refused". reflexivity.
Defined.



(* ===================================================================== *)
(** ** Prediction history *)
(* ===================================================================== *)

Lemma make_result_fields (id : string) (mn lbl : value) (sc : option float)
    (m : value) (item : PredictionResult) :
  make_result id mn lbl sc m = Some item ->
  prediction_id item = id /\ score item = sc.
Proof.
  unfold make_result. intros Hmk.
  destruct (opt_str mn); [| discriminate].
  destruct (opt_str lbl); [| discriminate].
  destruct (opt_dict m); [| discriminate].
  inversion Hmk. split; reflexivity.
Qed.

Lemma opt_str_as_value (s : option string) : opt_str (as_value s) = Some s.
Proof. destruct s; reflexivity. Qed.

(** Only a document stored as a JSON string can make the construction
    of an item fail. *)
Lemma history_item_total `{Runtime} (r : PredictionRow) :
  (forall s, pr_metadata r <> VStr s) ->
  exists item, history_item r = Some item.
Proof.
  intros Hmeta. unfold history_item, make_result, row_to_dict_safe.
  cbv zeta. rewrite !opt_str_as_value.
  destruct (pr_metadata r) as [| | | | s | | |] eqn:Hm; simpl;
    try (eexists; reflexivity).
  exfalso. apply (Hmeta s). reflexivity.
Qed.

Lemma history_items_total `{Runtime} (rows : list PredictionRow) :
  (forall r s, In r rows -> pr_metadata r <> VStr s) ->
  exists out, history_items rows = Some out.
Proof.
  induction rows as [| r rows IH]; intros Hmeta; simpl.
  - exists []. reflexivity.
  - destruct (history_item_total r) as [item Hitem].
    { intros s. apply Hmeta. left. reflexivity. }
    destruct IH as [out Hout].
    { intros r' s Hin. apply Hmeta. right. exact Hin. }
    rewrite Hitem, Hout. eexists. reflexivity.
Qed.

Lemma history_items_scores `{Runtime} (rows : list PredictionRow)
    (out : list PredictionResult) :
  history_items rows = Some out ->
  Forall2 (fun r item =>
             prediction_id item = pr_id r /\
             score item = Some (history_score (pr_failure_probability r)))
          rows out.
Proof.
  revert out. induction rows as [| r rows IH]; intros out Hitems; simpl in Hitems.
  - inversion Hitems. constructor.
  - destruct (history_item r) as [item |] eqn:Hitem; [| discriminate].
    destruct (history_items rows) as [items |]; [| discriminate].
    inversion Hitems; subst out. constructor.
    + apply (make_result_fields _ _ _ _ _ _ Hitem).
    + apply IH. reflexivity.
Qed.

(** C10. Every item [history] returns has a score, never null: each
    selected row is returned with its probability as score, and a row
    whose stored probability is null or zero is returned with score
    0.0.  The call does return the rows when the request is accepted,
    the database answers and no selected document is a JSON string. *)
Theorem history_score_never_null `{Runtime} (w : World) (machine_id : string)
    (limit : Z) :
  (forall out w',
     history w machine_id limit = (Ok out, w') ->
     Forall2 (fun r item =>
                prediction_id item = pr_id r /\
                score item = Some (history_score (pr_failure_probability r)))
             (select_history w machine_id limit) out /\
     Forall (fun item => score item <> None) out) /\
  (forall p,
     p = None \/ (exists f, p = Some f /\ (f =? 0)%float = true) ->
     history_score p = 0%float) /\
  (query_gt_le 1 2000 limit = true ->
   engine w = true ->
   db_up w (tick w) = true ->
   (forall r s, In r (select_history w machine_id limit) -> pr_metadata r <> VStr s) ->
   exists out, history w machine_id limit = (Ok out, step w)).
Proof.
  split; [| split].
  - intros out w' Hh. unfold history in Hh.
    destruct (negb (query_gt_le 1 2000 limit)); [discriminate Hh |].
    destruct (negb (engine w)); [discriminate Hh |].
    destruct (negb (db_up w (tick w))); [discriminate Hh |].
    destruct (history_items (select_history w machine_id limit)) as [items |] eqn:Hitems;
      [| discriminate Hh].
    inversion Hh; subst out w'.
    pose proof (history_items_scores _ _ Hitems) as Hall.
    split; [exact Hall |].
    clear Hitems Hh.
    induction Hall as [| r item rows items [_ Hscore] _ IH]; [constructor |].
    constructor; [rewrite Hscore; discriminate | exact IH].
  - intros p [-> | (f & -> & Hzero)]; [reflexivity |].
    unfold history_score, truthy. rewrite Hzero. reflexivity.
  - intros Hq He Hdb Hmeta. unfold history. rewrite Hq, He, Hdb. cbn [negb].
    destruct (history_items_total _ Hmeta) as [out Hout].
    rewrite Hout. exists out. reflexivity.
Qed.

(** Two stored predictions, one with a null probability, one with a zero
    one: both come back with score 0.0. *)
Lemma history_score_never_null_witness :
  exists out,
    history (H := strict_runtime) history_world "machine_01" 50
      = (Ok out, step history_world) /\
    map score out = [Some 0%float; Some 0%float] /\
    map prediction_id out = ["p-null"; "p-zero"].
Proof.
  destruct (history_score_never_null (H := strict_runtime)
              history_world "machine_01" 50) as (Hscores & _ & Hreturns).
  destruct (Hreturns eq_refl eq_refl eq_refl) as [out Hout].
  { intros r s Hin. vm_compute in Hin.
    destruct Hin as [<- | [<- | []]]; discriminate. }
  exists out. split; [exact Hout |].
  destruct (Hscores _ _ Hout) as [Hall _].
  change (select_history history_world "machine_01" 50)
    with [stored_prediction "p-null" None; stored_prediction "p-zero" (Some 0%float)]
    in Hall.
  inversion Hall as [| r1 i1 l1 o1 [Hid1 Hs1] Hall1]; subst.
  inversion Hall1 as [| r2 i2 l2 o2 [Hid2 Hs2] Hall2]; subst.
  inversion Hall2; subst.
  simpl. rewrite Hid1, Hid2, Hs1, Hs2. split; reflexivity.
Defined.

(* ===================================================================== *)
(** ** Listing readings *)
(* ===================================================================== *)

(** [GET /ingest] accepts a request exactly when the limit is between 2
    and 5000 and the offset is not negative, and then answers with what
    [fetch_readings] returns. *)
Lemma get_ingest_accepts_iff (w : World) (machine_id : option string)
    (limit offset : Z) :
  ((2 <= limit <= 5000)%Z /\ (0 <= offset)%Z ->
     get_ingest w machine_id limit offset =
       (Ok (fst (fetch_readings w machine_id limit offset)),
        snd (fetch_readings w machine_id limit offset))) /\
  (~ ((2 <= limit <= 5000)%Z /\ (0 <= offset)%Z) ->
     get_ingest w machine_id limit offset = (unprocessable, w)).
Proof.
  unfold get_ingest, query_gt_le, query_ge.
  destruct (Z.ltb_spec 1 limit), (Z.leb_spec limit 5000), (Z.leb_spec 0 offset);
    simpl; split; intros Hb; try lia; try reflexivity;
    try (exfalso; apply Hb; lia).
  destruct (fetch_readings w machine_id limit offset); reflexivity.
Qed.

(** C9, at the failing input.  A request with [limit = 1] is refused
    with status 422 and the storage query is not run; the smallest
    accepted limit is 2. *)
Theorem get_ingest_rejects_limit_one (w : World) (machine_id : option string)
    (offset : Z) :
  get_ingest w machine_id 1 offset = (unprocessable, w) /\
  (forall rows w', get_ingest w machine_id 1 offset <> (Ok rows, w')) /\
  ((0 <= offset)%Z ->
   get_ingest w machine_id 2 offset =
     (Ok (fst (fetch_readings w machine_id 2 offset)),
      snd (fetch_readings w machine_id 2 offset))).
Proof.
  split; [reflexivity |]. split.
  - intros rows w' Hok. discriminate Hok.
  - intros Hoff. apply get_ingest_accepts_iff. lia.
Qed.

(* ===================================================================== *)
(** ** The retry loop in general *)
(* ===================================================================== *)

(** What a run of the loop from index [i] with [n] iterations left can
    end with, and what it has then done. *)
Lemma retry_loop_inv (post : nat -> string + value) (backoff : float)
    (n i : nat) (last : option string) (tr : RetryTrace) :
  let out := retry_loop post backoff n i last tr in
  attempts (snd out) <= attempts tr + n /\
  (forall v, fst out = Returned v ->
     exists k, k < n /\ post (i + k) = inr v /\
       (forall j, j < k -> exists e, post (i + j) = inl e) /\
       attempts (snd out) = attempts tr + S k /\
       List.length (sleeps (snd out)) = List.length (sleeps tr) + k) /\
  (fst out = Raised RaiseNone -> n = 0 /\ last = None) /\
  (forall e, fst out = Raised (RemoteError e) ->
     (n = 0 /\ last = Some e) \/
     (0 < n /\ post (i + (n - 1)) = inl e /\
      attempts (snd out) = attempts tr + n /\
      List.length (sleeps (snd out)) = List.length (sleeps tr) + n)).
Proof.
  revert i last tr. induction n as [| n IH]; intros i last tr; cbn [retry_loop].
  - cbv zeta. split; [simpl; lia |]. split; [| split].
    + intros v Hv. destruct last; discriminate Hv.
    + intros Hr. split; [reflexivity |]. destruct last; [discriminate Hr | reflexivity].
    + intros e Hr. left. split; [reflexivity |].
      destruct last; [inversion Hr; reflexivity | discriminate Hr].
  - destruct (post i) as [e0 | v0] eqn:Hpost.
    + destruct (backoff_delay backoff i) as [d |] eqn:Hd.
      * specialize (IH (S i) (Some e0) (slept d (sent tr))).
        cbv zeta in IH |- *.
        destruct IH as (Hle & Hret & Hnone & Hrem).
        replace (attempts (slept d (sent tr))) with (S (attempts tr)) in *
          by reflexivity.
        replace (List.length (sleeps (slept d (sent tr))))
          with (S (List.length (sleeps tr))) in *
          by (simpl; rewrite length_app; simpl; lia).
        split; [lia |]. split; [| split].
        -- intros v Hv. destruct (Hret v Hv) as (k & Hk & Hpk & Hbefore & Ha & Hs).
           exists (S k). split; [lia |].
           split; [replace (i + S k) with (S i + k) by lia; exact Hpk |].
           split; [| split; lia].
           intros j Hj. destruct j as [| j].
           ++ exists e0. rewrite Nat.add_0_r. exact Hpost.
           ++ replace (i + S j) with (S i + j) by lia. apply Hbefore. lia.
        -- intros Hr. destruct (Hnone Hr) as (_ & Habs). discriminate Habs.
        -- intros e Hr. right. split; [lia |].
           destruct (Hrem e Hr) as [(-> & Hlast) | (Hpos & Hpn & Ha & Hs)].
           ++ inversion Hlast; subst e0. cbn [retry_loop fst snd].
              replace (i + (1 - 1)) with i by lia. split; [exact Hpost |].
              split; [simpl; lia | simpl; rewrite length_app; simpl; lia].
           ++ split; [| split; lia].
              replace (i + (S n - 1)) with (S i + (n - 1)) by lia. exact Hpn.
      * cbv zeta. simpl. split; [lia |]. split; [| split].
        -- intros v Hv. discriminate Hv.
        -- intros Hr. discriminate Hr.
        -- intros e Hr. discriminate Hr.
    + cbv zeta. simpl. split; [lia |]. split; [| split].
      * intros v Hv. inversion Hv; subst v0. exists 0.
        rewrite Nat.add_0_r. split; [lia |]. split; [exact Hpost |].
        split; [intros j Hj; lia |]. split; lia.
      * intros Hr. discriminate Hr.
      * intros e Hr. discriminate Hr.
Qed.

(** X1. Whatever the endpoint does, [call_ml_service_with_retry] sends at
    most [retries] requests, and a value it returns is the body of the
    request it sent last, every earlier request having failed: the call
    never makes up a result.  One delay was slept per failed request. *)
Theorem retry_returns_only_remote_bodies (post : nat -> string + value)
    (retries : nat) (backoff : float) :
  let out := call_ml_service_with_retry post retries backoff in
  attempts (snd out) <= retries /\
  (forall v, fst out = Returned v ->
     exists k, k < retries /\ post k = inr v /\
       (forall j, j < k -> exists e, post j = inl e) /\
       attempts (snd out) = S k /\
       List.length (sleeps (snd out)) = k).
Proof.
  unfold call_ml_service_with_retry.
  destruct (retry_loop_inv post backoff retries 0 None no_trace)
    as (Hle & Hret & _).
  cbv zeta in *. split; [exact Hle |].
  intros v Hv. destruct (Hret v Hv) as (k & Hk & Hpk & Hbefore & Ha & Hs).
  exists k. simpl in *. repeat split; assumption.
Qed.

(** X2. The call ends with [raise None] (a [TypeError], not an error of
    the remote service) exactly when [retries] is zero; no request is
    sent then. *)
Theorem retry_raises_none_iff_no_retries (post : nat -> string + value)
    (retries : nat) (backoff : float) :
  (fst (call_ml_service_with_retry post retries backoff) = Raised RaiseNone
   <-> retries = 0) /\
  (retries = 0 ->
   snd (call_ml_service_with_retry post retries backoff) = no_trace).
Proof.
  unfold call_ml_service_with_retry. split; [split |].
  - intros Hr.
    destruct (retry_loop_inv post backoff retries 0 None no_trace)
      as (_ & _ & Hnone & _).
    apply (Hnone Hr).
  - intros ->. reflexivity.
  - intros ->. reflexivity.
Qed.

(** A run of [n] failed requests in a row, each followed by its delay. *)
Lemma retry_loop_failures (post : nat -> string + value) (backoff : float)
    (err : nat -> string) (delay : nat -> float) (n m i : nat)
    (last : option string) (tr : RetryTrace) :
  (forall j, j < n -> post (i + j) = inl (err (i + j))) ->
  (forall j, j < n -> backoff_delay backoff (i + j) = Some (delay (i + j))) ->
  retry_loop post backoff (n + m) i last tr =
  retry_loop post backoff m (i + n)
    (match n with O => last | S n' => Some (err (i + n')) end)
    {| attempts := attempts tr + n;
       sleeps := sleeps tr ++ map delay (seq i n) |}.
Proof.
  revert i last tr. induction n as [| n IH]; intros i last tr Hpost Hdelay.
  - simpl. rewrite !Nat.add_0_r, app_nil_r. destruct tr; reflexivity.
  - cbn [Nat.add].
    rewrite (retry_loop_failed post backoff (delay i) (n + m) i last tr (err i)).
    + rewrite IH.
      * replace (S i + n) with (i + S n) by lia.
        f_equal.
        -- destruct n as [| n']; [f_equal; f_equal; lia |].
           f_equal. f_equal. lia.
        -- simpl. f_equal; [lia |]. rewrite <- app_assoc. reflexivity.
      * intros j Hj. replace (S i + j) with (i + S j) by lia. apply Hpost. lia.
      * intros j Hj. replace (S i + j) with (i + S j) by lia. apply Hdelay. lia.
    + specialize (Hpost 0 ltac:(lia)). rewrite Nat.add_0_r in Hpost. exact Hpost.
    + specialize (Hdelay 0 ltac:(lia)). rewrite Nat.add_0_r in Hdelay. exact Hdelay.
Qed.

(** X3. For any positive number of retries: when every request fails and
    every delay is a float, exactly [retries] requests are sent, the
    error of the last one is raised, and [retries] delays are slept, the
    last of them after the final request, just before the error is
    raised. *)
Theorem retry_exhaustion_sleeps_after_last_attempt
    (post : nat -> string + value) (backoff : float) (retries : nat)
    (err : nat -> string) (delay : nat -> float) :
  0 < retries ->
  (forall j, j < retries -> post j = inl (err j)) ->
  (forall j, j < retries -> backoff_delay backoff j = Some (delay j)) ->
  call_ml_service_with_retry post retries backoff =
    (Raised (RemoteError (err (retries - 1))),
     {| attempts := retries; sleeps := map delay (seq 0 retries) |}).
Proof.
  intros Hpos Hpost Hdelay. unfold call_ml_service_with_retry.
  replace retries with (retries + 0) at 1 by lia.
  rewrite (retry_loop_failures post backoff err delay retries 0 0 None no_trace
             Hpost Hdelay).
  destruct retries as [| n]; [lia |].
  cbn [retry_loop]. simpl attempts. simpl sleeps.
  replace (S n - 1) with n by lia. reflexivity.
Qed.

Lemma retry_exhaustion_sleeps_after_last_attempt_witness :
  call_ml_service_with_retry dead_endpoint 3 0.25 =
    (Raised (RemoteError "connection refused #2"),
     {| attempts := 3; sleeps := [0.25; 0.5; 1]%float |}).
Proof.
  apply (retry_exhaustion_sleeps_after_last_attempt dead_endpoint 0.25 3
           (fun i => String.append "connection refused #"
                       (NilZero.string_of_uint (Nat.to_uint i)))
           (fun i => nth i [0.25; 0.5; 1]%float 0%float)).
  - lia.
  - intros j _. reflexivity.
  - intros j Hj.
    destruct j as [| [| [| j]]]; [vm_compute; reflexivity .. | lia].
Defined.

(** The powers of two up to [2 ** 1023] are floats; [2 ** 1024] is not. *)
Lemma power_of_two_floats :
  forallb (fun i => match float_of_int (2 ^ Z.of_nat i) with
                    | Some _ => true
                    | None => false
                    end) (seq 0 1024) = true /\
  float_of_int (2 ^ Z.of_nat 1024) = None.
Proof. split; vm_compute; reflexivity. Qed.

(** X4. The delay [backoff * 2 ** i] is computed from an integer power:
    with more than 1024 retries against an endpoint that keeps failing,
    the call dies after its 1025th request with an [OverflowError]
    instead of the error of the remote service, whatever the base
    delay. *)
Theorem retry_overflows_after_1025_attempts (post : nat -> string + value)
    (backoff : float) (retries : nat) (err : nat -> string) :
  1024 < retries ->
  (forall j, j <= 1024 -> post j = inl (err j)) ->
  fst (call_ml_service_with_retry post retries backoff) = Raised OverflowError /\
  attempts (snd (call_ml_service_with_retry post retries backoff)) = 1025 /\
  List.length (sleeps (snd (call_ml_service_with_retry post retries backoff)))
    = 1024.
Proof.
  intros Hmany Hpost. destruct power_of_two_floats as [Hsmall Hbig].
  rewrite forallb_forall in Hsmall.
  set (delay := fun i =>
         match backoff_delay backoff i with Some d => d | None => 0%float end).
  assert (Hdelay : forall j, j < 1024 ->
                     backoff_delay backoff (0 + j) = Some (delay (0 + j))).
  { intros j Hj. subst delay. cbn [Nat.add]. unfold backoff_delay.
    specialize (Hsmall j). rewrite in_seq in Hsmall.
    specialize (Hsmall ltac:(lia)).
    destruct (float_of_int (2 ^ Z.of_nat j)); [reflexivity | discriminate]. }
  unfold call_ml_service_with_retry.
  replace retries with (1024 + (retries - 1024)) by lia.
  rewrite (retry_loop_failures post backoff err delay 1024 (retries - 1024) 0
             None no_trace (fun j Hj => Hpost (0 + j) ltac:(simpl; lia)) Hdelay).
  destruct (retries - 1024) as [| m] eqn:Hm; [lia |].
  cbn [retry_loop]. change (0 + 1024) with 1024.
  assert (Hnone : backoff_delay backoff 1024 = None)
    by (unfold backoff_delay; rewrite Hbig; reflexivity).
  rewrite (Hpost 1024 (le_n _)), Hnone.
  cbn [fst snd attempts sleeps sent no_trace].
  split; [reflexivity |]. split; [reflexivity |].
  rewrite length_app, length_map, length_seq. reflexivity.
Qed.

Lemma retry_overflows_after_1025_attempts_witness :
  fst (call_ml_service_with_retry dead_endpoint 2000 0.5) = Raised OverflowError /\
  attempts (snd (call_ml_service_with_retry dead_endpoint 2000 0.5)) = 1025.
Proof.
  destruct (retry_overflows_after_1025_attempts dead_endpoint 0.5 2000
              (fun i => String.append "connection refused #"
                          (NilZero.string_of_uint (Nat.to_uint i))))
    as (Hres & Hatt & _).
  - lia.
  - intros j _. reflexivity.
  - split; [exact Hres | exact Hatt].
Defined.

(* ===================================================================== *)
(** ** Normalisation and the prediction endpoint, further *)
(* ===================================================================== *)


Lemma normalize_not_a_document `{Runtime} (ml : value) :
  not_a_document ml ->
  normalize ml =
    {| failure_prob := None; prediction_label := VNone; model_version := VNone;
       raw_scores := VNone; raw_features := VNone;
       meta_ := VDict [("raw_ml_response", ml)];
       label_to_store := VStr "normal" |}.
Proof.
  intros Hnd. destruct ml; try reflexivity. exfalso. apply (Hnd d). reflexivity.
Qed.


Lemma scan_rows_map `{Runtime} (rows : list SensorRow) (latest : option uuid)
    (acc : list Reading) :
  scan_rows rows latest acc =
    (match latest with
     | Some id => Some id
     | None => option_map sr_id (hd_error rows)
     end,
     acc ++ map reading_of rows).
Proof.
  revert latest acc. induction rows as [| r rows IH]; intros latest acc.
  - simpl. rewrite app_nil_r. destruct latest; reflexivity.
  - cbn [scan_rows]. unfold row_to_dict_safe. cbv zeta. rewrite IH.
    simpl. rewrite <- app_assoc. destruct latest; reflexivity.
Qed.

Lemma select_window_length (w : World) (machine_id : string) (limit : Z) :
  List.length (select_window w machine_id limit) <= Z.to_nat limit.
Proof. unfold select_window. apply firstn_le_length. Qed.

Lemma select_window_In (w : World) (machine_id : string) (limit : Z)
    (r : SensorRow) :
  In r (select_window w machine_id limit) ->
  In r (sensor_readings w) /\ sr_machine_id r = machine_id.
Proof.
  unfold select_window. intros Hin.
  apply (In_nth_error) in Hin. destruct Hin as [k Hk].
  assert (Hin : In r (sort_desc (fun a b => (sr_ts a <? sr_ts b)%Z)
                        (filter (fun r => String.eqb (sr_machine_id r) machine_id)
                           (sensor_readings w)))).
  { rewrite <- (firstn_skipn (Z.to_nat limit)). apply in_or_app. left.
    apply (nth_error_In _ _ Hk). }
  apply sort_desc_In in Hin. apply filter_In in Hin.
  destruct Hin as [Hin Hm]. split; [exact Hin | apply String.eqb_eq; exact Hm].
Qed.

(** X6. The request sent to the remote service carries one reading per
    row of the window, in the order of the window (newest first), each
    with its timestamp printed in ISO format and the sensor columns of
    its row; there are at most [limit] of them, all of the requested
    machine. *)
Theorem payload_mirrors_window `{Runtime} (w : World) (machine_id : string)
    (limit : Z) :
  let rows := select_window w machine_id limit in
  let payload := payload_of machine_id rows in
  pl_machine_id payload = machine_id /\
  pl_readings payload = map reading_of rows /\
  List.length (pl_readings payload) <= Z.to_nat limit /\
  Forall2 (fun r reading =>
             sr_machine_id r = machine_id /\
             rd_ts reading = Some (isoformat (sr_ts r)) /\
             rd_air_temperature reading = sr_air_temperature r /\
             rd_rotational_speed reading = sr_rotational_speed r /\
             rd_torque reading = sr_torque r)
          rows (pl_readings payload).
Proof.
  intros rows payload. subst payload. unfold payload_of.
  rewrite scan_rows_map. simpl.
  split; [reflexivity |]. split; [reflexivity |].
  split; [rewrite length_map; apply select_window_length |].
  assert (Hall : forall r, In r rows -> sr_machine_id r = machine_id)
    by (intros r Hin; apply (select_window_In w machine_id limit r Hin)).
  clearbody rows. induction rows as [| r rows IH]; simpl; constructor.
  - split; [apply Hall; left; reflexivity |]. repeat split.
  - apply IH. intros r' Hin. apply Hall. right. exact Hin.
Qed.

Lemma opt_str_bind_text `{Runtime} (v : value) (x : option string) :
  opt_str v = Some x -> bind_text v = Some x.
Proof. destruct v; simpl; intros Hx; try discriminate; exact Hx. Qed.

(** [predict] once the remote service has answered [ml]. *)
Lemma predict_after_answer `{Runtime} (remote : Remote) (w : World)
    (machine_id : string) (limit : Z) (threshold : float)
    (newest : SensorRow) (rest : list SensorRow) (ml : value) (tr : RetryTrace)
    (mv lbl : option string) :
  query_gt_le 1 2000 limit = true ->
  engine w = true ->
  db_up w (tick w) = true ->
  db_up w (S (tick w)) = true ->
  select_window w machine_id limit = newest :: rest ->
  call_ml_service_with_retry
    (remote ML_SERVICE_URL (payload_of machine_id (newest :: rest)))
    default_retries default_backoff = (Returned ml, tr) ->
  opt_str (model_version (normalize ml)) = Some mv ->
  opt_str (label_to_store (normalize ml)) = Some lbl ->
  predict remote w machine_id limit threshold =
    (match opt_dict (meta_ (normalize ml)) with
     | Some m =>
         Ok {| prediction_id := uuid4 w (S (tick w)); model_name := mv;
               label := lbl; score := failure_prob (normalize ml); meta := m |}
     | None => internal_error
     end,
     step (with_predictions (step w)
             (predictions w ++
                [written_row w newest machine_id (normalize ml) mv lbl]))).
Proof.
  intros Hq He Hdb Hdb' Hwin Hcall Hmv Hlbl.
  rewrite (predict_accepted remote w machine_id limit threshold Hq He Hdb).
  rewrite Hwin, Hcall. cbv zeta. rewrite Hdb'.
  unfold prediction_row_of.
  rewrite (opt_str_bind_text _ _ Hmv), (opt_str_bind_text _ _ Hlbl).
  unfold make_result. cbn [pr_id]. rewrite Hmv, Hlbl.
  unfold written_row.
  destruct (opt_dict (meta_ (normalize ml))); reflexivity.
Qed.

(** What a successful [predict] has done. *)
Lemma predict_ok_inv `{Runtime} (remote : Remote) (w w' : World)
    (machine_id : string) (limit : Z) (threshold : float)
    (res : PredictionResult) :
  predict remote w machine_id limit threshold = (Ok res, w') ->
  exists newest ml mv lbl m,
    query_gt_le 1 2000 limit = true /\
    engine w = true /\
    (In newest (sensor_readings w) /\ sr_machine_id newest = machine_id /\
     hd_error (select_window w machine_id limit) = Some newest) /\
    opt_str (model_version (normalize ml)) = Some mv /\
    opt_str (label_to_store (normalize ml)) = Some lbl /\
    opt_dict (meta_ (normalize ml)) = Some m /\
    res = {| prediction_id := uuid4 w (S (tick w)); model_name := mv;
             label := lbl; score := failure_prob (normalize ml); meta := m |} /\
    w' = step (with_predictions (step w)
                 (predictions w ++
                    [written_row w newest machine_id (normalize ml) mv lbl])).
Proof.
  intros Hp.
  assert (Hq : query_gt_le 1 2000 limit = true).
  { unfold predict in Hp. destruct (query_gt_le 1 2000 limit);
      [reflexivity | discriminate Hp]. }
  assert (He : engine w = true).
  { unfold predict in Hp. rewrite Hq in Hp. cbn [negb] in Hp.
    destruct (engine w); [reflexivity | discriminate Hp]. }
  assert (Hdb : db_up w (tick w) = true).
  { unfold predict in Hp. rewrite Hq, He in Hp. cbn [negb] in Hp.
    destruct (db_up w (tick w)); [reflexivity | discriminate Hp]. }
  rewrite (predict_accepted remote w machine_id limit threshold Hq He Hdb) in Hp.
  destruct (select_window w machine_id limit) as [| newest rest] eqn:Hwin;
    [discriminate Hp |].
  destruct (call_ml_service_with_retry _ _ _) as [[ml | e] tr];
    [| discriminate Hp].
  cbv zeta in Hp.
  destruct (db_up w (S (tick w))); [| discriminate Hp].
  unfold prediction_row_of in Hp.
  destruct (bind_text (model_version (normalize ml))) as [mv |] eqn:Hbmv;
    [| discriminate Hp].
  destruct (bind_text (label_to_store (normalize ml))) as [lbl |] eqn:Hblbl;
    [| discriminate Hp].
  unfold make_result in Hp. cbn [pr_id] in Hp.
  destruct (opt_str (model_version (normalize ml))) as [mn |] eqn:Hmv;
    [| discriminate Hp].
  destruct (opt_str (label_to_store (normalize ml))) as [l |] eqn:Hlbl;
    [| discriminate Hp].
  destruct (opt_dict (meta_ (normalize ml))) as [m |] eqn:Hm; [| discriminate Hp].
  rewrite (opt_str_bind_text _ _ Hmv) in Hbmv.
  rewrite (opt_str_bind_text _ _ Hlbl) in Hblbl.
  inversion Hbmv; inversion Hblbl; subst mv lbl.
  inversion Hp; subst res w'.
  exists newest, ml, mn, l, m.
  repeat match goal with |- _ /\ _ => split end;
    try reflexivity; try assumption;
    try (rewrite Hwin; reflexivity);
    apply (select_window_In w machine_id limit); rewrite Hwin; left; reflexivity.
Qed.

(** X7. Whatever its outcome, [predict] leaves the sensor table and the
    memory store alone and never rewrites or removes a stored
    prediction: the table of predictions is unchanged or has grown by
    one row of the requested machine, whose [ts] is null.  A request
    refused with 422 changes nothing at all. *)
Theorem predict_only_appends `{Runtime} (remote : Remote) (w : World)
    (machine_id : string) (limit : Z) (threshold : float) :
  let out := predict remote w machine_id limit threshold in
  sensor_readings (snd out) = sensor_readings w /\
  memory_store (snd out) = memory_store w /\
  (predictions (snd out) = predictions w \/
   exists row,
     predictions (snd out) = predictions w ++ [row] /\
     pr_machine_id row = Some machine_id /\
     pr_ts row = None) /\
  tick w <= tick (snd out) <= tick w + 2 /\
  (forall detail, fst out = HttpError 422 detail -> snd out = w).
Proof.
  cbv zeta. unfold predict.
  destruct (query_gt_le 1 2000 limit); cbn [negb];
    [| repeat split; auto; simpl; lia].
  destruct (engine w); cbn [negb];
    [| repeat split; auto; try (simpl; lia); intros d Hd; discriminate Hd].
  destruct (db_up w (tick w)); cbn [negb];
    [| repeat split; auto; try (simpl; lia); intros d Hd; discriminate Hd].
  destruct (select_window w machine_id limit) as [| r rows];
    [repeat split; auto; try (simpl; lia); intros d Hd; discriminate Hd |].
  destruct (scan_rows (r :: rows) None []) as [latest readings].
  destruct (call_ml_service_with_retry _ _ _) as [[ml | e] tr];
    [| repeat split; auto; try (simpl; lia); intros d Hd; discriminate Hd].
  cbv zeta.
  destruct (db_up (step w) (tick (step w)));
    [| repeat split; auto; try (simpl; lia); intros d Hd; discriminate Hd].
  unfold prediction_row_of.
  destruct (bind_text (model_version (normalize ml)));
    [| repeat split; auto; try (simpl; lia); intros d Hd; discriminate Hd].
  destruct (bind_text (label_to_store (normalize ml)));
    [| repeat split; auto; try (simpl; lia); intros d Hd; discriminate Hd].
  destruct (make_result _ _ _ _ _); simpl.
  - split; [reflexivity |]. split; [reflexivity |].
    split; [right; eexists; repeat split |].
    split; [lia | intros d Hd; discriminate Hd].
  - split; [reflexivity |]. split; [reflexivity |].
    split; [right; eexists; repeat split |].
    split; [lia | intros d Hd; discriminate Hd].
Qed.

Lemma answered_at_once (remote : Remote) (ml : value) (payload : Payload) :
  answers remote ml ->
  call_ml_service_with_retry (remote ML_SERVICE_URL payload)
    default_retries default_backoff = (Returned ml, sent no_trace).
Proof.
  intros Hans. unfold call_ml_service_with_retry, default_retries.
  apply retry_loop_succeeded. apply Hans.
Qed.

Lemma window_of_known_machine (w : World) (machine_id : string) (limit : Z) :
  query_gt_le 1 2000 limit = true ->
  ~ no_readings w machine_id ->
  exists newest rest, select_window w machine_id limit = newest :: rest.
Proof.
  intros Hq Hsome.
  assert (Hlimit : (1 < limit)%Z).
  { unfold query_gt_le in Hq. apply andb_prop in Hq. destruct Hq as [Hq _].
    apply Z.ltb_lt. exact Hq. }
  destruct (select_window w machine_id limit) as [| newest rest] eqn:Hwin.
  - exfalso. apply Hsome.
    apply (select_window_nil_iff w machine_id limit Hlimit). exact Hwin.
  - exists newest, rest. reflexivity.
Qed.

(** X8. The row is committed before the response is validated.  When
    the remote service answers a document whose [meta] is neither null
    nor a document (a string, a number, a list), [predict] writes the
    prediction and then answers 500: the caller sees a failure, and the
    row is there. *)
Theorem predict_commits_before_validation `{Runtime} (remote : Remote)
    (w : World) (machine_id : string) (limit : Z) (threshold : float)
    (ml : value) (mv lbl : option string) :
  query_gt_le 1 2000 limit = true ->
  engine w = true ->
  db_up w (tick w) = true ->
  db_up w (S (tick w)) = true ->
  ~ no_readings w machine_id ->
  answers remote ml ->
  opt_str (model_version (normalize ml)) = Some mv ->
  opt_str (label_to_store (normalize ml)) = Some lbl ->
  not_null_or_document (meta_ (normalize ml)) ->
  let out := predict remote w machine_id limit threshold in
  fst out = HttpError 500 "Internal Server Error" /\
  exists row,
    predictions (snd out) = predictions w ++ [row] /\
    pr_prediction_label row = lbl /\
    pr_failure_probability row = failure_prob (normalize ml) /\
    pr_metadata row = meta_ (normalize ml).
Proof.
  intros Hq He Hdb Hdb' Hsome Hans Hmv Hlbl Hmeta out.
  destruct (window_of_known_machine w machine_id limit Hq Hsome)
    as (newest & rest & Hwin).
  subst out.
  rewrite (predict_after_answer remote w machine_id limit threshold newest rest
             ml (sent no_trace) mv lbl Hq He Hdb Hdb' Hwin
             (answered_at_once remote ml _ Hans) Hmv Hlbl).
  unfold not_null_or_document in Hmeta. rewrite Hmeta.
  split; [reflexivity |]. eexists. split; [reflexivity |].
  split; [reflexivity |]. split; [reflexivity |].
  simpl. unfold jsonb_or_empty.
  destruct (meta_ (normalize ml)); try reflexivity. discriminate Hmeta.
Qed.

Lemma predict_commits_before_validation_witness :
  fst (predict (H := strict_runtime) text_meta_remote scenario_world
         "machine_01" 3 0.7) = HttpError 500 "Internal Server Error" /\
  exists row,
    predictions (snd (predict (H := strict_runtime) text_meta_remote scenario_world
                        "machine_01" 3 0.7)) = [row] /\
    pr_prediction_label row = Some "failure" /\
    pr_metadata row = VStr "high vibration".
Proof.
  destruct (predict_commits_before_validation (H := strict_runtime)
              text_meta_remote scenario_world "machine_01" 3 0.7
              (VDict [("failure_probability", VFloat 0.9);
                      ("meta", VStr "high vibration")])
              None (Some "failure")
              eq_refl eq_refl eq_refl eq_refl)
    as (Hres & row & Hrows & Hlbl & _ & Hmeta).
  - intros Hnone.
    apply (Hnone (reading_at "r-305" 100 "machine_01" 305.5)); [| reflexivity].
    left. reflexivity.
  - intros payload. reflexivity.
  - reflexivity.
  - reflexivity.
  - reflexivity.
  - split; [exact Hres |]. exists row.
    split; [exact Hrows |]. split; [exact Hlbl | exact Hmeta].
Defined.

(** X9. An answer that is not a document at all (a bare string, a
    number, a list, null) is not an error for [predict]: the call
    succeeds, the prediction is stored and returned with the label
    [normal], a null probability, and the raw answer wrapped under
    [raw_ml_response]. *)
Theorem predict_labels_non_documents_normal `{Runtime} (remote : Remote)
    (w : World) (machine_id : string) (limit : Z) (threshold : float)
    (ml : value) :
  query_gt_le 1 2000 limit = true ->
  engine w = true ->
  db_up w (tick w) = true ->
  db_up w (S (tick w)) = true ->
  ~ no_readings w machine_id ->
  answers remote ml ->
  not_a_document ml ->
  let out := predict remote w machine_id limit threshold in
  fst out = Ok {| prediction_id := uuid4 w (S (tick w)); model_name := None;
                  label := Some "normal"; score := None;
                  meta := Some [("raw_ml_response", ml)] |} /\
  exists row,
    predictions (snd out) = predictions w ++ [row] /\
    pr_prediction_label row = Some "normal" /\
    pr_failure_probability row = None /\
    pr_metadata row = VDict [("raw_ml_response", ml)].
Proof.
  intros Hq He Hdb Hdb' Hsome Hans Hnd out.
  destruct (window_of_known_machine w machine_id limit Hq Hsome)
    as (newest & rest & Hwin).
  subst out.
  rewrite (predict_after_answer remote w machine_id limit threshold newest rest
             ml (sent no_trace) None (Some "normal") Hq He Hdb Hdb' Hwin
             (answered_at_once remote ml _ Hans));
    rewrite ?(normalize_not_a_document ml Hnd); try reflexivity.
  simpl. split; [reflexivity |]. eexists. repeat split.
Qed.

Lemma predict_labels_non_documents_normal_witness :
  fst (predict (H := strict_runtime) scalar_remote scenario_world
         "machine_01" 3 0.7)
    = Ok {| prediction_id := "p-1"; model_name := None; label := Some "normal";
            score := None;
            meta := Some [("raw_ml_response", VStr "model is warming up")] |}.
Proof.
  apply (predict_labels_non_documents_normal (H := strict_runtime)
           scalar_remote scenario_world "machine_01" 3 0.7
           (VStr "model is warming up") eq_refl eq_refl eq_refl eq_refl).
  - intros Hnone.
    apply (Hnone (reading_at "r-305" 100 "machine_01" 305.5)); [| reflexivity].
    left. reflexivity.
  - intros payload. reflexivity.
  - intros d Hd. discriminate Hd.
Defined.

Lemma history_items_each `{Runtime} (rows : list PredictionRow)
    (out : list PredictionResult) :
  history_items rows = Some out ->
  Forall2 (fun r item => history_item r = Some item) rows out.
Proof.
  revert out. induction rows as [| r rows IH]; intros out Hitems; simpl in Hitems.
  - inversion Hitems. constructor.
  - destruct (history_item r) as [item |] eqn:Hitem; [| discriminate].
    destruct (history_items rows) as [items |]; [| discriminate].
    inversion Hitems; subst out. constructor; [exact Hitem | apply IH; reflexivity].
Qed.

Lemma Forall2_image {A B : Type} (R : A -> B -> Prop) (l : list A) (l' : list B)
    (x : A) :
  Forall2 R l l' -> In x l -> exists y, In y l' /\ R x y.
Proof.
  intros Hall. induction Hall as [| a b l l' Hab _ IH]; intros Hin.
  - destruct Hin.
  - destruct Hin as [<- | Hin].
    + exists b. split; [left; reflexivity | exact Hab].
    + destruct (IH Hin) as (y & Hy & Hxy). exists y. split; [right |]; assumption.
Qed.

Lemma select_history_eq (w : World) (machine_id : string) (limit : Z) :
  select_history w machine_id limit =
    firstn (Z.to_nat limit)
      (sort_desc (fun a b => ts_lt (pr_ts a) (pr_ts b))
         (predictions_of w machine_id)).
Proof. reflexivity. Qed.

(** X10. A prediction [predict] has returned is found again by
    [history]: with a limit above the number of predictions stored for
    the machine, the history holds an item with the same identifier,
    model name and label.  Its score is the returned score with null
    replaced by 0.0: for a prediction without a probability the two
    endpoints disagree. *)
Theorem predict_then_history `{Runtime} (remote : Remote) (w w' : World)
    (machine_id : string) (limit limit' : Z) (threshold : float)
    (res : PredictionResult) :
  predict remote w machine_id limit threshold = (Ok res, w') ->
  query_gt_le 1 2000 limit' = true ->
  db_up w' (tick w') = true ->
  (forall r s, In r (predictions_of w machine_id) -> pr_metadata r <> VStr s) ->
  (Z.of_nat (List.length (predictions_of w machine_id)) < limit')%Z ->
  exists out item,
    history w' machine_id limit' = (Ok out, step w') /\
    In item out /\
    prediction_id item = prediction_id res /\
    model_name item = model_name res /\
    label item = label res /\
    score item = Some (history_score (score res)) /\
    (score res = None -> score item = Some 0%float).
Proof.
  intros Hp Hq' Hdb' Hmeta Hroom.
  destruct (predict_ok_inv remote w w' machine_id limit threshold res Hp)
    as (newest & ml & mv & lbl & m & _ & He & _ & Hmv & Hlbl & Hm & -> & ->).
  set (row := written_row w newest machine_id (normalize ml) mv lbl) in *.
  set (w' := step (with_predictions (step w) (predictions w ++ [row]))) in *.
  assert (Hof : predictions_of w' machine_id = predictions_of w machine_id ++ [row]).
  { unfold predictions_of. subst w'. simpl predictions.
    rewrite filter_app. simpl. rewrite String.eqb_refl. reflexivity. }
  assert (Hsel : select_history w' machine_id limit' =
                 sort_desc (fun a b => ts_lt (pr_ts a) (pr_ts b))
                   (predictions_of w machine_id ++ [row])).
  { rewrite select_history_eq, Hof. apply firstn_all2.
    rewrite sort_desc_length, length_app. simpl. lia. }
  assert (Hrow_meta : forall s, pr_metadata row <> VStr s).
  { intros s. subst row. simpl. unfold jsonb_or_empty.
    destruct (meta_ (normalize ml)); simpl; try discriminate Hm; discriminate. }
  destruct (history_items_total (select_history w' machine_id limit'))
    as [out Hout].
  { intros r s Hin. rewrite Hsel in Hin. apply sort_desc_In in Hin.
    apply in_app_or in Hin. destruct Hin as [Hold | [<- | []]].
    - apply Hmeta. exact Hold.
    - apply Hrow_meta. }
  assert (Hin : In row (select_history w' machine_id limit')).
  { rewrite Hsel. apply sort_desc_In. apply in_or_app. right. left. reflexivity. }
  destruct (Forall2_image _ _ _ row (history_items_each _ _ Hout) Hin)
    as (item & Hitem_in & Hitem).
  exists out, item. split.
  { assert (He' : engine w' = true) by exact He.
    unfold history. rewrite Hq', Hdb', He'. cbn [negb].
    rewrite Hout. reflexivity. }
  split; [exact Hitem_in |].
  unfold history_item, row_to_dict_safe in Hitem. cbv zeta in Hitem.
  unfold make_result in Hitem. rewrite !opt_str_as_value in Hitem.
  destruct (opt_dict (parse_metadata (pr_metadata row))); [| discriminate Hitem].
  inversion Hitem; subst item. simpl.
  repeat split. intros ->. reflexivity.
Qed.

(** In the scenario with a remote that sends a label and no probability:
    the returned score is null, the history shows 0.0. *)
Lemma predict_then_history_witness :
  exists w' res out item,
    predict (H := strict_runtime) label_only_remote scenario_world
      "machine_01" 3 0.7 = (Ok res, w') /\
    score res = None /\
    history (H := strict_runtime) w' "machine_01" 50 = (Ok out, step w') /\
    In item out /\
    prediction_id item = "p-1" /\
    label item = Some "warning" /\
    score item = Some 0%float.
Proof.
  set (out0 := predict (H := strict_runtime) label_only_remote scenario_world
                 "machine_01" 3 0.7).
  assert (Hout : out0 =
                 (Ok {| prediction_id := "p-1"; model_name := None;
                        label := Some "warning"; score := None;
                        meta := Some [] |}, snd out0))
    by (vm_compute; reflexivity).
  destruct (predict_then_history (H := strict_runtime) _ _ _ _ _ 50 _ _ Hout)
    as (out & item & Hh & Hin & Hid & _ & Hlbl & _ & Hscore).
  - reflexivity.
  - reflexivity.
  - intros r s Hin. destruct Hin.
  - simpl. lia.
  - exists (snd out0),
      {| prediction_id := "p-1"; model_name := None; label := Some "warning";
         score := None; meta := Some [] |}, out, item.
    split; [exact Hout |]. split; [reflexivity |]. split; [exact Hh |].
    split; [exact Hin |]. split; [exact Hid |]. split; [exact Hlbl |].
    apply Hscore. reflexivity.
Defined.

(* ===================================================================== *)
(** ** Storage, further *)
(* ===================================================================== *)

Lemma or_truthy (a b : value) :
  truthy b = true -> truthy (or_ a b) = true.
Proof. intros Hb. unfold or_. destruct (truthy a) eqn:Ha; assumption. Qed.

Lemma insert_values_machine_id `{Runtime} (id : uuid) (now : datetime)
    (data : list (string * value)) :
  truthy (iv_machine_id (insert_values_of id now data)) = true.
Proof. simpl. apply or_truthy. reflexivity. Qed.

Lemma insert_values_metadata `{Runtime} (id : uuid) (now : datetime)
    (data : list (string * value)) :
  json_serializable (iv_metadata (insert_values_of id now data)) = true.
Proof.
  simpl. destruct (json_serializable (or_ (get data "metadata") (VDict []))) eqn:Hs.
  - exact Hs.
  - reflexivity.
Qed.

(** X11. [insert_reading] keeps the memory store well formed: every
    record has a machine identifier that is not empty ([unknown] when
    the payload has none under [machine_id] or [machineId]) and a
    document that [json.dumps] accepts (the empty document when the
    payload has none, a wrapped string when the payload's cannot be
    serialised). *)
Theorem insert_reading_keeps_memory_well_formed `{Runtime} (w : World)
    (payload : list (string * value)) :
  (memory_well_formed w ->
   memory_well_formed (snd (insert_reading w payload))) /\
  (truthy (get payload "machine_id") = false ->
   truthy (get payload "machineId") = false ->
   iv_machine_id (prepared w payload) = VStr "unknown") /\
  (truthy (get payload "metadata") = false ->
   iv_metadata (prepared w payload) = VDict []) /\
  (json_serializable (or_ (get payload "metadata") (VDict [])) = false ->
   exists s, iv_metadata (prepared w payload) = VDict [("raw_metadata", VStr s)]).
Proof.
  split; [| split; [| split]].
  - intros Hwf. unfold insert_reading. fold (prepared w payload).
    destruct (if engine w then db_insert_reading w (prepared w payload) else None)
      as [w1 |] eqn:Hdb.
    + assert (Hmem : memory_store w1 = memory_store w).
      { destruct (engine w); [| discriminate Hdb].
        destruct (db_insert_reading_appends _ _ _ Hdb) as (row & _ & ->).
        reflexivity. }
      unfold memory_well_formed in *. simpl. rewrite Hmem. exact Hwf.
    + unfold memory_well_formed in *. simpl. unfold memory_append.
      destruct (mem_up w (tick w)); simpl; [| exact Hwf].
      apply Forall_app. split; [exact Hwf |]. constructor; [| constructor].
      split; [apply insert_values_machine_id | apply insert_values_metadata].
  - intros Hm Hm'. unfold prepared. simpl. unfold or_. rewrite Hm, Hm'. reflexivity.
  - intros Hmeta. unfold prepared. simpl. unfold or_. rewrite Hmeta. reflexivity.
  - intros Hbad. unfold prepared. simpl. rewrite Hbad. eexists. reflexivity.
Qed.

Lemma insert_reading_keeps_memory_well_formed_witness :
  memory_well_formed
    (snd (insert_reading (H := strict_runtime) degraded_world
            [("air_temperature", VFloat 300); ("metadata", VDatetime 5)])) /\
  iv_machine_id (prepared (H := strict_runtime) degraded_world
                   [("air_temperature", VFloat 300); ("metadata", VDatetime 5)])
    = VStr "unknown".
Proof.
  destruct (insert_reading_keeps_memory_well_formed (H := strict_runtime)
              degraded_world
              [("air_temperature", VFloat 300); ("metadata", VDatetime 5)])
    as (Hwf & Hunknown & _).
  split.
  - apply Hwf. constructor.
  - apply Hunknown; reflexivity.
Defined.

Lemma In_firstn {A : Type} (n : nat) (l : list A) (x : A) :
  In x (firstn n l) -> In x l.
Proof.
  intros Hin. rewrite <- (firstn_skipn n l). apply in_or_app. left. exact Hin.
Qed.

Lemma In_skipn {A : Type} (n : nat) (l : list A) (x : A) :
  In x (skipn n l) -> In x l.
Proof.
  intros Hin. rewrite <- (firstn_skipn n l). apply in_or_app. right. exact Hin.
Qed.



(** A slice with bounds that are not negative is a page: [stop - start]
    items after the first [start]. *)
Lemma slice_page {A : Type} (xs : list A) (start len : Z) :
  (0 <= start)%Z -> (0 <= len)%Z ->
  slice xs start (start + len) =
    firstn (Z.to_nat len) (skipn (Z.to_nat start) xs).
Proof.
  intros Hs Hl. unfold slice, slice_index.
  assert (H1 : (start <? 0)%Z = false) by (apply Z.ltb_ge; lia).
  assert (H2 : (start + len <? 0)%Z = false) by (apply Z.ltb_ge; lia).
  rewrite H1, H2.
  set (n := List.length xs).
  destruct (Z.le_gt_cases (Z.of_nat n) start) as [Hfar | Hnear].
  - rewrite (Z.min_r start), (Z.min_r (start + len)) by lia.
    rewrite Nat2Z.id. subst n. rewrite skipn_all.
    rewrite (skipn_all2 xs) by lia. rewrite !firstn_nil. reflexivity.
  - rewrite (Z.min_l start) by lia.
    destruct (Z.le_gt_cases (start + len) (Z.of_nat n)) as [Hin | Hout].
    + rewrite (Z.min_l (start + len)) by lia. f_equal. lia.
    + rewrite (Z.min_r (start + len)) by lia.
      assert (Hlen : List.length (skipn (Z.to_nat start) xs) = n - Z.to_nat start)
        by (rewrite length_skipn; reflexivity).
      rewrite (firstn_all2 (n := Z.to_nat len)) by lia.
      apply firstn_all2. lia.
Qed.

Lemma fetch_readings_page (w : World) (machine_id : option string)
    (limit offset : Z) :
  (0 <= limit)%Z -> (0 <= offset)%Z ->
  (engine w = true -> db_up w (tick w) = true) ->
  page w machine_id limit offset =
    firstn (Z.to_nat limit) (skipn (Z.to_nat offset) (matching_records w machine_id)).
Proof.
  intros Hl Ho Hdb. unfold page, fetch_readings, matching_records.
  destruct (engine w).
  - unfold select_readings. rewrite (Hdb eq_refl).
    assert (H1 : (0 <=? limit)%Z = true) by (apply Z.leb_le; lia).
    assert (H2 : (0 <=? offset)%Z = true) by (apply Z.leb_le; lia).
    rewrite H1, H2. simpl. rewrite skipn_map, firstn_map. reflexivity.
  - simpl. rewrite slice_page by assumption.
    rewrite skipn_map, firstn_map. reflexivity.
Qed.

Lemma fetch_readings_down (w : World) (machine_id : option string)
    (limit offset : Z) :
  engine w = true -> db_up w (tick w) = false ->
  fetch_readings w machine_id limit offset = ([], step w).
Proof.
  intros He Hdb. unfold fetch_readings, select_readings. rewrite He, Hdb.
  reflexivity.
Qed.

Lemma matching_records_sound (w : World) (machine_id : option string)
    (r : ReadingRecord) :
  In r (matching_records w machine_id) ->
  agrees_with machine_id r /\ stored_in w r.
Proof.
  unfold matching_records. destruct (engine w) eqn:He; intros Hin;
    apply in_map_iff in Hin; destruct Hin as (x & <- & Hin);
    apply sort_desc_In in Hin; simpl.
  - destruct machine_id as [m |].
    + destruct (truthy (VStr m)) eqn:Hm.
      * apply filter_In in Hin. destruct Hin as [Hin Heq].
        apply String.eqb_eq in Heq. split; [| split; [exact He | exact Hin]].
        intros m' Hm' _. inversion Hm'; subst m'. exact Heq.
      * split; [| split; [exact He | exact Hin]].
        intros m' Hm' Hne. inversion Hm'; subst m'. exfalso.
        simpl in Hm. apply negb_false_iff in Hm. apply String.eqb_eq in Hm.
        exact (Hne Hm).
    + split; [| split; [exact He | exact Hin]]. intros m' Hm'. discriminate Hm'.
  - apply filter_In in Hin. destruct Hin as [Hin Hmatch].
    split; [exact Hmatch | split; [exact He | exact Hin]].
Qed.

(** X12. A page of [fetch_readings] with a limit and an offset that are
    not negative holds at most [limit] records; each of them is a stored
    record of the backend in use and agrees with the machine filter. *)
Theorem fetch_readings_page_is_bounded (w : World) (machine_id : option string)
    (limit offset : Z) :
  (0 <= limit)%Z -> (0 <= offset)%Z ->
  List.length (page w machine_id limit offset) <= Z.to_nat limit /\
  Forall (fun r => agrees_with machine_id r /\ stored_in w r)
         (page w machine_id limit offset).
Proof.
  intros Hl Ho.
  destruct (engine w) eqn:He; [destruct (db_up w (tick w)) eqn:Hdb |].
  - rewrite (fetch_readings_page w machine_id limit offset Hl Ho (fun _ => Hdb)).
    split; [apply firstn_le_length |].
    apply Forall_forall. intros r Hin.
    apply matching_records_sound. apply (In_skipn (Z.to_nat offset)).
    apply (In_firstn (Z.to_nat limit)). exact Hin.
  - unfold page. rewrite (fetch_readings_down w machine_id limit offset He Hdb).
    simpl. split; [lia | constructor].
  - rewrite (fetch_readings_page w machine_id limit offset Hl Ho)
      by (intros Hon; rewrite He in Hon; discriminate Hon).
    split; [apply firstn_le_length |].
    apply Forall_forall. intros r Hin.
    apply matching_records_sound. apply (In_skipn (Z.to_nat offset)).
    apply (In_firstn (Z.to_nat limit)). exact Hin.
Qed.

Lemma fetch_readings_page_is_bounded_witness :
  List.length (page two_memory_records (Some "machine_02") 1 0) <= 1 /\
  page two_memory_records (Some "machine_02") 1 0
    = [FromMemory (memory_record "b" "2024-01-02T00:00:00" "machine_02")].
Proof.
  destruct (fetch_readings_page_is_bounded two_memory_records
              (Some "machine_02") 1 0) as [Hlen _]; [lia | lia |].
  split; [exact Hlen | reflexivity].
Defined.









Lemma page_with_engine (w : World) (machine_id : option string)
    (limit offset : Z) (r : ReadingRecord) :
  engine w = true ->
  In r (page w machine_id limit offset) ->
  exists row, r = FromDb row /\ In row (sensor_readings w).
Proof.
  intros He Hin. unfold page, fetch_readings in Hin. rewrite He in Hin.
  unfold select_readings in Hin.
  destruct (db_up w (tick w) && (0 <=? limit)%Z && (0 <=? offset)%Z);
    [| destruct Hin].
  simpl in Hin. apply in_map_iff in Hin. destruct Hin as (row & <- & Hin).
  exists row. split; [reflexivity |].
  apply In_firstn, In_skipn, sort_desc_In in Hin.
  destruct machine_id as [m |]; [| exact Hin].
  match type of Hin with
  | In _ (if ?c then _ else _) => destruct c
  end; [apply filter_In in Hin; apply (proj1 Hin) | exact Hin].
Qed.

(** X16. The memory store is read only when no engine is configured.  A
    reading that went to the memory store because the durable write
    raised is kept there, and no query through [fetch_readings] returns
    it as long as the engine is configured: every page holds rows of
    the table only. *)
Theorem fallback_write_is_invisible `{Runtime} (w : World)
    (payload : list (string * value)) :
  engine w = true ->
  db_insert_reading w (prepared w payload) = None ->
  mem_up w (tick w) = true ->
  let w1 := snd (insert_reading w payload) in
  let record := memory_record_of (prepared w payload) in
  In record (get_memory_store w1) /\
  forall machine_id limit offset,
    ~ In (FromMemory record) (page w1 machine_id limit offset) /\
    forall r, In r (page w1 machine_id limit offset) ->
      exists row, r = FromDb row /\ In row (sensor_readings w).
Proof.
  intros He Hraise Hmem w1 record. subst w1 record.
  rewrite (insert_reading_fallback_eq w payload (or_intror Hraise)).
  unfold memory_append. rewrite Hmem. simpl snd.
  set (w1 := step (with_memory_store w _)).
  split.
  - unfold get_memory_store. simpl. apply in_or_app. right. left. reflexivity.
  - intros machine_id limit offset. split.
    + intros Hin.
      destruct (page_with_engine w1 machine_id limit offset _ He Hin)
        as (row & Habs & _).
      discriminate Habs.
    + intros r Hin.
      apply (page_with_engine w1 machine_id limit offset r He Hin).
Qed.

Lemma fallback_write_is_invisible_witness :
  In (memory_record_of (H := strict_runtime)
        (prepared (H := strict_runtime) degraded_world sample_payload))
     (get_memory_store
        (snd (insert_reading (H := strict_runtime) degraded_world sample_payload)))
  /\
  page (snd (insert_reading (H := strict_runtime) degraded_world sample_payload))
    (Some "machine_01") 100 0 = [].
Proof.
  destruct (fallback_write_is_invisible (H := strict_runtime)
              degraded_world sample_payload eq_refl eq_refl eq_refl)
    as [Hkept _].
  split; [exact Hkept | reflexivity].
Defined.

Lemma slice_nil {A : Type} (start stop : Z) : slice (@nil A) start stop = [].
Proof. unfold slice. rewrite skipn_nil. apply firstn_nil. Qed.

(** X17. The empty string as machine filter means two different things.
    With an engine it is no filter at all: the query returns what it
    returns without a filter.  On the memory store it is compared with
    the machine identifiers, none of which is empty, and the query
    returns nothing. *)
Theorem empty_machine_filter_differs (w : World) (limit offset : Z) :
  (engine w = true ->
   fetch_readings w (Some "") limit offset = fetch_readings w None limit offset) /\
  (engine w = false -> memory_well_formed w ->
   fetch_readings w (Some "") limit offset = ([], w)).
Proof.
  split.
  - intros He. unfold fetch_readings, select_readings. rewrite He. reflexivity.
  - intros He Hwf. unfold fetch_readings. rewrite He.
    assert (Hnone : filter (memory_matches (Some "")) (memory_store w) = []).
    { apply filter_nil_iff. intros rec Hin.
      unfold memory_well_formed in Hwf. rewrite Forall_forall in Hwf.
      destruct (Hwf rec Hin) as [Hid _]. unfold memory_matches.
      destruct (iv_machine_id rec); try reflexivity.
      simpl in Hid. apply negb_true_iff in Hid. exact Hid. }
    rewrite Hnone. simpl. rewrite slice_nil. reflexivity.
Qed.

Lemma empty_machine_filter_differs_witness :
  page two_memory_records (Some "") 100 0 = [] /\
  List.length (page two_memory_records None 100 0) = 2 /\
  List.length
    (page (with_sensor_readings healthy_world (sensor_readings scenario_world))
       (Some "") 100 0) = 4.
Proof.
  destruct (empty_machine_filter_differs two_memory_records 100 0)
    as [_ Hmem].
  destruct (empty_machine_filter_differs
              (with_sensor_readings healthy_world (sensor_readings scenario_world))
              100 0) as [Hdb _].
  split; [| split].
  - unfold page. rewrite Hmem; [reflexivity | reflexivity |].
    repeat constructor.
  - reflexivity.
  - unfold page. rewrite (Hdb eq_refl). reflexivity.
Defined.

(** X18. [POST /ingest] never answers 500: [insert_reading] returns an
    identifier in every case, so the handler answers [ok] with that
    identifier, also when neither the database nor the memory store has
    taken the reading. *)
Theorem ingest_always_answers_ok `{Runtime} (w : World)
    (data : list (string * value)) :
  fst (ingest w data) = Ok (uuid4 w (tick w)) /\
  (fallback_append_fails w data ->
   ingest w data = (Ok (uuid4 w (tick w)), step w)).
Proof.
  split.
  - unfold ingest, insert_reading.
    destruct (if engine w then _ else _); reflexivity.
  - intros [Hfb Hmem]. unfold ingest.
    rewrite (insert_reading_fallback_eq w data Hfb).
    unfold memory_append. rewrite Hmem. reflexivity.
Qed.

Lemma ingest_always_answers_ok_witness :
  ingest (H := strict_runtime) stuck_world sample_payload
    = (Ok "0", step stuck_world).
Proof.
  apply (ingest_always_answers_ok (H := strict_runtime) stuck_world sample_payload).
  split; [right |]; reflexivity.
Defined.

(* ===================================================================== *)
(** ** Dashboard and machine list *)
(* ===================================================================== *)

(** A float equal to zero is above no positive bound. *)
Lemma zero_not_above (f bound : float) :
  (0 <? bound)%float = true -> (f =? 0)%float = true -> (bound <? f)%float = false.
Proof.
  rewrite !ltb_spec, eqb_spec.
  change (Prim2SF 0) with (S754_zero false).
  destruct (Prim2SF f) as [s | s | | s m e];
    destruct (Prim2SF bound) as [s' | s' | | s' m' e'];
    simpl; try discriminate; try (destruct s; discriminate); auto;
    destruct s'; auto; discriminate.
Qed.

Lemma above_float_or_zero (x : option float) (bound : float) :
  (0 <? bound)%float = true ->
  above (Some (float_or_zero x)) bound = above x bound.
Proof.
  intros Hpos. destruct x as [f |]; simpl.
  - destruct (f =? 0)%float eqn:Hz; simpl; [| reflexivity].
    rewrite (zero_not_above f bound Hpos Hz).
    apply (zero_not_above 0 bound Hpos). reflexivity.
  - apply (zero_not_above 0 bound Hpos). reflexivity.
Qed.

Lemma above_int_or_zero (x : option Z) (bound : float) :
  (bound <? int_as_float 0)%float = false ->
  above (Some (int_as_float (int_or_zero x))) bound
    = above (option_map int_as_float x) bound.
Proof.
  intros Hz. destruct x as [z |]; simpl; [| exact Hz].
  destruct (Z.eqb_spec z 0) as [-> | Hne]; reflexivity.
Qed.

Lemma compute_risk_some (t v c : float) :
  compute_risk (Some t) (Some v) (Some c) =
    if above (Some t) 315 || above (Some v) 2200 || above (Some c) 85 then "Bahaya"
    else if above (Some t) 305 || above (Some v) 1600 || above (Some c) 65
         then "Waspada"
         else "Normal".
Proof. reflexivity. Qed.

Lemma dashboard_risk_eq (d : SensorRow) :
  dashboard_risk d =
    if above (sr_air_temperature d) 315
       || above (option_map int_as_float (sr_rotational_speed d)) 2200
       || above (sr_torque d) 85 then "Bahaya"
    else if above (sr_air_temperature d) 305
            || above (option_map int_as_float (sr_rotational_speed d)) 1600
            || above (sr_torque d) 65 then "Waspada"
         else "Normal".
Proof.
  unfold dashboard_risk. cbv zeta. rewrite compute_risk_some.
  rewrite !above_float_or_zero by reflexivity.
  rewrite !above_int_or_zero by (vm_compute; reflexivity).
  reflexivity.
Qed.

(** X19. The dashboard and the machine list rate the same row alike,
    except a row whose three sensor columns are null: the machine list
    (and the chat helper) rate it [Unknown], the dashboard, which turns
    nulls into zeros first, rates it [Normal].  The dashboard never
    rates a row [Unknown]. *)
Theorem dashboard_never_rates_unknown (d : SensorRow) :
  dashboard_risk d <> "Unknown" /\
  (no_sensor_value d ->
     status_risk d = "Unknown" /\ dashboard_risk d = "Normal") /\
  (~ no_sensor_value d -> dashboard_risk d = status_risk d).
Proof.
  split; [| split].
  - rewrite dashboard_risk_eq.
    destruct (_ || _ || _); [discriminate |].
    destruct (_ || _ || _); discriminate.
  - intros (Ht & Hv & Hc). rewrite dashboard_risk_eq. unfold status_risk.
    rewrite Ht, Hv, Hc. split; reflexivity.
  - intros Hsome. rewrite dashboard_risk_eq. unfold status_risk.
    symmetry. apply compute_risk_not_null.
    intros (Ht & Hv & Hc). apply Hsome. unfold no_sensor_value.
    split; [exact Ht |]. split; [| exact Hc].
    destruct (sr_rotational_speed d); [discriminate Hv | reflexivity].
Qed.

Lemma dashboard_never_rates_unknown_witness :
  status_risk silent_reading = "Unknown" /\
  dashboard_risk silent_reading = "Normal" /\
  dashboard_risk hot_reading = status_risk hot_reading.
Proof.
  destruct (dashboard_never_rates_unknown silent_reading) as (_ & Hnull & _).
  destruct (dashboard_never_rates_unknown hot_reading) as (_ & _ & Hsame).
  destruct Hnull as [Hu Hn]; [repeat split |].
  split; [exact Hu |]. split; [exact Hn |].
  apply Hsame. intros (Ht & _). discriminate Ht.
Defined.

Lemma select_window_same_table (w w' : World) (machine_id : string) (limit : Z) :
  sensor_readings w' = sensor_readings w ->
  select_window w' machine_id limit = select_window w machine_id limit.
Proof. intros Hsame. unfold select_window. rewrite Hsame. reflexivity. Qed.

Lemma latest_rows_same_table (w w' : World) (machines : list string) :
  sensor_readings w' = sensor_readings w ->
  latest_rows w' machines = latest_rows w machines.
Proof.
  intros Hsame. unfold latest_rows. apply flat_map_ext. intros m.
  rewrite (select_window_same_table w w' m 1 Hsame). reflexivity.
Qed.

(** The two loops on a database that answers: a fold and a map over the
    latest rows. *)
Lemma summary_loop_reachable (w : World) (machines : list string) (c : Counts) :
  (forall n, db_up w n = true) ->
  fst (summary_loop w machines c) =
    Some (fold_left (fun c mr => count_risk (dashboard_risk (snd mr)) c)
            (latest_rows w machines) c).
Proof.
  revert w c. induction machines as [| m machines IH]; intros w c Hup.
  - reflexivity.
  - cbn [summary_loop]. rewrite (Hup (tick w)).
    unfold latest_rows. cbn [flat_map]. fold (latest_rows w machines).
    rewrite <- (latest_rows_same_table w (step w) machines eq_refl).
    destruct (select_window w m 1) as [| r rest].
    + simpl app. apply IH. exact Hup.
    + unfold row_to_dict_safe. cbv zeta. simpl app. cbn [fold_left snd].
      apply IH. exact Hup.
Qed.

Lemma latest_loop_reachable `{Runtime} (w : World) (machines : list string)
    (out : list MachineStatus) :
  (forall n, db_up w n = true) ->
  fst (latest_loop w machines out) =
    Some (out ++ map (fun mr => machine_status (fst mr) (snd mr))
                   (latest_rows w machines)).
Proof.
  revert w out. induction machines as [| m machines IH]; intros w out Hup.
  - simpl. rewrite app_nil_r. reflexivity.
  - cbn [latest_loop]. rewrite (Hup (tick w)).
    unfold latest_rows. cbn [flat_map]. fold (latest_rows w machines).
    rewrite <- (latest_rows_same_table w (step w) machines eq_refl).
    destruct (select_window w m 1) as [| r rest].
    + simpl app. apply IH. exact Hup.
    + unfold row_to_dict_safe. cbv zeta. rewrite IH by exact Hup.
      simpl. rewrite <- app_assoc. reflexivity.
Qed.

(** Every machine the table names has a latest row. *)
Lemma latest_rows_complete (w : World) (machines : list string) :
  (forall m, In m machines -> In m (map sr_machine_id (sensor_readings w))) ->
  map fst (latest_rows w machines) = machines.
Proof.
  intros Hknown. induction machines as [| m machines IH]; [reflexivity |].
  unfold latest_rows. cbn [flat_map]. fold (latest_rows w machines).
  destruct (select_window w m 1) as [| r rest] eqn:Hwin.
  - exfalso. specialize (Hknown m (or_introl eq_refl)).
    apply in_map_iff in Hknown. destruct Hknown as (r & Hm & Hin).
    unfold select_window in Hwin.
    destruct (sort_desc (fun a b => (sr_ts a <? sr_ts b)%Z)
                (filter (fun r => String.eqb (sr_machine_id r) m)
                   (sensor_readings w))) as [| x xs] eqn:Hs.
    + apply sort_desc_nil_inv in Hs.
      assert (Hr : In r (filter (fun r => String.eqb (sr_machine_id r) m)
                           (sensor_readings w))).
      { apply filter_In. split; [exact Hin | apply String.eqb_eq; exact Hm]. }
      rewrite Hs in Hr. destruct Hr.
    + discriminate Hwin.
  - simpl. f_equal. apply IH. intros m' Hin. apply Hknown. right. exact Hin.
Qed.

Lemma count_risk_fold (rows : list (string * SensorRow)) (c : Counts) :
  let c' := fold_left (fun c mr => count_risk (dashboard_risk (snd mr)) c) rows c in
  let risks := map (fun mr => dashboard_risk (snd mr)) rows in
  total c' = total c /\
  failure_count c' = failure_count c + count_occ string_dec risks "Bahaya" /\
  warning_count c' = warning_count c + count_occ string_dec risks "Waspada" /\
  failure_count c' + warning_count c' + normal_count c'
    = failure_count c + warning_count c + normal_count c + List.length rows.
Proof.
  revert c. induction rows as [| mr rows IH]; intros c; cbv zeta.
  - simpl. repeat split; lia.
  - cbn [fold_left map List.length].
    set (risk := dashboard_risk (snd mr)).
    specialize (IH (count_risk risk c)). cbv zeta in IH.
    set (c' := fold_left _ rows (count_risk risk c)) in *. clearbody c'.
    destruct IH as (Ht & Hf & Hw & Hsum). unfold count_risk in Ht, Hf, Hw, Hsum.
    destruct (String.eqb_spec risk "Bahaya") as [Hb | Hb].
    + rewrite Hb. simpl in *. repeat split; lia.
    + destruct (String.eqb_spec risk "Waspada") as [Hwa | Hwa].
      * rewrite Hwa. simpl in *. repeat split; lia.
      * cbn [total failure_count warning_count normal_count] in Ht, Hf, Hw, Hsum.
        rewrite !count_occ_cons_neq by (intros Heq; congruence).
        repeat split; lia.
Qed.

Lemma distinct_machines_known (w : World) (m : string) :
  In m (distinct_machines w) -> In m (map sr_machine_id (sensor_readings w)).
Proof. unfold distinct_machines. apply nodup_In. Qed.

(** X20. On a database that answers, the counts of the dashboard add
    up: [total] is the number of distinct machines in the sensor table,
    and every one of them is counted once, as failure, warning or
    normal. *)
Theorem dashboard_counts_add_up (w : World) :
  reachable w ->
  exists counts,
    fst (dashboard_summary w) = Ok counts /\
    total counts = List.length (distinct_machines w) /\
    failure_count counts + warning_count counts + normal_count counts
      = total counts.
Proof.
  intros [He Hup]. unfold dashboard_summary. rewrite He, (Hup (tick w)).
  cbn [negb]. cbv zeta.
  pose proof (summary_loop_reachable (step w) (distinct_machines w)
                {| total := List.length (distinct_machines w); failure_count := 0;
                   warning_count := 0; normal_count := 0 |} Hup) as Hloop.
  destruct (summary_loop (step w) (distinct_machines w) _) as [[c |] w1];
    simpl in Hloop; [| discriminate Hloop].
  injection Hloop as Hc. exists c. split; [reflexivity |].
  pose proof (count_risk_fold (latest_rows (step w) (distinct_machines w))
                {| total := List.length (distinct_machines w); failure_count := 0;
                   warning_count := 0; normal_count := 0 |}) as Hfold.
  cbv zeta in Hfold. rewrite <- Hc in Hfold.
  destruct Hfold as (Ht & _ & _ & Hsum). simpl in Ht, Hsum.
  split; [exact Ht |]. rewrite Hsum, Ht.
  rewrite <- (length_map fst).
  rewrite (latest_rows_complete (step w) (distinct_machines w)
             (distinct_machines_known w)).
  reflexivity.
Qed.

Lemma dashboard_counts_add_up_witness :
  fst (dashboard_summary plant_world)
    = Ok {| total := 4; failure_count := 1; warning_count := 1;
            normal_count := 2 |}.
Proof.
  assert (Hreach : reachable plant_world) by (split; [| intros n]; reflexivity).
  destruct (dashboard_counts_add_up plant_world Hreach) as (counts & Hc & _).
  rewrite Hc. vm_compute in Hc. inversion Hc. reflexivity.
Defined.

Lemma compute_risk_range (t v c : option float) :
  compute_risk t v c = "Unknown" \/ compute_risk t v c = "Bahaya" \/
  compute_risk t v c = "Waspada" \/ compute_risk t v c = "Normal".
Proof.
  unfold compute_risk.
  destruct t, v, c; try (left; reflexivity);
    (destruct (_ || _ || _); [right; left; reflexivity |]);
    (destruct (_ || _ || _); [right; right; left | right; right; right]);
    reflexivity.
Qed.

(** How the two ratings of a row relate. *)
Lemma rating_cases (d : SensorRow) :
  (status_risk d = "Unknown" /\ dashboard_risk d = "Normal") \/
  (status_risk d = dashboard_risk d /\
   (dashboard_risk d = "Bahaya" \/ dashboard_risk d = "Waspada" \/
    dashboard_risk d = "Normal")).
Proof.
  assert (Hdash : dashboard_risk d = "Bahaya" \/ dashboard_risk d = "Waspada" \/
                  dashboard_risk d = "Normal").
  { rewrite dashboard_risk_eq.
    destruct (_ || _ || _); [left; reflexivity |].
    destruct (_ || _ || _); [right; left | right; right]; reflexivity. }
  destruct (sr_air_temperature d) as [t |] eqn:Ht;
    [| destruct (sr_rotational_speed d) as [v |] eqn:Hv;
       [| destruct (sr_torque d) as [c |] eqn:Hc]].
  4: { left. rewrite dashboard_risk_eq. unfold status_risk.
       rewrite Ht, Hv, Hc. split; reflexivity. }
  all: right; split; [| exact Hdash];
       rewrite dashboard_risk_eq; unfold status_risk;
       apply compute_risk_not_null; unfold all_null;
       rewrite ?Ht, ?Hv, ?Hc; simpl; intros (H1 & H2 & H3); discriminate.
Qed.

Lemma ratings_tally (rows : list (string * SensorRow)) :
  let dash := map (fun mr => dashboard_risk (snd mr)) rows in
  let stat := map (fun mr => status_risk (snd mr)) rows in
  count_occ string_dec dash "Bahaya" = count_occ string_dec stat "Bahaya" /\
  count_occ string_dec dash "Waspada" = count_occ string_dec stat "Waspada" /\
  List.length rows =
    count_occ string_dec stat "Bahaya" + count_occ string_dec stat "Waspada" +
    count_occ string_dec stat "Normal" + count_occ string_dec stat "Unknown".
Proof.
  induction rows as [| mr rows IH]; cbv zeta; [repeat split |].
  cbv zeta in IH. destruct IH as (Hb & Hw & Hlen).
  cbn [map List.length]. rewrite Hlen.
  destruct (rating_cases (snd mr)) as [[Hs Hd] | [Hs [Hd | [Hd | Hd]]]];
    rewrite ?Hs, Hd;
    repeat (first [rewrite count_occ_cons_eq by reflexivity
                  | rewrite count_occ_cons_neq by discriminate]);
    rewrite ?Hb, ?Hw; repeat split; lia.
Qed.

(** X21. On a database that answers, the dashboard and the machine list
    tell the same story: the list has one entry per distinct machine,
    [failure_count] is the number of entries rated [Bahaya],
    [warning_count] the number rated [Waspada], and [normal_count] the
    number rated [Normal] or [Unknown]. *)
Theorem dashboard_agrees_with_machine_list `{Runtime} (w : World) :
  reachable w ->
  exists counts out,
    fst (dashboard_summary w) = Ok counts /\
    fst (list_machines_latest w) = Ok out /\
    map ms_machine_id out = distinct_machines w /\
    failure_count counts = risk_count "Bahaya" out /\
    warning_count counts = risk_count "Waspada" out /\
    normal_count counts = risk_count "Normal" out + risk_count "Unknown" out.
Proof.
  intros [He Hup].
  set (rows := latest_rows (step w) (distinct_machines w)).
  set (c0 := {| total := List.length (distinct_machines w); failure_count := 0;
                warning_count := 0; normal_count := 0 |}).
  exists (fold_left (fun c mr => count_risk (dashboard_risk (snd mr)) c) rows c0),
         (map (fun mr => machine_status (fst mr) (snd mr)) rows).
  split; [| split].
  - unfold dashboard_summary. rewrite He, (Hup (tick w)). cbn [negb]. cbv zeta.
    pose proof (summary_loop_reachable (step w) (distinct_machines w) c0 Hup)
      as Hloop.
    fold c0. destruct (summary_loop (step w) (distinct_machines w) c0)
      as [[c |] w1]; simpl in Hloop; [| discriminate Hloop].
    injection Hloop as ->. reflexivity.
  - unfold list_machines_latest. rewrite He, (Hup (tick w)). cbn [negb].
    pose proof (latest_loop_reachable (step w) (distinct_machines w) [] Hup)
      as Hloop.
    destruct (latest_loop (step w) (distinct_machines w) []) as [[out |] w1];
      simpl in Hloop; [| discriminate Hloop].
    injection Hloop as ->. reflexivity.
  - pose proof (count_risk_fold rows c0) as Hfold.
    pose proof (ratings_tally rows) as Htally.
    cbv zeta in Hfold, Htally.
    destruct Hfold as (_ & Hf & Hw & Hsum).
    destruct Htally as (Hb & Hwa & Hlen).
    assert (Hrisks : map ms_risk
                       (map (fun mr => machine_status (fst mr) (snd mr)) rows)
                     = map (fun mr => status_risk (snd mr)) rows)
      by (rewrite map_map; reflexivity).
    unfold risk_count. rewrite Hrisks.
    split; [| split; [| split]].
    + rewrite map_map. simpl. subst rows.
      apply (latest_rows_complete (step w) (distinct_machines w)
               (distinct_machines_known w)).
    + rewrite Hf, Hb. reflexivity.
    + rewrite Hw, Hwa. reflexivity.
    + rewrite Hf, Hw, Hb, Hwa, Hlen in Hsum. simpl in Hsum. lia.
Qed.

Lemma dashboard_agrees_with_machine_list_witness :
  exists out,
    fst (list_machines_latest (H := strict_runtime) plant_world) = Ok out /\
    map ms_risk out = ["Normal"; "Waspada"; "Unknown"; "Bahaya"] /\
    fst (dashboard_summary plant_world)
      = Ok {| total := 4; failure_count := 1; warning_count := 1;
              normal_count := 2 |}.
Proof.
  assert (Hreach : reachable plant_world) by (split; [| intros n]; reflexivity).
  destruct (dashboard_agrees_with_machine_list (H := strict_runtime)
              plant_world Hreach) as (counts & out & Hc & Hout & _).
  exists out. split; [exact Hout |].
  vm_compute in Hout. inversion Hout; subst out.
  split; reflexivity.
Defined.

(* ===================================================================== *)
(** ** The chat endpoint *)
(* ===================================================================== *)

Lemma asks_about_branch `{Runtime} `{Text} (w : World) (payload : ChatRequest)
    (m : string) :
  asks_about payload m ->
  chat_messages w payload =
    match get_latest_machine_status w m with
    | (Exception _, w') => (internal_error, w')
    | (Value None, w') => (Ok (not_found_response m), w')
    | (Value (Some status), w') =>
        match status_reply m status with
        | None => (internal_error, w')
        | Some text_reply =>
            (Ok {| reply := text_reply; cr_machine_id := Some m;
                   intent := Some "machine_status";
                   extra := Some status |}, w')
        end
    end.
Proof.
  intros (Hm & Hne & Hq). unfold chat_messages. cbv zeta. rewrite Hm.
  unfold is_question in Hq. cbv zeta in Hq. rewrite Hq.
  assert (Ht : truthy (VStr m) = true)
    by (destruct m; [contradiction Hne; reflexivity | reflexivity]).
  rewrite Ht. reflexivity.
Qed.

(** X22. A question about a machine whose newest reading has no air
    temperature is answered with 500: the reply formats the temperature
    with two decimals, which a null does not support.  With a
    temperature the chat answers, and the risk it reports is the one the
    machine list shows for that reading; it is never [Unknown]. *)
Theorem chat_needs_a_temperature `{Runtime} `{Text} (w : World)
    (payload : ChatRequest) (m : string) (d : SensorRow) :
  engine w = true ->
  db_up w (tick w) = true ->
  asks_about payload m ->
  select_window w m 1 = [d] ->
  match sr_air_temperature d with
  | None => fst (chat_messages w payload) = internal_error
  | Some _ =>
      exists resp,
        fst (chat_messages w payload) = Ok resp /\
        intent resp = Some "machine_status" /\
        option_map st_risk (extra resp) = Some (status_risk d) /\
        status_risk d <> "Unknown"
  end.
Proof.
  intros He Hdb Hask Hwin.
  rewrite (asks_about_branch w payload m Hask).
  unfold get_latest_machine_status. rewrite He, Hdb, Hwin. cbn [negb].
  cbv zeta. unfold status_reply. cbn [st_temperature st_risk].
  destruct (sr_air_temperature d) as [t |] eqn:Ht; [| reflexivity].
  eexists. split; [reflexivity |]. split; [reflexivity |].
  split.
  - simpl. unfold status_risk. rewrite Ht. reflexivity.
  - unfold status_risk. rewrite Ht.
    destruct (compute_risk_range (Some t)
                (option_map int_as_float (sr_rotational_speed d)) (sr_torque d))
      as [Hu | [Hr | [Hr | Hr]]]; try (rewrite Hr; discriminate).
    exfalso. revert Hu. unfold compute_risk.
    destruct (_ || _ || _); [discriminate |].
    destruct (_ || _ || _); discriminate.
Qed.

Lemma chat_needs_a_temperature_witness :
  fst (chat_messages (H := strict_runtime) (H0 := ascii_text) plant_world
         (status_question "machine_03")) = internal_error /\
  exists resp,
    fst (chat_messages (H := strict_runtime) (H0 := ascii_text) plant_world
           (status_question "machine_04")) = Ok resp /\
    option_map st_risk (extra resp) = Some "Bahaya".
Proof.
  split.
  - apply (chat_needs_a_temperature (H := strict_runtime) (H0 := ascii_text)
             plant_world (status_question "machine_03") "machine_03"
             silent_reading);
      try reflexivity.
    split; [reflexivity |]. split; [discriminate | reflexivity].
  - destruct (chat_needs_a_temperature (H := strict_runtime) (H0 := ascii_text)
                plant_world (status_question "machine_04") "machine_04"
                hot_reading) as (resp & Hresp & _ & Hrisk & _);
      try reflexivity.
    + split; [reflexivity |]. split; [discriminate | reflexivity].
    + exists resp. split; [exact Hresp | exact Hrisk].
Defined.

Lemma insert_reading_memory_mode `{Runtime} (w : World)
    (reading : list (string * value)) :
  engine w = false ->
  snd (insert_reading w reading)
    = step (memory_append w (memory_record_of (prepared w reading))).
Proof.
  intros He.
  rewrite (insert_reading_fallback_eq w reading (or_introl He)). reflexivity.
Qed.

(** X23. Without an engine the service takes readings and serves nothing
    else from them.  A reading written then is kept in the memory store,
    and afterwards [predict], [history] and [recent] answer 500 for
    every accepted limit, the dashboard and the machine list answer 500,
    and the chat answers that it has no data for the machine; none of
    them changes the state. *)
Theorem memory_mode_serves_only_ingestion `{Runtime} `{Text} (remote : Remote)
    (w : World) (reading : list (string * value)) (payload : ChatRequest)
    (m : string) (limit : Z) (threshold : float) :
  engine w = false ->
  mem_up w (tick w) = true ->
  asks_about payload m ->
  (1 < limit <= 2000)%Z ->
  let w' := snd (insert_reading w reading) in
  get_memory_store w'
    = get_memory_store w ++ [memory_record_of (prepared w reading)] /\
  predict remote w' m limit threshold = (internal_error, w') /\
  history w' m limit = (internal_error, w') /\
  recent w' m limit = (internal_error, w') /\
  dashboard_summary w'
    = (HttpError 500 "Database error fetching machines", w') /\
  list_machines_latest w'
    = (HttpError 500 "Database error fetching machines", w') /\
  chat_messages w' payload = (Ok (not_found_response m), w').
Proof.
  intros He Hmem Hask Hlimit w'. subst w'.
  rewrite (insert_reading_memory_mode w reading He).
  unfold memory_append. rewrite Hmem.
  set (w' := step (with_memory_store w _)).
  assert (He' : engine w' = false) by exact He.
  assert (Hq1 : query_gt_le 1 2000 limit = true)
    by (unfold query_gt_le; destruct Hlimit;
        apply andb_true_intro; split; [apply Z.ltb_lt | apply Z.leb_le]; lia).
  assert (Hq0 : query_gt_le 0 2000 limit = true)
    by (unfold query_gt_le; destruct Hlimit;
        apply andb_true_intro; split; [apply Z.ltb_lt | apply Z.leb_le]; lia).
  repeat match goal with |- _ /\ _ => split end.
  - reflexivity.
  - unfold predict. rewrite Hq1, He'. reflexivity.
  - unfold history. rewrite Hq1, He'. reflexivity.
  - unfold recent. rewrite Hq0, He'. reflexivity.
  - unfold dashboard_summary. rewrite He'. reflexivity.
  - unfold list_machines_latest. rewrite He'. reflexivity.
  - rewrite (asks_about_branch w' payload m Hask).
    unfold get_latest_machine_status. rewrite He'. reflexivity.
Qed.

Lemma memory_mode_serves_only_ingestion_witness :
  let w' := snd (insert_reading (H := strict_runtime) memory_only_world
                   sample_payload) in
  List.length (get_memory_store w') = 1 /\
  fst (chat_messages (H := strict_runtime) (H0 := ascii_text) w'
         (status_question "machine_01"))
    = Ok (not_found_response "machine_01") /\
  fst (dashboard_summary w')
    = HttpError 500 "Database error fetching machines".
Proof.
  assert (Hask : asks_about (H := ascii_text) (status_question "machine_01")
                   "machine_01")
    by (split; [reflexivity |]; split; [discriminate | reflexivity]).
  assert (Hlimit : (1 < 50 <= 2000)%Z) by lia.
  destruct (memory_mode_serves_only_ingestion (H := strict_runtime)
              (H0 := ascii_text) mocked_remote memory_only_world sample_payload
              (status_question "machine_01") "machine_01" 50 0.7
              eq_refl eq_refl Hask Hlimit)
    as (Hstore & _ & _ & _ & Hdash & _ & Hchat).
  cbv zeta. rewrite Hstore, Hchat, Hdash.
  repeat split.
Defined.

(* ===================================================================== *)
(** ** Recent readings *)
(* ===================================================================== *)

Lemma recent_items_each `{Runtime} (rows : list (SensorRow * option PredictionRow))
    (items : list RecentReading) :
  recent_items rows = Some items ->
  Forall2 (fun d item => recent_item d = Some item) rows items.
Proof.
  revert items. induction rows as [| d rows IH]; intros items Hitems;
    simpl in Hitems.
  - inversion Hitems. constructor.
  - destruct (recent_item d) as [item |] eqn:Hitem; [| discriminate].
    destruct (recent_items rows) as [rest |]; [| discriminate].
    inversion Hitems; subst items. constructor; [exact Hitem | apply IH; reflexivity].
Qed.

(** What an answer of [recent] is made of. *)
Lemma recent_ok_inv `{Runtime} (w w' : World) (machine_id : string) (limit : Z)
    (items : list RecentReading) :
  recent w machine_id limit = (Ok items, w') ->
  recent_items (select_recent w machine_id limit) = Some items.
Proof.
  unfold recent. intros Hr.
  destruct (query_gt_le 0 2000 limit); [| discriminate Hr].
  destruct (engine w); [| discriminate Hr].
  destruct (db_up w (tick w)); [| discriminate Hr].
  cbn [negb] in Hr.
  destruct (recent_items (select_recent w machine_id limit)) as [results |];
    [| discriminate Hr].
  inversion Hr. reflexivity.
Qed.

Lemma joined_with_length (w : World) (r : SensorRow) :
  List.length (joined_with (predictions w) r) = join_rows w r.
Proof.
  unfold joined_with, join_rows.
  destruct (filter (refers_to r) (predictions w)) as [| p ps]; [reflexivity |].
  rewrite length_map. simpl. reflexivity.
Qed.

Lemma flat_map_length {A B : Type} (f : A -> list B) (l : list A) :
  List.length (flat_map f l) = list_sum (map (fun x => List.length (f x)) l).
Proof.
  induction l as [| x l IH]; [reflexivity |].
  simpl. rewrite length_app, IH. reflexivity.
Qed.

Lemma insert_desc_sum {A : Type} (lt : A -> A -> bool) (f : A -> nat) (x : A)
    (l : list A) :
  list_sum (map f (insert_desc lt x l)) = f x + list_sum (map f l).
Proof.
  induction l as [| y l IH]; [reflexivity |].
  simpl. destruct (lt x y); simpl; [rewrite IH |]; lia.
Qed.

Lemma sort_desc_sum {A : Type} (lt : A -> A -> bool) (f : A -> nat) (l : list A) :
  list_sum (map f (sort_desc lt l)) = list_sum (map f l).
Proof.
  induction l as [| x l IH]; [reflexivity |].
  simpl. rewrite insert_desc_sum, IH. reflexivity.
Qed.

Lemma Forall2_same_length {A B : Type} (R : A -> B -> Prop) (l : list A)
    (l' : list B) :
  Forall2 R l l' -> List.length l = List.length l'.
Proof. intros Hall. induction Hall; simpl; congruence. Qed.

(** X24. The limit of [recent] counts rows of the join, not readings: a
    reading takes one place per prediction that refers to it, and one
    place when none does.  The answer has as many items as the join has
    rows for the machine, cut at the limit, so a reading predicted
    several times is listed several times and pushes older readings
    out. *)
Theorem recent_limit_counts_joined_rows `{Runtime} (w w' : World)
    (machine_id : string) (limit : Z) (items : list RecentReading) :
  recent w machine_id limit = (Ok items, w') ->
  List.length items
    = Nat.min (Z.to_nat limit)
        (list_sum (map (join_rows w) (readings_of w machine_id))).
Proof.
  intros Hr. apply recent_ok_inv in Hr.
  rewrite <- (Forall2_same_length _ _ _ (recent_items_each _ _ Hr)).
  unfold select_recent. rewrite length_firstn, flat_map_length.
  rewrite (map_ext _ (join_rows w) (joined_with_length w)).
  rewrite sort_desc_sum. reflexivity.
Qed.

Lemma recent_limit_counts_joined_rows_witness :
  exists items,
    fst (recent (H := strict_runtime) history_world "machine_01" 3) = Ok items /\
    map rr_ts items = [300; 300; 200]%Z /\
    List.length items = 3.
Proof.
  set (out := recent (H := strict_runtime) history_world "machine_01" 3).
  assert (Hout : exists items, out = (Ok items, snd out) /\
                               map rr_ts items = [300; 300; 200]%Z)
    by (vm_compute; eexists; split; reflexivity).
  destruct Hout as (items & Hout & Hts).
  exists items. split; [rewrite Hout; reflexivity |]. split; [exact Hts |].
  rewrite (recent_limit_counts_joined_rows (H := strict_runtime) _ _ _ _ _ Hout).
  reflexivity.
Defined.

Lemma firstn_short {A : Type} (n : nat) (l : list A) :
  List.length (firstn n l) < n -> firstn n l = l.
Proof.
  intros Hshort. apply firstn_all2.
  rewrite length_firstn in Hshort. lia.
Qed.

(** X25. A prediction [predict] has returned is shown by [recent] on the
    reading it was made for: when the answer of [recent] is not cut by
    its limit, it holds an item with the timestamp and the sensor values
    of the newest reading and a prediction with the returned identifier,
    model name, label and score.  The score is the one returned, null
    included. *)
Theorem predict_then_recent `{Runtime} (remote : Remote) (w w' w'' : World)
    (machine_id : string) (limit limit' : Z) (threshold : float)
    (res : PredictionResult) (items : list RecentReading) :
  predict remote w machine_id limit threshold = (Ok res, w') ->
  recent w' machine_id limit' = (Ok items, w'') ->
  List.length items < Z.to_nat limit' ->
  exists newest item shown,
    hd_error (select_window w machine_id limit) = Some newest /\
    In item items /\
    rr_ts item = sr_ts newest /\
    rr_air_temperature item = sr_air_temperature newest /\
    rr_prediction item = Some shown /\
    prediction_id shown = prediction_id res /\
    model_name shown = model_name res /\
    label shown = label res /\
    score shown = score res.
Proof.
  intros Hp Hr Hshort.
  destruct (predict_ok_inv remote w w' machine_id limit threshold res Hp)
    as (newest & ml & mv & lbl & m & _ & _ & (Hin & Hmach & Hhd) & _ & _ & _
        & -> & ->).
  set (row := written_row w newest machine_id (normalize ml) mv lbl) in *.
  set (w1 := step (with_predictions (step w) (predictions w ++ [row]))) in *.
  apply recent_ok_inv in Hr.
  pose proof (recent_items_each _ _ Hr) as Hall.
  rewrite <- (Forall2_same_length _ _ _ Hall) in Hshort.
  unfold select_recent in Hall, Hshort.
  rewrite (firstn_short _ _ Hshort) in Hall.
  assert (Hrefers : refers_to newest row = true)
    by (unfold refers_to; simpl; apply String.eqb_refl).
  assert (Hjoin : In (newest, Some row) (joined_with (predictions w1) newest)).
  { unfold joined_with.
    assert (Hrow : In row (filter (refers_to newest) (predictions w1))).
    { apply filter_In. split; [| exact Hrefers].
      subst w1. simpl. apply in_or_app. right. left. reflexivity. }
    destruct (filter (refers_to newest) (predictions w1)) as [| p ps];
      [destruct Hrow |].
    apply (in_map (fun p => (newest, Some p))). exact Hrow. }
  assert (Hrows : In (newest, Some row)
                    (flat_map (joined_with (predictions w1))
                       (sort_desc (fun a b => (sr_created_at a <? sr_created_at b)%Z)
                          (filter (fun r => String.eqb (sr_machine_id r) machine_id)
                             (sensor_readings w1))))).
  { apply in_flat_map. exists newest. split; [| exact Hjoin].
    apply sort_desc_In. apply filter_In. split; [exact Hin |].
    rewrite Hmach. apply String.eqb_refl. }
  destruct (Forall2_image _ _ _ _ Hall Hrows) as (item & Hitem_in & Hitem).
  unfold recent_item in Hitem.
  destruct (make_result (pr_id row) (as_value (pr_model_version row))
              (as_value (pr_prediction_label row)) (pr_failure_probability row)
              (parse_metadata (pr_metadata row))) as [shown |] eqn:Hshown;
    [| discriminate Hitem].
  cbn [option_map parse_timestamp] in Hitem.
  destruct (opt_dict (parse_metadata (sr_metadata newest))) as [md |];
    [| discriminate Hitem].
  inversion Hitem; subst item.
  exists newest. eexists. exists shown.
  split; [exact Hhd |]. split; [exact Hitem_in |].
  cbn [rr_ts rr_air_temperature rr_prediction].
  split; [reflexivity |]. split; [reflexivity |]. split; [reflexivity |].
  unfold make_result in Hshown. rewrite !opt_str_as_value in Hshown.
  destruct (opt_dict (parse_metadata (pr_metadata row))); [| discriminate Hshown].
  inversion Hshown. simpl. repeat split.
Qed.

(** In the scenario with a remote that sends a label and no probability:
    the score is null in the answer of [predict] and in that of
    [recent]. *)
Lemma predict_then_recent_witness :
  exists w' res items item shown,
    predict (H := strict_runtime) label_only_remote scenario_world
      "machine_01" 3 0.7 = (Ok res, w') /\
    fst (recent (H := strict_runtime) w' "machine_01" 50) = Ok items /\
    In item items /\
    rr_ts item = 300%Z /\
    rr_prediction item = Some shown /\
    prediction_id shown = "p-1" /\
    score shown = None.
Proof.
  set (out0 := predict (H := strict_runtime) label_only_remote scenario_world
                 "machine_01" 3 0.7).
  set (res0 := {| prediction_id := "p-1"; model_name := None;
                  label := Some "warning"; score := None; meta := Some [] |}).
  assert (Hout : out0 = (Ok res0, snd out0)) by (vm_compute; reflexivity).
  set (out1 := recent (H := strict_runtime) (snd out0) "machine_01" 50).
  assert (Hrec : exists items, out1 = (Ok items, snd out1) /\
                               List.length items = 3)
    by (vm_compute; eexists; split; reflexivity).
  destruct Hrec as (items & Hrec & Hlen).
  destruct (predict_then_recent (H := strict_runtime) _ _ _ _ _ _ 50 _ _ _
              Hout Hrec)
    as (newest & item & shown & Hhd & Hin & Hts & _ & Hpred & Hid & _ & _ & Hscore).
  - rewrite Hlen. vm_compute. lia.
  - vm_compute in Hhd. inversion Hhd; subst newest.
    exists (snd out0), res0, items, item, shown.
    split; [exact Hout |].
    split; [change (fst out1 = Ok items); rewrite Hrec; reflexivity |].
    split; [exact Hin |]. split; [exact Hts |]. split; [exact Hpred |].
    split; [exact Hid | exact Hscore].
Defined.

(* ===================================================================== *)
(** ** The order of floats; the mock service and the derived label *)
(* ===================================================================== *)

Lemma SFcompare_antisym (x y : spec_float) :
  SFcompare y x = option_map CompOpp (SFcompare x y).
Proof.
  destruct x as [sx | sx | | sx mx ex], y as [sy | sy | | sy my ey]; simpl;
    try reflexivity;
    repeat match goal with s : bool |- _ => destruct s end;
    try reflexivity; simpl; f_equal;
    rewrite (Z.compare_antisym ex ey);
    destruct (ex ?= ey)%Z; simpl; try reflexivity;
    pose proof (Pos.compare_cont_antisym mx my Eq) as Ha; simpl in Ha;
    rewrite <- Ha; destruct (Pos.compare_cont Eq mx my); reflexivity.
Qed.

Lemma SFcompare_nan (x y z : spec_float) :
  SFcompare x y = None -> y <> S754_nan -> SFcompare x z = None.
Proof.
  destruct x, y; simpl; try discriminate; try congruence;
    intros; repeat match goal with s : bool |- _ => destruct s end;
    try discriminate; try reflexivity.
Qed.

Lemma SFcompare_refl (x y : spec_float) (c : comparison) :
  SFcompare x y = Some c -> SFcompare x x = Some Eq.
Proof.
  destruct x as [sx | sx | | sx mx ex]; simpl;
    [destruct sx; reflexivity | destruct sx; reflexivity | discriminate |].
  intros _. rewrite Z.compare_refl, Pos.compare_cont_refl.
  destruct sx; reflexivity.
Qed.

Lemma SFleb_ltb_trans (x y z : spec_float) :
  SFleb x y = true -> SFltb y z = true -> SFltb x z = true.
Proof.
  unfold SFleb, SFltb.
  destruct x as [sx | sx | | sx mx ex], y as [sy | sy | | sy my ey],
           z as [sz | sz | | sz mz ez]; simpl;
    try discriminate; try reflexivity;
    repeat match goal with s : bool |- _ => destruct s end;
    simpl; try discriminate; try reflexivity;
    change (Pos.compare_cont Eq) with Pos.compare;
    destruct (Z.compare_spec ex ey), (Z.compare_spec ey ez),
             (Z.compare_spec ex ez);
    try lia; simpl; try discriminate; try reflexivity;
    destruct (Pos.compare_spec mx my), (Pos.compare_spec my mz),
             (Pos.compare_spec mx mz);
    simpl; try discriminate; try reflexivity; lia.
Qed.

Lemma SFltb_leb_trans (x y z : spec_float) :
  SFltb x y = true -> SFleb y z = true -> SFltb x z = true.
Proof.
  unfold SFleb, SFltb.
  destruct x as [sx | sx | | sx mx ex], y as [sy | sy | | sy my ey],
           z as [sz | sz | | sz mz ez]; simpl;
    try discriminate; try reflexivity;
    repeat match goal with s : bool |- _ => destruct s end;
    simpl; try discriminate; try reflexivity;
    change (Pos.compare_cont Eq) with Pos.compare;
    destruct (Z.compare_spec ex ey), (Z.compare_spec ey ez),
             (Z.compare_spec ex ez);
    try lia; simpl; try discriminate; try reflexivity;
    destruct (Pos.compare_spec mx my), (Pos.compare_spec my mz),
             (Pos.compare_spec mx mz);
    simpl; try discriminate; try reflexivity; lia.
Qed.

(** A bound a value exceeds is exceeded by every value that is not
    below it. *)
Lemma ltb_leb_trans (x y z : float) :
  (x <? y)%float = true -> (y <=? z)%float = true -> (x <? z)%float = true.
Proof. rewrite !ltb_spec, leb_spec. apply SFltb_leb_trans. Qed.

(** X26. The mock service and [score_to_label] cut the scores at the
    same thresholds but disagree on the thresholds themselves: the mock
    labels a score by [>], the backend by [<].  The two labels of a
    score are equal exactly when the score is a number other than 0.3
    and 0.7. *)
Theorem mock_label_agrees_off_thresholds (s : float) :
  mock_label s = score_to_label s <->
  (s =? 0.3)%float = false /\ (s =? 0.7)%float = false /\
  (s =? s)%float = true.
Proof.
  unfold mock_label, score_to_label.
  rewrite !ltb_spec, !eqb_spec.
  set (x := Prim2SF s). set (k3 := Prim2SF 0.3). set (k7 := Prim2SF 0.7).
  assert (H37 : SFltb k3 k7 = true) by reflexivity.
  assert (Hk3 : k3 <> S754_nan) by (vm_compute; discriminate).
  assert (Hk7 : k7 <> S754_nan) by (vm_compute; discriminate).
  pose proof (SFleb_ltb_trans x k3 k7) as T1.
  pose proof (SFltb_leb_trans k3 k7 x H37) as T2.
  pose proof (SFcompare_nan x k3 k7) as N1.
  pose proof (SFcompare_nan x k7 k3) as N2.
  pose proof (SFcompare_nan x k3 x) as N3.
  pose proof (SFcompare_refl x k3) as R.
  unfold SFleb, SFltb, SFeqb in *.
  rewrite (SFcompare_antisym x k7), (SFcompare_antisym x k3) in *.
  destruct (SFcompare x k3) as [[] |] eqn:E3;
    destruct (SFcompare x k7) as [[] |] eqn:E7; simpl in *;
    try (exfalso; discriminate (T1 eq_refl H37));
    try (exfalso; discriminate (T2 eq_refl));
    try (exfalso; discriminate (N1 eq_refl Hk3));
    try (exfalso; discriminate (N2 eq_refl Hk7));
    try rewrite (R _ eq_refl); try rewrite (N3 eq_refl Hk3);
    (split;
     [ intros Hl; try discriminate Hl; repeat split
     | intros (A & B & C); try discriminate; reflexivity ]).
Qed.

Lemma valid_readings_of `{Runtime} (rows : list SensorRow) :
  forallb valid_reading (map reading_of rows) = forallb document_or_null rows.
Proof.
  induction rows as [| r rows IH]; [reflexivity |].
  cbn [map forallb]. rewrite IH. reflexivity.
Qed.

Lemma mock_predict_window `{Runtime} (score : float) (m : string)
    (newest : SensorRow) (rest : list SensorRow) :
  mock_predict score (payload_of m (newest :: rest)) =
    if forallb document_or_null (newest :: rest)
    then Ok (mock_answer score (sr_air_temperature newest))
    else unprocessable.
Proof.
  unfold mock_predict, payload_of. rewrite scan_rows_map.
  cbn [snd app pl_readings]. rewrite valid_readings_of.
  destruct (forallb document_or_null (newest :: rest)); reflexivity.
Qed.

Lemma mock_label_truthy (score : float) :
  truthy (VStr (mock_label score)) = true.
Proof.
  unfold mock_label.
  destruct (0.7 <? score)%float; [reflexivity |].
  destruct (0.3 <? score)%float; reflexivity.
Qed.

Lemma normalize_mock_answer `{Runtime} (score : float) (temp : option float) :
  (score =? 0)%float = false ->
  let n := normalize (mock_answer score temp) in
  failure_prob n = Some score /\
  model_version n = VStr "mock-v1" /\
  label_to_store n = VStr (mock_label score) /\
  meta_ n = VDict [("mock", VBool true)].
Proof.
  intros Hs. unfold mock_answer.
  match goal with
  | |- context [normalize (VDict ?fields)] => set (d := fields)
  end.
  assert (G1 : get d "failure_probability" = VFloat score) by reflexivity.
  assert (G2 : get d "prediction_label" = VStr (mock_label score)) by reflexivity.
  assert (G3 : get d "model_version" = VStr "mock-v1") by reflexivity.
  assert (G4 : get_default d "meta" (get_default d "explain" (VDict []))
               = VDict [("mock", VBool true)]) by reflexivity.
  unfold normalize. rewrite G1, G2, G3, G4. clearbody d.
  unfold or_. rewrite mock_label_truthy.
  cbn [truthy]. rewrite Hs. cbn [negb].
  cbv zeta. repeat split.
Qed.

(** X27. Against the mock service [predict] returns what the mock
    decided: the drawn score, when it is not zero, and the label the
    mock gave it, which is not the derived one on a threshold.  This
    needs every reading of the window to carry metadata that is null or
    a document; a single reading whose metadata is anything else makes
    the mock refuse all five requests, and [predict] answers 502. *)
Theorem predict_against_mock `{Runtime} (w : World) (m : string) (limit : Z)
    (threshold score : float) :
  reachable w ->
  query_gt_le 1 2000 limit = true ->
  ~ no_readings w m ->
  (score =? 0)%float = false ->
  let out := fst (predict (mock_remote score) w m limit threshold) in
  if forallb document_or_null (select_window w m limit) then
    out = Ok {| prediction_id := uuid4 w (S (tick w));
                model_name := Some "mock-v1";
                label := Some (mock_label score);
                score := Some score;
                meta := Some [("mock", VBool true)] |}
  else exists detail, out = HttpError 502 detail.
Proof.
  intros [He Hup] Hq Hsome Hs out. subst out.
  destruct (window_of_known_machine w m limit Hq Hsome) as (newest & rest & Hwin).
  rewrite Hwin.
  pose proof (mock_predict_window score m newest rest) as Hmock.
  destruct (forallb document_or_null (newest :: rest)).
  - destruct (normalize_mock_answer score (sr_air_temperature newest) Hs)
      as (Hfp & Hmv & Hlbl & Hmeta).
    rewrite (predict_after_answer (mock_remote score) w m limit threshold
               newest rest (mock_answer score (sr_air_temperature newest))
               (sent no_trace) (Some "mock-v1") (Some (mock_label score))
               Hq He (Hup _) (Hup _) Hwin).
    + rewrite Hmeta, Hfp. reflexivity.
    + unfold call_ml_service_with_retry, default_retries.
      apply retry_loop_succeeded. unfold mock_remote. rewrite Hmock. reflexivity.
    + rewrite Hmv. reflexivity.
    + rewrite Hlbl. reflexivity.
  - rewrite (predict_accepted (mock_remote score) w m limit threshold
               Hq He (Hup _)).
    rewrite Hwin.
    destruct (retry_exhausted
                (mock_remote score ML_SERVICE_URL (payload_of m (newest :: rest))))
      as (e & tr & Hcall).
    { intros i _. unfold mock_remote. rewrite Hmock. eexists. reflexivity. }
    rewrite Hcall. eexists. reflexivity.
Qed.

Lemma predict_against_mock_witness :
  fst (predict (H := strict_runtime) (mock_remote 0.7) scenario_world
         "machine_01" 3 0.7)
    = Ok {| prediction_id := "p-1"; model_name := Some "mock-v1";
            label := Some "warning"; score := Some 0.7%float;
            meta := Some [("mock", VBool true)] |} /\
  score_to_label 0.7 = "failure".
Proof.
  assert (Hreach : reachable scenario_world)
    by (split; [| intros n]; reflexivity).
  assert (Hsome : ~ no_readings scenario_world "machine_01").
  { intros Hnone.
    apply (Hnone (reading_at "r-305" 100 "machine_01" 305.5));
      [left |]; reflexivity. }
  split; [| reflexivity].
  apply (predict_against_mock (H := strict_runtime) scenario_world "machine_01"
           3 0.7 0.7 Hreach eq_refl Hsome eq_refl).
Defined.

Lemma above_not_dropped (x x' : option float) (bound : float) :
  not_dropped x x' -> above x bound = true -> above x' bound = true.
Proof.
  unfold not_dropped, above.
  destruct x as [a |], x' as [b |]; try contradiction; [| discriminate].
  intros Hle Hlt. apply (ltb_leb_trans bound a b Hlt Hle).
Qed.

Lemma rule_not_dropped (t t' v v' c c' : option float) (b1 b2 b3 : float) :
  not_dropped t t' -> not_dropped v v' -> not_dropped c c' ->
  above t b1 || above v b2 || above c b3 = true ->
  above t' b1 || above v' b2 || above c' b3 = true.
Proof.
  intros Ht Hv Hc. rewrite !orb_true_iff.
  intros [[Hr | Hr] | Hr];
    [left; left; apply (above_not_dropped t t' b1 Ht Hr)
    | left; right; apply (above_not_dropped v v' b2 Hv Hr)
    | right; apply (above_not_dropped c c' b3 Hc Hr)].
Qed.

Lemma compute_risk_rank (t v c : option float) :
  risk_rank (compute_risk t v c) =
    if above t 315 || above v 2200 || above c 85 then 2
    else if above t 305 || above v 1600 || above c 65 then 1
    else 0.
Proof.
  unfold compute_risk.
  destruct t, v, c; try reflexivity;
    (destruct (_ || _ || _); [reflexivity |]);
    (destruct (_ || _ || _); reflexivity).
Qed.

(** X28. The risk rules are monotone: when no sensor value drops (each
    one stays null, or stays a number and does not decrease), the risk
    level does not drop either, in the order Normal, Waspada, Bahaya. *)
Theorem compute_risk_is_monotone (t t' v v' c c' : option float) :
  not_dropped t t' -> not_dropped v v' -> not_dropped c c' ->
  risk_rank (compute_risk t v c) <= risk_rank (compute_risk t' v' c').
Proof.
  intros Ht Hv Hc.
  pose proof (rule_not_dropped t t' v v' c c' 315 2200 85 Ht Hv Hc) as Hd.
  pose proof (rule_not_dropped t t' v v' c c' 305 1600 65 Ht Hv Hc) as Hw.
  rewrite !compute_risk_rank.
  destruct (above t 315 || above v 2200 || above c 85);
    [rewrite (Hd eq_refl); lia |].
  destruct (above t 305 || above v 1600 || above c 65);
    [rewrite (Hw eq_refl) | ];
    destruct (above t' 315 || above v' 2200 || above c' 85); try lia;
    destruct (above t' 305 || above v' 1600 || above c' 65); lia.
Qed.

Lemma compute_risk_is_monotone_witness :
  risk_rank (compute_risk (Some 300%float) (Some 1700%float) None)
  <= risk_rank (compute_risk (Some 300.5%float) (Some 2300%float) None).
Proof.
  apply compute_risk_is_monotone; reflexivity || exact I.
Defined.

(* ===================================================================== *)
(** ** Configuration and the newest records *)
(* ===================================================================== *)

Lemma prefix_append (sub rest : string) :
  String.prefix sub (String.append sub rest) = true.
Proof.
  induction sub as [| c sub IH]; simpl.
  - destruct rest; reflexivity.
  - destruct (ascii_dec c c) as [_ | Hne]; [exact IH | contradiction Hne; reflexivity].
Qed.

Lemma str_in_here (sub rest : string) :
  str_in sub (String.append sub rest) = true.
Proof.
  destruct (String.append sub rest) eqn:Hs; unfold str_in; fold str_in;
    rewrite <- Hs, prefix_append; reflexivity.
Qed.

Lemma str_in_append (sub pre s : string) :
  str_in sub s = true -> str_in sub (String.append pre s) = true.
Proof.
  intros Hin. induction pre as [| c pre IH]; [exact Hin |].
  cbn [String.append str_in]. rewrite IH. apply orb_true_r.
Qed.

Lemma built_url_is_url (settings : option Settings) (url : string) :
  build_database_url_from_settings settings = Some url ->
  str_in "://" url = true.
Proof.
  unfold build_database_url_from_settings.
  destruct settings as [st |]; [| discriminate]. cbv zeta.
  destruct (negb _); [discriminate |].
  intros Hurl. injection Hurl as <-.
  do 19 apply (str_in_append "://" (String _ EmptyString)).
  match goal with
  | |- str_in _ (String _ (String _ (String _ ?rest))) = true =>
      apply (str_in_here "://" rest)
  end.
Qed.

Lemma built_url_none_iff (settings : option Settings) :
  build_database_url_from_settings settings = None <->
  forall st, settings = Some st ->
    DB_HOST st = "" \/ DB_NAME st = "" \/ DB_USER st = "".
Proof.
  unfold build_database_url_from_settings.
  destruct settings as [st |].
  - cbv zeta. cbn [truthy].
    destruct (String.eqb_spec (DB_HOST st) "") as [Hh | Hh];
      destruct (String.eqb_spec (DB_NAME st) "") as [Hn | Hn];
      destruct (String.eqb_spec (DB_USER st) "") as [Hu | Hu];
      cbn [negb andb];
      try (split; [intros _ st' Hst; inversion Hst; subst st'; tauto
                  | reflexivity]).
    split; [discriminate |].
    intros Hall. destruct (Hall st eq_refl) as [Hx | [Hx | Hx]]; contradiction.
  - split; [intros _ st Hst; discriminate Hst | reflexivity].
Qed.

(** X29. The database address the service starts with always looks like
    an address: it holds [://].  There is none, and the service runs on
    its memory store, exactly when the environment gives no
    [DATABASE_URL] holding [://] (one without it, such as a bare host
    name, is ignored) and the settings are missing or lack the host,
    the database name or the user. *)
Theorem database_url_choice (env_db_url : option string)
    (settings : option Settings) :
  (forall url, database_url env_db_url settings = Some url ->
               str_in "://" url = true) /\
  (database_url env_db_url settings = None <->
   (forall url, env_db_url = Some url -> str_in "://" url = false) /\
   (forall st, settings = Some st ->
      DB_HOST st = "" \/ DB_NAME st = "" \/ DB_USER st = "")).
Proof.
  unfold database_url.
  destruct env_db_url as [env |].
  - assert (Hempty : truthy (VStr env) = false -> str_in "://" env = false).
    { destruct env; [reflexivity | discriminate]. }
    destruct (truthy (VStr env)) eqn:Ht; cbn [andb];
      [destruct (str_in "://" env) eqn:Hin |].
    + split.
      * intros url Hurl. inversion Hurl; subst url. exact Hin.
      * split; [discriminate |].
        intros [Henv _]. rewrite (Henv env eq_refl) in Hin. discriminate Hin.
    + split; [apply built_url_is_url |].
      rewrite built_url_none_iff. split.
      * intros Hst. split; [| exact Hst].
        intros url Hurl. inversion Hurl; subst url. exact Hin.
      * intros [_ Hst]. exact Hst.
    + split; [apply built_url_is_url |].
      rewrite built_url_none_iff. split.
      * intros Hst. split; [| exact Hst].
        intros url Hurl. inversion Hurl; subst url. apply Hempty. reflexivity.
      * intros [_ Hst]. exact Hst.
  - split; [apply built_url_is_url |].
    rewrite built_url_none_iff. split.
    + intros Hst. split; [| exact Hst]. intros url Hurl. discriminate Hurl.
    + intros [_ Hst]. exact Hst.
Qed.

(** X30. [get_recent] does not check its limit.  With a negative limit
    it returns nothing when an engine is configured, because the
    database refuses the query; on the memory store it returns all
    matching records, newest first, except the oldest [- limit] ones. *)
Theorem get_recent_negative_limit (w : World) (machine_id : option string)
    (limit : Z) :
  (limit < 0)%Z ->
  fst (get_recent w machine_id limit) =
    if engine w then []
    else
      let records := matching_records w machine_id in
      firstn (List.length records - Z.to_nat (- limit)) records.
Proof.
  intros Hneg. unfold get_recent, fetch_readings, matching_records.
  destruct (engine w).
  - unfold select_readings.
    assert (Hl : (0 <=? limit)%Z = false) by (apply Z.leb_gt; exact Hneg).
    rewrite Hl, andb_false_r. reflexivity.
  - cbv zeta. cbn [fst].
    set (sorted := sort_desc _ _).
    unfold slice, slice_index. cbn [Z.add].
    assert (Hl : (limit <? 0)%Z = true) by (apply Z.ltb_lt; exact Hneg).
    rewrite Hl. cbn [Z.ltb Z.compare].
    rewrite Z.min_l by lia. rewrite Z.sub_0_r. cbn [Z.to_nat skipn].
    rewrite length_map, <- firstn_map.
    replace (Z.to_nat (Z.max 0 (limit + Z.of_nat (List.length sorted))))
      with (List.length sorted - Z.to_nat (- limit)) by lia.
    reflexivity.
Qed.

Lemma get_recent_negative_limit_witness :
  fst (get_recent two_memory_records None (-1))
    = [FromMemory (memory_record "b" "2024-01-02T00:00:00" "machine_02")] /\
  fst (get_recent scenario_world None (-1)) = [].
Proof.
  split.
  - rewrite (get_recent_negative_limit two_memory_records None (-1)) by lia.
    reflexivity.
  - rewrite (get_recent_negative_limit scenario_world None (-1)) by lia.
    reflexivity.
Defined.
